(** * LAHD affordable-housing dashboard: the dataset preparation pipeline

    A shallow embedding of the module-level pipeline of
    [affordable_housing.py] (lines 10-89): row filter, column renaming,
    numeric and date coercion, per-project site count, de-duplication,
    derived columns, column pruning and null-row removal.

    The pipeline is written against pandas and numpy.  A data frame is
    modelled as its ordered column labels together with its rows, each row a
    finite map from labels to cells; the library calls the script makes are
    modelled by the functions of sections 2 to 6, named after the calls they
    stand for.  The frame bound to [lahd] on line 10, as returned by
    [pd.read_csv], is the input.

    What is taken from the libraries:
    - pandas 2.x: timestamps have nanosecond resolution, [astype(str)]
      writes a missing timestamp as the text "NaT", [rename] skips labels
      that are absent, [drop] and column selection raise [KeyError] on
      them, infinities are not missing values;
    - floats are IEEE-754 binary64 ([spec_float] with precision 53 and
      maximal exponent 1024), float32 values being kept as the binary64
      numbers they are;
    - the labels of a frame read by [read_csv] are pairwise distinct.  A
      renaming that would put one label on two columns is outside the
      embedding; a run that meets it ends in [Unmodelled].

    The dashboard built on the tables (lines 91-316) is embedded as its
    layout and its six callbacks.  Of plotly express it is taken that a
    call reads the keywords x, y, color, size, lat, lon and hover_name and
    the keys of hover_data as names of columns of the frame it is given. *)

From Stdlib Require Import ZArith String Ascii List Bool Lia Sorted OrderedTypeEx.
From Stdlib Require Import Floats.SpecFloat.
From stdpp Require Import base gmap strings list.

Open Scope string_scope.
Open Scope Z_scope.

(** ** 1. Cells *)

Record date := mkdate { year : Z; month : Z; day : Z }.

(** A cell of a frame.  A float column marks a missing value by NaN, an
    object column by the float NaN as well, a timestamp column by NaT.
    [Date d] is the timestamp of midnight on [d]; [Moment d ns] is the
    timestamp [ns] nanoseconds after that midnight, with [ns] positive and
    short of a day. *)
Inductive cell :=
| Str (s : string)
| Int (z : Z)
| Flt (f : spec_float)
| Date (d : date)
| Moment (d : date) (ns : Z)
| NaT.

#[global] Instance date_eq_dec : EqDecision date.
Proof. solve_decision. Defined.

#[global] Instance spec_float_eq_dec : EqDecision spec_float.
Proof. solve_decision. Defined.

#[global] Instance cell_eq_dec : EqDecision cell.
Proof. solve_decision. Defined.

Definition nan : cell := Flt S754_nan.

(** [pd.isna] on a scalar: NaN and NaT are missing, infinities and text
    (the text "NaT" included) are not. *)
Definition isna (c : cell) : bool :=
  match c with
  | Flt S754_nan => true
  | NaT => true
  | _ => false
  end.

Definition notna (c : cell) : bool := negb (isna c).

(** ** 2. Floating point: binary64 and the float32 downcast *)

Module F64.

Definition of_Z (z : Z) : spec_float := binary_normalize 53 1024 z 0 false.
Definition div : spec_float -> spec_float -> spec_float := SFdiv 53 1024.
Definition sub : spec_float -> spec_float -> spec_float := SFsub 53 1024.
Definition add : spec_float -> spec_float -> spec_float := SFadd 53 1024.
Definition mul : spec_float -> spec_float -> spec_float := SFmul 53 1024.

(** The C literal [1e<k>]: the binary64 number nearest to the power of ten. *)
Definition pow10 (k : Z) : spec_float := of_Z (10 ^ k).

Definition is_nan (x : spec_float) : bool :=
  match x with S754_nan => true | _ => false end.

Definition is_finite (x : spec_float) : bool :=
  match x with S754_zero _ | S754_finite _ _ _ => true | _ => false end.

Definition is_zero (x : spec_float) : bool :=
  match x with S754_zero _ => true | _ => false end.

Definition is_infinite (x : spec_float) : bool :=
  match x with S754_infinity _ => true | _ => false end.

(** [x.astype(np.float32)], the result kept in its binary64 form (every
    binary32 number is a binary64 number). *)
Definition round32 (x : spec_float) : spec_float :=
  match x with
  | S754_finite s m e =>
      match binary_round 24 128 s m e with
      | S754_finite s' m' e' => binary_round 53 1024 s' m' e'
      | r => r
      end
  | _ => x
  end.

(** Truncation toward zero, [astype] to an integer dtype. *)
Definition trunc (x : spec_float) : option Z :=
  match x with
  | S754_zero _ => Some 0
  | S754_finite s m e => Some (cond_Zopp s (Z.shiftl (Zpos m) e))
  | _ => None
  end.

(** [np.isclose(x, y, rtol=0, atol=atol, equal_nan=True)]. *)
Definition isclose (atol x y : spec_float) : bool :=
  (SFleb (SFabs (sub x y)) atol && is_finite y)
  || SFeqb x y
  || (is_nan x && is_nan y).

(** The decimal number [(-1)^s * m * 10^e], rounded to nearest even. *)
Definition of_decimal (s : bool) (m : Z) (e : Z) : spec_float :=
  match m with
  | Zpos p =>
      if 0 <=? e then binary_normalize 53 1024 (cond_Zopp s (m * 10 ^ e)) 0 false
      else div (S754_finite s p 0) (S754_finite false (Z.to_pos (10 ^ (- e))) 0)
  | _ => S754_zero s
  end.

Definition tol_float32 : spec_float := of_decimal false 5 (-4).
Definition tol_float64 : spec_float := of_decimal false 5 (-8).
Definition tol_default : spec_float := of_decimal false 1 (-8).

End F64.

(** The value a numeric cell takes in float arithmetic; text and
    timestamps have none. *)
Definition as_float (c : cell) : option spec_float :=
  match c with
  | Int z => Some (F64.of_Z z)
  | Flt f => Some f
  | _ => None
  end.

(** ** 3. Text: slices, comma removal, numeric and date literals *)

Definition chars (s : string) : list ascii := list_ascii_of_string s.
Definition text (l : list ascii) : string := string_of_list_ascii l.

(** [s[:n]] *)
Definition prefix_slice (n : nat) (s : string) : string := substring 0 n s.

(** [re.sub(',', '', s)] *)
Definition remove_commas (s : string) : string :=
  text (List.filter (fun a => negb (Ascii.eqb a ",")) (chars s)).

Definition is_digit (a : ascii) : bool :=
  let n := nat_of_ascii a in (48 <=? n)%nat && (n <=? 57)%nat.

Definition digit_val (a : ascii) : Z := Z.of_nat (nat_of_ascii a) - 48.

Definition is_space (a : ascii) : bool :=
  let n := nat_of_ascii a in (n =? 32)%nat || ((9 <=? n)%nat && (n <=? 13)%nat).

Definition digits_value (ds : list ascii) : Z :=
  fold_left (fun acc a => 10 * acc + digit_val a) ds 0.

Fixpoint span (p : ascii -> bool) (l : list ascii) : list ascii * list ascii :=
  match l with
  | a :: l' =>
      if p a then let '(h, t) := span p l' in (a :: h, t) else ([], l)
  | [] => ([], [])
  end.

Fixpoint drop_spaces (l : list ascii) : list ascii :=
  match l with
  | a :: l' => if is_space a then drop_spaces l' else l
  | [] => []
  end.

Definition strip (l : list ascii) : list ascii :=
  rev (drop_spaces (rev (drop_spaces l))).

Definition take_sign (l : list ascii) : bool * list ascii :=
  match l with
  | "-"%char :: l' => (true, l')
  | "+"%char :: l' => (false, l')
  | _ => (false, l)
  end.

Definition lower (a : ascii) : ascii :=
  let n := nat_of_ascii a in
  if (65 <=? n)%nat && (n <=? 90)%nat then ascii_of_nat (n + 32) else a.

(** *** Numeric literals

    [pd.to_numeric] reads a text with [floatify], which calls the C function
    [precise_xstrtod] of pandas' tokenizer: blanks, a sign, decimal digits
    with an optional fraction, an optional exponent, blanks.  The first
    seventeen digits are accumulated in binary64, each by one multiplication
    by ten and one addition; further digits of the integer part only raise
    the exponent, further digits of the fraction are dropped; the number is
    then scaled by a power of ten taken from a table of binary64 literals.
    A text with neither point nor exponent is an integer as well, read
    exactly by [int].  A number beyond binary64 and a text with anything
    left over are errors; of the words only the spellings of the two
    infinities are read. *)

(** The arithmetic of a C [int], with its wrap-around. *)
Definition wrap32 (z : Z) : Z := (z + 2 ^ 31) mod 2 ^ 32 - 2 ^ 31.

Definition max_digits : nat := 17.

(** [number = number * 10. + digit] *)
Definition push_digit (number : spec_float) (a : ascii) : spec_float :=
  F64.add (F64.mul number (F64.of_Z 10)) (F64.of_Z (digit_val a)).

(** [n = n * 10 + digit] *)
Definition push_exponent_digit (n : Z) (a : ascii) : Z :=
  wrap32 (n * 10 + digit_val a).

(** The scaling at the end of [precise_xstrtod]. *)
Definition scale (number : spec_float) (exponent : Z) : spec_float :=
  if 0 <? exponent then F64.mul number (F64.pow10 exponent)
  else if exponent <? -308 then
         if exponent <? -616 then S754_zero false
         else F64.div (F64.div number (F64.pow10 (-308 - exponent)))
                      (F64.pow10 308)
       else F64.div number (F64.pow10 (- exponent)).

(** The exponent part: [e] or [E], a sign, at most seventeen digits.  The
    result is the flag [maybe_int], the exponent and the text left. *)
Definition read_exponent (maybe_int : bool) (exponent : Z) (l : list ascii)
  : option (bool * Z * list ascii) :=
  match l with
  | a :: l' =>
      if Ascii.eqb (lower a) "e" then
        let '(eneg, l1) := take_sign l' in
        let '(ed, l2) := span is_digit l1 in
        if bool_decide (ed = []) || (max_digits <? length ed)%nat then None
        else
          let n := fold_left push_exponent_digit ed 0 in
          Some (false, wrap32 (if eneg then exponent - n else exponent + n), l2)
      else Some (maybe_int, exponent, l)
  | [] => Some (maybe_int, exponent, [])
  end.

(** [precise_xstrtod] as [to_double] calls it (point for the decimal, E for
    the exponent, no thousands separator, trailing blanks skipped), with
    the test of [to_double] that no error was set and the text was read to
    its end: the number and the flag [maybe_int], or nothing. *)
Definition precise_xstrtod (l : list ascii) : option (spec_float * bool) :=
  let '(neg, l1) := take_sign (drop_spaces l) in
  let '(ip, l2) := span is_digit l1 in
  let kept := take max_digits ip in
  let '(maybe_int, fp, l3) :=
    match l2 with
    | "."%char :: l2' => let '(fp, l3) := span is_digit l2' in (false, fp, l3)
    | _ => (true, [], l2)
    end in
  let decimals := take (max_digits - length kept) fp in
  let exponent :=
    Z.of_nat (length ip - length kept) - Z.of_nat (length decimals) in
  match (kept ++ decimals)%list with
  | [] => None
  | _ :: _ =>
      let number := fold_left push_digit (kept ++ decimals)%list (S754_zero false) in
      let number := if neg then SFopp number else number in
      match read_exponent maybe_int exponent l3 with
      | Some (maybe_int, exponent, rest) =>
          if 308 <? exponent then None
          else
            let number := scale number exponent in
            if F64.is_infinite number then None
            else match drop_spaces rest with
                 | [] => Some (number, maybe_int)
                 | _ :: _ => None
                 end
      | None => None
      end
  end.

(** [int(s)] on a text that [precise_xstrtod] took for an integer: digits
    with a sign before them and blanks around them. *)
Definition int_of_text (l : list ascii) : Z :=
  let '(neg, l1) := take_sign (drop_spaces l) in
  cond_Zopp neg (digits_value (span is_digit l1).1).

(** The words [floatify] reads when the text is no number. *)
Definition infinity_word (l : list ascii) : option spec_float :=
  let w := text (map lower l) in
  if bool_decide (w ∈ ["inf"; "+inf"; "infinity"; "+infinity"])
  then Some (S754_infinity false)
  else if bool_decide (w ∈ ["-inf"; "-infinity"])
  then Some (S754_infinity true)
  else None.

(** What [maybe_convert_numeric] sees in a value: an integer together with
    its float, or a float. *)
Inductive literal :=
| integer_literal (z : Z) (f : spec_float)
| float_literal (f : spec_float).

Definition floatify (s : string) : option literal :=
  match precise_xstrtod (chars s) with
  | Some (f, true) => Some (integer_literal (int_of_text (chars s)) f)
  | Some (f, false) => Some (float_literal f)
  | None => float_literal <$> infinity_word (chars s)
  end.

(** *** Dates *)

Definition is_leap (y : Z) : bool :=
  ((y mod 4 =? 0) && negb (y mod 100 =? 0)) || (y mod 400 =? 0).

Definition days_in_month (y m : Z) : Z :=
  match m with
  | 1 | 3 | 5 | 7 | 8 | 10 | 12 => 31
  | 4 | 6 | 9 | 11 => 30
  | 2 => if is_leap y then 29 else 28
  | _ => 0
  end.

Definition date_leb (a b : date) : bool :=
  (year a <? year b)
  || ((year a =? year b)
      && ((month a <? month b) || ((month a =? month b) && (day a <=? day b)))).

(** The midnights a nanosecond timestamp can hold. *)
Definition timestamp_min : date := mkdate 1677 9 22.
Definition timestamp_max : date := mkdate 2262 4 11.

Definition valid_date (d : date) : bool :=
  (1 <=? month d) && (month d <=? 12)
  && (1 <=? day d) && (day d <=? days_in_month (year d) (month d))
  && date_leb timestamp_min d && date_leb d timestamp_max.

(** The nanoseconds of a day. *)
Definition day_ns : Z := 86400 * 10 ^ 9.

(** The other timestamps a nanosecond timestamp can hold: from
    1677-09-21 00:12:43.145224193 to 2262-04-11 23:47:16.854775807. *)
Definition valid_moment (d : date) (ns : Z) : bool :=
  (0 <? ns) && (ns <? day_ns)
  && (1 <=? month d) && (month d <=? 12)
  && (1 <=? day d) && (day d <=? days_in_month (year d) (month d))
  && ((date_leb timestamp_min d && date_leb d (mkdate 2262 4 10))
      || (bool_decide (d = timestamp_max) && (ns <=? 85636854775807))
      || (bool_decide (d = mkdate 1677 9 21) && (763145224193 <=? ns))).

Fixpoint split_on (sep : ascii) (l : list ascii) : list (list ascii) :=
  match l with
  | [] => [[]]
  | a :: l' =>
      if Ascii.eqb a sep then [] :: split_on sep l'
      else match split_on sep l' with
           | h :: t => (a :: h) :: t
           | [] => [[a]]
           end
  end.

(** [%m]: [1[0-2]|0[1-9]|[1-9]] *)
Definition month_field (l : list ascii) : option Z :=
  match l with
  | [a] => if is_digit a && (1 <=? digit_val a) then Some (digit_val a) else None
  | [a; b] =>
      let v := 10 * digit_val a + digit_val b in
      if is_digit a && is_digit b && (1 <=? v) && (v <=? 12) then Some v else None
  | _ => None
  end.

(** [%d]: [3[01]|[12]\d|0[1-9]|[1-9]| [1-9]] *)
Definition day_field (l : list ascii) : option Z :=
  match l with
  | [a] => if is_digit a && (1 <=? digit_val a) then Some (digit_val a) else None
  | [a; b] =>
      if Ascii.eqb a " " then
        if is_digit b && (1 <=? digit_val b) then Some (digit_val b) else None
      else
        let v := 10 * digit_val a + digit_val b in
        if is_digit a && is_digit b && (1 <=? v) && (v <=? 31) then Some v else None
  | _ => None
  end.

(** [%Y]: [\d\d\d\d] *)
Definition year_field (l : list ascii) : option Z :=
  match l with
  | [a; b; c; d] => if forallb is_digit l then Some (digits_value l) else None
  | _ => None
  end.

Definition checked (d : date) : option date :=
  if valid_date d then Some d else None.

(** [strptime(s, "%m/%d/%Y")], the whole of [s] matched. *)
Definition parse_mdY (s : string) : option date :=
  match split_on "/" (chars s) with
  | [ms; ds; ys] =>
      match month_field ms, day_field ds, year_field ys with
      | Some m, Some d, Some y => checked (mkdate y m d)
      | _, _, _ => None
      end
  | _ => None
  end.

(** [strptime(s, "%Y")]: the first of January of that year. *)
Definition parse_Y (s : string) : option date :=
  match year_field (chars s) with
  | Some y => checked (mkdate y 1 1)
  | None => None
  end.

Definition digit_char (d : Z) : ascii := ascii_of_nat (Z.to_nat (48 + d mod 10)).

Definition pad2 (v : Z) : list ascii := [digit_char (v / 10); digit_char v].

Definition pad4 (v : Z) : list ascii :=
  [digit_char (v / 1000); digit_char (v / 100); digit_char (v / 10); digit_char v].

(** The text of a midnight timestamp: [YYYY-MM-DD]. *)
Definition isoformat (d : date) : string :=
  text (pad4 (year d) ++ "-"%char :: pad2 (month d) ++ "-"%char :: pad2 (day d)).

(** The last [n] decimal digits of [v]. *)
Fixpoint digits_of (n : nat) (v : Z) : list ascii :=
  match n with
  | O => []
  | S n' => (digits_of n' (v / 10) ++ [digit_char v])%list
  end.

(** The time of day [HH:MM:SS], followed by the point and [fraction]
    digits of the second when [fraction] is 3, 6 or 9. *)
Definition time_text (fraction : nat) (ns : Z) : list ascii :=
  let sec := ns / 10 ^ 9 in
  (pad2 (sec / 3600) ++ ":"%char :: pad2 (sec / 60 mod 60)
     ++ ":"%char :: pad2 (sec mod 60)
     ++ match fraction with
        | O => []
        | _ => "."%char
               :: digits_of fraction (ns mod 10 ^ 9 / 10 ^ (9 - Z.of_nat fraction))
        end)%list.

(** How a timestamp column is written: the dates alone, or the dates with
    the time of day and a number of digits for the fraction. *)
Inductive time_format :=
| date_only
| date_time (fraction : nat).

Definition timestamp_text (f : time_format) (d : date) (ns : Z) : string :=
  match f with
  | date_only => isoformat d
  | date_time fraction =>
      isoformat d ++ String " "%char (text (time_text fraction ns))
  end.

(** ** 4. Elementwise library calls *)

(** The texts [pd.to_datetime] takes for the time of the call, whatever
    the format. *)
Definition names_the_present (s : string) : bool :=
  bool_decide (s ∈ ["now"; "today"]).

(** The timestamp at [ns] nanoseconds after midnight of [d], when a
    nanosecond timestamp can hold it. *)
Definition timestamp (d : date) (ns : Z) : cell :=
  if ns =? 0 then if valid_date d then Date d else NaT
  else if valid_moment d ns then Moment d ns else NaT.

(** [pd.to_datetime(_, format="%m/%d/%Y", errors='coerce')] on one value,
    [present] being the timestamp of the call: a text that names the
    present takes it, any other text is parsed, a number or a missing
    value matches nothing, and what is a timestamp already stays one. *)
Definition to_datetime_mdY (present : cell) (c : cell) : cell :=
  match c with
  | Str s =>
      if names_the_present s then present
      else match parse_mdY s with Some d => Date d | None => NaT end
  | Date d => if valid_date d then Date d else NaT
  | Moment d ns => if valid_moment d ns then Moment d ns else NaT
  | _ => NaT
  end.

(** [pd.to_datetime(_, format="%Y", errors='coerce')] on one value.  An
    integer is matched as the text [str] writes for it. *)
Definition to_datetime_Y (present : cell) (c : cell) : cell :=
  match c with
  | Str s =>
      if names_the_present s then present
      else match parse_Y s with Some d => Date d | None => NaT end
  | Int z =>
      if (1000 <=? z) && (z <=? 9999) then
        match checked (mkdate z 1 1) with Some d => Date d | None => NaT end
      else NaT
  | Date d => if valid_date d then Date d else NaT
  | Moment d ns => if valid_moment d ns then Moment d ns else NaT
  | _ => NaT
  end.

(** The time of day of a timestamp, in nanoseconds. *)
Definition time_of (c : cell) : Z :=
  match c with Moment _ ns => ns | _ => 0 end.

(** The format [astype(str)] writes a timestamp column in: the dates alone
    when every timestamp is a midnight, otherwise the time of day as well,
    with the digits of the finest fraction that occurs. *)
Definition column_format (col : list cell) : time_format :=
  let ts := time_of <$> col in
  if forallb (Z.eqb 0) ts then date_only
  else if existsb (fun ns => negb (ns mod 1000 =? 0)) ts then date_time 9
  else if existsb (fun ns => negb (ns / 1000 mod 1000 =? 0)) ts then date_time 6
  else if existsb (fun ns => negb (ns / 1000 mod 1000000 =? 0)) ts then date_time 3
  else date_time 0.

(** [astype(str)] on a value of a timestamp column written in format [f]. *)
Definition timestamp_astype_str (f : time_format) (c : cell) : cell :=
  match c with
  | Date d => Str (timestamp_text f d 0)
  | Moment d ns => Str (timestamp_text f d ns)
  | Str s => Str s
  | _ => Str "NaT"
  end.

(** [astype(str)] on a timestamp column. *)
Definition datetime_astype_str (col : list cell) : list cell :=
  timestamp_astype_str (column_format col) <$> col.

(** [lambda d: d[:n]] *)
Definition slice_cell (n : nat) (c : cell) : cell :=
  match c with
  | Str s => Str (prefix_slice n s)
  | _ => c
  end.

(** [replace(',', '', regex=True)] on one value: only text is rewritten. *)
Definition replace_commas (c : cell) : cell :=
  match c with
  | Str s => Str (remove_commas s)
  | _ => c
  end.

(** One value as [maybe_convert_numeric] sees it under [errors='coerce']:
    a text through [floatify], a missing value where that fails; an
    integer with the float it converts to; a float.  Cells read from the
    CSV are text or numbers. *)
Definition seen (c : cell) : literal :=
  match c with
  | Str s => default (float_literal S754_nan) (floatify s)
  | Int z => integer_literal z (F64.of_Z z)
  | Flt f => float_literal f
  | _ => float_literal S754_nan
  end.

(** ** 5. Columns: common dtype, downcasts, order, groups *)

Definition is_int (c : cell) : bool :=
  match c with Int _ => true | _ => false end.

(** [astype(np.float64)] *)
Definition astype_float64 (c : cell) : cell :=
  match as_float c with Some f => Flt f | None => c end.

(** [astype(np.float32)] *)
Definition astype_float32 (c : cell) : cell :=
  match as_float c with Some f => Flt (F64.round32 f) | None => c end.

(** [astype] to an integer dtype. *)
Definition astype_int (c : cell) : option Z :=
  match c with
  | Int z => Some z
  | Flt f => F64.trunc f
  | _ => None
  end.

Definition literal_float (v : literal) : spec_float :=
  match v with integer_literal _ f | float_literal f => f end.

(** An integer outside both 64-bit ranges, one that only the unsigned
    range holds, and a negative one. *)
Definition beyond_64_bits (v : literal) : bool :=
  match v with
  | integer_literal z _ => (z <? - 2 ^ 63) || (2 ^ 64 - 1 <? z)
  | float_literal _ => false
  end.

Definition is_uint (v : literal) : bool :=
  match v with integer_literal z _ => 2 ^ 63 - 1 <? z | float_literal _ => false end.

Definition is_sint (v : literal) : bool :=
  match v with integer_literal z _ => z <? 0 | float_literal _ => false end.

Definition is_float_literal (v : literal) : bool :=
  match v with float_literal _ => true | integer_literal _ _ => false end.

(** The array is a float array as soon as a float or a missing value was
    seen, or an integer that no 64-bit type holds, or integers that no
    single 64-bit type holds. *)
Definition seen_float (l : list literal) : bool :=
  existsb (fun v => is_float_literal v || beyond_64_bits v) l
  || (existsb is_uint l && existsb is_sint l).

(** The array [maybe_convert_numeric] returns: the floats kept for the
    values, or the integers when the array is no float array. *)
Definition numeric_array (l : list literal) : list cell :=
  if seen_float l then (fun v => Flt (literal_float v)) <$> l
  else (fun v => match v with
                 | integer_literal z _ => Int z
                 | float_literal f => Flt f
                 end) <$> l.

(** [np.allclose(xs, ys, rtol=0, atol=tol, equal_nan=True)] *)
Definition allclose (tol : spec_float) (xs ys : list cell) : bool :=
  forallb (fun xy =>
             match as_float xy.1, as_float xy.2 with
             | Some a, Some b => F64.isclose tol a b
             | _, _ => false
             end) (combine xs ys).

(** [downcast='float']: float32 if every value survives within 5e-4; an
    integer array that does not is tried as float64 within 5e-8; otherwise
    the array is left as it is. *)
Definition downcast_float (col : list cell) : list cell :=
  let c32 := astype_float32 <$> col in
  if allclose F64.tol_float32 c32 col then c32
  else if forallb is_int col then
         let c64 := astype_float64 <$> col in
         if allclose F64.tol_float64 c64 col then c64 else col
       else col.

Definition in_int64 (z : Z) : bool := (- 2 ^ 63 <=? z) && (z <? 2 ^ 63).

(** [downcast='integer']: an integer array keeps its values in the
    narrowest width that holds them; a float array with no missing value
    becomes its truncation when that is within 1e-8 of every value. *)
Definition downcast_integer (col : list cell) : list cell :=
  if forallb is_int col then col
  else match mapM astype_int col with
       | Some zs =>
           if forallb notna col && forallb in_int64 zs
              && allclose F64.tol_default (Int <$> zs) col
           then Int <$> zs else col
       | None => col
       end.

(** [pd.to_numeric(col, downcast=..., errors='coerce')] *)
Definition to_numeric (downcast : list cell -> list cell) (col : list cell)
  : list cell :=
  downcast (numeric_array (seen <$> col)).

(** The order [sort_values] and the group keys follow: numbers by value,
    text by code points, timestamps by date and time of day, missing
    values last. *)
Definition cell_rank (c : cell) : Z :=
  match c with
  | Int _ => 0
  | Flt _ => 1
  | Date _ | Moment _ _ => 2
  | Str _ => 3
  | NaT => 4
  end.

Definition moment_leb (x : date) (s : Z) (y : date) (t : Z) : bool :=
  date_leb x y && (negb (date_leb y x) || (s <=? t)).

Definition cell_leb (a b : cell) : bool :=
  if isna b then true
  else if isna a then false
  else match a, b with
       | Int x, Int y => x <=? y
       | Flt x, Flt y => SFleb x y
       | Date x, Date y => date_leb x y
       | Date x, Moment y t => moment_leb x 0 y t
       | Moment x s, Date y => moment_leb x s y 0
       | Moment x s, Moment y t => moment_leb x s y t
       | Str s, Str t => String.leb s t
       | _, _ => cell_rank a <=? cell_rank b
       end.

Section ByKey.
Context {A : Type} (key : A -> cell).

(** Insertion before the first element whose key is not smaller. *)
Fixpoint insert_by (x : A) (l : list A) : list A :=
  match l with
  | [] => [x]
  | y :: l' =>
      if cell_leb (key x) (key y) then x :: l else y :: insert_by x l'
  end.

Definition sort_by (l : list A) : list A := foldr insert_by [] l.

(** The first element of each key, in order of appearance. *)
Fixpoint first_by (seen : list cell) (l : list A) : list A :=
  match l with
  | [] => []
  | x :: l' =>
      if bool_decide (key x ∈ seen) then first_by seen l'
      else x :: first_by (key x :: seen) l'
  end.
End ByKey.

(** [pd.unique] *)
Definition unique (l : list cell) : list cell := first_by id [] l.

Definition count_of (k : cell) (l : list cell) : nat :=
  length (filter (fun k' => k' = k) l).

(** [groupby(key)[key].count()]: one entry per key that is not missing,
    in the order of the categories. *)
Definition groupby_count (keys : list cell) : list (cell * Z) :=
  (fun k => (k, Z.of_nat (count_of k keys)))
    <$> sort_by id (unique (filter (fun k => notna k = true) keys)).

(** ** 6. Frames *)

Inductive exn :=
| KeyError (label : string)
| LengthMismatch
| NotSubscriptable
| UnsupportedOperand
| ZeroDivision
| IndexOutOfBounds.

(** What running a statement gives: a value, a raised exception, or
    [Unmodelled] when the frame is outside the embedding: it would carry
    one label on two columns, its cost column is not numeric at line 67,
    or its units column holds timestamps. *)
Inductive outcome (A : Type) :=
| Ok (a : A)
| Raise (e : exn)
| Unmodelled.
Arguments Ok {A} a.
Arguments Raise {A} e.
Arguments Unmodelled {A}.

#[global] Instance outcome_ret : MRet outcome := @Ok.
#[global] Instance outcome_bind : MBind outcome :=
  fun A B f m =>
    match m with
    | Ok a => f a
    | Raise e => Raise e
    | Unmodelled => Unmodelled
    end.

Fixpoint traverse {A B} (f : A -> outcome B) (l : list A) : outcome (list B) :=
  match l with
  | [] => Ok []
  | x :: l' => y ← f x; ys ← traverse f l'; Ok (y :: ys)
  end.

Abbreviation row := (gmap string cell).

Record DataFrame := mkDataFrame { columns : list string; rows : list row }.

(** The value of a row under a label; a row with no entry reads as NaN. *)
Definition cell_of (r : row) (c : string) : cell := default nan (r !! c).

(** [df[c]] as the list of its values. *)
Definition series (c : string) (df : DataFrame) : list cell :=
  (fun r => cell_of r c) <$> rows df.

Definition require (c : string) (df : DataFrame) : outcome unit :=
  if bool_decide (c ∈ columns df) then Ok () else Raise (KeyError c).

Fixpoint require_all (cs : list string) (df : DataFrame) : outcome unit :=
  match cs with
  | [] => Ok ()
  | c :: cs' => _ ← require c df; require_all cs' df
  end.

Definition getitem (c : string) (df : DataFrame) : outcome (list cell) :=
  _ ← require c df; Ok (series c df).

Definition add_label (c : string) (cols : list string) : list string :=
  if bool_decide (c ∈ cols) then cols else (cols ++ [c])%list.

(** [df[dst] = df[src].apply(f)], value by value. *)
Definition derive_column (dst src : string) (f : cell -> cell) (df : DataFrame)
  : DataFrame :=
  {| columns := add_label dst (columns df);
     rows := (fun r => <[dst := f (cell_of r src)]> r) <$> rows df |}.

Definition apply_map (c : string) (f : cell -> cell) (df : DataFrame) : DataFrame :=
  derive_column c c f df.

(** [df[c] = vals], the values taken in row order. *)
Definition setitem (c : string) (vals : list cell) (df : DataFrame) : DataFrame :=
  {| columns := add_label c (columns df);
     rows := zip_with (fun r v => <[c := v]> r) (rows df) vals |}.

(** [df[c] = f(df[c])] for a call [f] that sees the whole column. *)
Definition update_series (c : string) (f : list cell -> list cell) (df : DataFrame)
  : DataFrame :=
  setitem c (f (series c df)) df.

(** [df[c] = np.array(...)]: the lengths must agree. *)
Definition assign_array (c : string) (vals : list cell) (df : DataFrame)
  : outcome DataFrame :=
  if bool_decide (length vals = length (rows df)) then Ok (setitem c vals df)
  else Raise LengthMismatch.

(** [df.loc[df[c] != lit, :]] *)
Definition loc_ne (c lit : string) (df : DataFrame) : outcome DataFrame :=
  _ ← require c df;
  Ok {| columns := columns df;
        rows := filter (fun r => cell_of r c ≠ Str lit) (rows df) |}.

Definition rename_row (old new : string) (r : row) : row :=
  <[new := cell_of r old]> (delete old r).

(** [df.rename(columns={old: new})]: a label that is absent is skipped. *)
Definition rename_column (old new : string) (df : DataFrame) : outcome DataFrame :=
  if bool_decide (old ∈ columns df) then
    if bool_decide (new ∈ columns df) then Unmodelled
    else Ok {| columns := (fun c => if bool_decide (c = old) then new else c)
                            <$> columns df;
               rows := rename_row old new <$> rows df |}
  else Ok df.

(** [df.drop(ls, axis='columns')]: every label must be present. *)
Definition drop_labels (ls : list string) (df : DataFrame) : outcome DataFrame :=
  _ ← require_all ls df;
  Ok {| columns := filter (fun c => c ∉ ls) (columns df);
        rows := (fun r => foldr delete r ls) <$> rows df |}.

(** [df.drop_duplicates([c])] and [df.sort_values(c)] *)
Definition drop_duplicates (c : string) (df : DataFrame) : DataFrame :=
  {| columns := columns df;
     rows := first_by (fun r => cell_of r c) [] (rows df) |}.

Definition sort_values (c : string) (df : DataFrame) : DataFrame :=
  {| columns := columns df;
     rows := sort_by (fun r => cell_of r c) (rows df) |}.

(** [df.dropna()]: a row stays when none of its values is missing. *)
Definition complete (cols : list string) (r : row) : bool :=
  forallb (fun c => notna (cell_of r c)) cols.

Definition dropna (df : DataFrame) : DataFrame :=
  {| columns := columns df;
     rows := filter (fun r => complete (columns df) r = true) (rows df) |}.

(** *** Division

    A column read from the CSV is a numeric array when all its values are
    numbers, and an array of Python objects as soon as one of them is
    text.  The dtype stays with the column when rows are taken out of the
    frame. *)

Definition is_numeric (c : cell) : bool :=
  match c with Int _ | Flt _ => true | _ => false end.

Definition is_timestamp (c : cell) : bool :=
  match c with Date _ | Moment _ _ | NaT => true | _ => false end.

Definition object_dtype (col : list cell) : bool := negb (forallb is_numeric col).

(** [x / y] in numpy, on two numeric arrays: binary64 division, value by
    value, with the infinities and NaN of IEEE 754 and no exception. *)
Definition np_truediv (xs ys : list spec_float) : list cell :=
  zip_with (fun x y => Flt (F64.div x y)) xs ys.

(** [x / y] in Python, for a float [x] and a value [y] of an object
    array: no division by text, none by a number that is zero. *)
Definition py_truediv (x : spec_float) (y : cell) : outcome cell :=
  match as_float y with
  | Some b => if F64.is_zero b then Raise ZeroDivision else Ok (Flt (F64.div x b))
  | None => Raise UnsupportedOperand
  end.

(** [x / y] for a float column [x] and an object column [y], as pandas
    runs it: value by value in row order; when that ends in a
    [TypeError], once more on the rows where neither value is missing,
    the other rows getting NaN. *)
Definition object_truediv (xs : list spec_float) (ys : list cell)
  : outcome (list cell) :=
  match traverse (fun xy => py_truediv xy.1 xy.2) (zip xs ys) with
  | Raise UnsupportedOperand =>
      traverse (fun xy => if notna (Flt xy.1) && notna xy.2
                          then py_truediv xy.1 xy.2 else Ok nan)
               (zip xs ys)
  | r => r
  end.

(** [tdc / ptu] for a float column [tdc]: [units_object] tells whether
    [ptu] is an array of objects. *)
Definition truediv (units_object : bool) (tdc ptu : list cell)
  : outcome (list cell) :=
  match mapM as_float tdc with
  | Some xs =>
      if existsb is_timestamp ptu then Unmodelled
      else if units_object then object_truediv xs ptu
      else match mapM as_float ptu with
           | Some ys => Ok (np_truediv xs ys)
           | None => Unmodelled
           end
  | None => Unmodelled
  end.

(** *** The components of a layout and the figures of plotly express *)

Module dash.

Inductive css :=
| css_text (s : string)
| css_number (n : Z).

#[warnings="-register-all"] Inductive component :=
| Div (children : list component) (style : list (string * css))
| H1 (children : string) (style : list (string * css))
| H2 (children : string) (style : list (string * css))
| P (children : string) (style : list (string * css))
| Label (children : string) (style : list (string * css))
| Hr
| DataTable (data : list (list (string * cell))) (page_size : Z)
| RadioItems (options : list string) (value : string) (id : string)
| Dropdown (options : list string) (value : string) (id : string)
| Graph (id : string).

End dash.

Module px.

Inductive chart := bar | scatter | density_heatmap | box | scatter_map.

(** The value of a keyword argument: text, a dictionary of flags
    ([hover_data]), of floats ([center]) or of integers ([margin]). *)
Inductive value :=
| str (s : string)
| flag (b : bool)
| flags (d : list (string * bool))
| floats (d : list (string * spec_float))
| ints (d : list (string * Z)).

Record figure := mk_figure {
  chart_of : chart;
  data_frame : DataFrame;
  arguments : list (string * value);
  updates : list (string * list (string * value))
}.

End px.

(** ** 7. The pipeline of [affordable_housing.py] *)

(** The clock of the run: [reading i] is the date and the nanoseconds after
    midnight that [pd.to_datetime] takes for the present at position [i]
    of the column it converts. *)
Class Clock := { reading : nat -> date * Z }.

(** Closed decidable statements are settled by evaluation. *)
Ltac by_compute := apply (bool_decide_unpack _); vm_compute; exact I.
Ltac decide_elem := by_compute.

Section Run.
Context {clock : Clock}.

(** The timestamp of the present at position [i]; NaT when a nanosecond
    timestamp cannot hold it. *)
Definition present (i : nat) : cell := timestamp (reading i).1 (reading i).2.

Definition numeric_columns : list string :=
  ["LAHD FUNDED"; "LEVERAGE"; "TAX EXEMPT CONDUIT BOND"; "TOTAL DEVELOPMENT COST"].

Definition categorical_columns : list string :=
  ["APN"; "PROJECT NUMBER"; "DEVELOPMENT STAGE"; "CONSTRUCTION TYPE";
   "SITE NUMBER"; "HOUSING TYPE"; "SUPPORTIVE HOUSING"; "IN-SERVICE DATE"].

Definition dropped_columns : list string :=
  ["APN"; "NAME"; "SITE ADDRESS"; "SITE NUMBER"; "SITE COMMUNITY"; "SITE UNITS";
   "SH UNITS PER SITE"; "IN-SERVICE DATE"; "PHOTO"; "PROJECT SUMMARY URL";
   "CONTRACT NUMBERS"; "DATE STAMP"; "SITE LONGITUDE"; "SITE LATITUDE";
   "GPS_COORDS ON MAP"; "DEVELOPER"; "MANAGEMENT COMPANY"; "CONTACT PHONE"].

(** Line 13: [date_stamp = lahd['DATE STAMP'][0][:10]] *)
Definition read_date_stamp (df : DataFrame) : outcome string :=
  col ← getitem "DATE STAMP" df;
  match col with
  | [] => Raise (KeyError "0")
  | Str s :: _ => Ok (prefix_slice 10 s)
  | _ :: _ => Raise NotSubscriptable
  end.

(** Lines 17-18: the two row filters. *)
Definition filter_rows (df : DataFrame) : outcome DataFrame :=
  df1 ← loc_ne "CONSTRUCTION TYPE" "ACQUISITION ONLY" df;
  loc_ne "HOUSING TYPE" "AT-RISK" df1.

(** Lines 21-23: the renaming. *)
Definition rename_columns (df : DataFrame) : outcome DataFrame :=
  df1 ← rename_column "TDC" "TOTAL DEVELOPMENT COST" df;
  rename_column "SITE #" "SITE NUMBER" df1.

(** Lines 28-35: commas out of the monetary columns, then these columns
    and JOBS to numbers. *)
Definition coerce_numeric (df : DataFrame) : outcome DataFrame :=
  _ ← require_all numeric_columns df;
  let df1 := foldl (fun d c => apply_map c replace_commas d) df numeric_columns in
  let df2 := foldl (fun d c => update_series c (to_numeric downcast_float) d)
                   df1 numeric_columns in
  _ ← require "JOBS" df2;
  Ok (update_series "JOBS" (to_numeric downcast_integer) df2).

(** Lines 38-45: the categorical columns keep their values; the funding
    date becomes a timestamp. *)
Definition coerce_types (df : DataFrame) : outcome DataFrame :=
  _ ← require_all categorical_columns df;
  _ ← require "DATE FUNDED" df;
  Ok (update_series "DATE FUNDED" (imap (fun i => to_datetime_mdY (present i))) df).

(** Lines 49-57: the site counts, one row per project in key order, and
    the counts attached by position. *)
Definition count_sites (lahd : DataFrame) : outcome DataFrame :=
  keys ← getitem "PROJECT NUMBER" lahd;
  let project_count := groupby_count keys in
  let lahd_projects :=
    sort_values "PROJECT NUMBER" (drop_duplicates "PROJECT NUMBER" lahd) in
  assign_array "NUMBER OF SITES" ((fun kc => Int kc.2) <$> project_count)
               lahd_projects.

(** Lines 58-64: the funding date as text, its year, the date cut to ten
    characters, the year parsed back. *)
Definition funded_columns (p : DataFrame) : outcome DataFrame :=
  _ ← require "DATE FUNDED" p;
  let p1 := update_series "DATE FUNDED" datetime_astype_str p in
  let p2 := derive_column "YEAR FUNDED" "DATE FUNDED" (slice_cell 4) p1 in
  let p3 := apply_map "DATE FUNDED" (slice_cell 10) p2 in
  Ok (update_series "YEAR FUNDED" (imap (fun i => to_datetime_Y (present i))) p3).

(** Lines 65-67: [tdc / ptu].  [units_object] is the dtype the units
    column has had since line 10. *)
Definition cost_per_unit (units_object : bool) (p : DataFrame) : outcome DataFrame :=
  _ ← require "TOTAL DEVELOPMENT COST" p;
  _ ← require "PROJECT TOTAL UNITS" p;
  cost ← truediv units_object (series "TOTAL DEVELOPMENT COST" p)
                 (series "PROJECT TOTAL UNITS" p);
  Ok (setitem "COST PER HOUSING UNIT" cost p).

(** Lines 70-80: the named columns dropped, then the column at position 3. *)
Definition prune_columns (p : DataFrame) : outcome DataFrame :=
  p1 ← drop_labels dropped_columns p;
  match columns p1 !! 3%nat with
  | Some c => drop_labels [c] p1
  | None => Raise IndexOutOfBounds
  end.

(** Lines 49-80 together: the project table before null-row removal. *)
Definition build_projects (units_object : bool) (lahd : DataFrame)
  : outcome DataFrame :=
  p ← count_sites lahd;
  p ← funded_columns p;
  p ← cost_per_unit units_object p;
  prune_columns p.

Record Output := mkOutput {
  date_stamp : string;
  lahd : DataFrame;
  lahd_projects : DataFrame;
  lahd_projects_no_jobs_column : DataFrame
}.

(** Lines 10-84: everything up to null-row removal. *)
Definition prepare (raw : DataFrame) : outcome Output :=
  stamp ← read_date_stamp raw;
  filtered ← filter_rows raw;
  renamed ← rename_columns filtered;
  numeric ← coerce_numeric renamed;
  typed ← coerce_types numeric;
  projects ← build_projects (object_dtype (series "PROJECT TOTAL UNITS" raw)) typed;
  no_jobs ← drop_labels ["JOBS"] projects;
  Ok {| date_stamp := stamp;
        lahd := typed;
        lahd_projects := projects;
        lahd_projects_no_jobs_column := no_jobs |}.

(** Lines 88-89: null-row removal in both project tables. *)
Definition drop_incomplete (o : Output) : Output :=
  {| date_stamp := date_stamp o;
     lahd := lahd o;
     lahd_projects := dropna (lahd_projects o);
     lahd_projects_no_jobs_column := dropna (lahd_projects_no_jobs_column o) |}.

(** Lines 10-89, from the frame read from the CSV to the tables the
    dashboard uses. *)
Definition pipeline (raw : DataFrame) : outcome Output :=
  o ← prepare raw; Ok (drop_incomplete o).

(** Lines 30-33 on one monetary column: commas out, then to numbers. *)
Definition monetary_coercion (col : list cell) : list cell :=
  to_numeric downcast_float (replace_commas <$> col).

(** ** 8. A sample in the published layout *)

(** The clock of the samples: every reading is the second of January
    2024, a quarter of a second after 12:30:15. *)
Definition sample_clock : Clock :=
  {| reading := fun _ => (mkdate 2024 1 2, 45015250000000) |}.

Definition published_columns : list string :=
  ["APN"; "PROJECT NUMBER"; "NAME"; "DEVELOPMENT STAGE"; "CONSTRUCTION TYPE";
   "SITE ADDRESS"; "SITE COUNCIL DISTRICT"; "SITE #"; "SITE COMMUNITY";
   "SITE UNITS"; "PROJECT TOTAL UNITS"; "HOUSING TYPE"; "SUPPORTIVE HOUSING";
   "SH UNITS PER SITE"; "DATE FUNDED"; "LAHD FUNDED"; "LEVERAGE";
   "TAX EXEMPT CONDUIT BOND"; "TDC"; "IN-SERVICE DATE"; "DEVELOPER";
   "MANAGEMENT COMPANY"; "CONTACT PHONE"; "PHOTO"; "JOBS";
   "PROJECT SUMMARY URL"; "CONTRACT NUMBERS"; "DATE STAMP"; "SITE LONGITUDE";
   "SITE LATITUDE"; "GPS_COORDS ON MAP"].

(** One site row: the fields the pipeline computes with are given, the
    remaining ones hold a placeholder text. *)
Definition site (cols : list string) (tdc_label : string)
    (project construction housing funded tdc units jobs : cell) : row :=
  <["PROJECT NUMBER" := project]>
  (<["CONSTRUCTION TYPE" := construction]>
  (<["HOUSING TYPE" := housing]>
  (<["DATE FUNDED" := funded]>
  (<[tdc_label := tdc]>
  (<["PROJECT TOTAL UNITS" := units]>
  (<["JOBS" := jobs]>
  (<["DATE STAMP" := Str "01/02/2024 12:00:00 AM"]>
  (<["LAHD FUNDED" := Str "1,000,000"]>
  (<["LEVERAGE" := Str "2,500,000"]>
  (<["TAX EXEMPT CONDUIT BOND" := Str "0"]>
  (list_to_map (map (fun c => (c, Str "-")) cols)))))))))))).

(** A whole number in a float column. *)
Definition num (z : Z) : cell := Flt (F64.of_Z z).

(** Eight sites of seven projects: P1 has two sites and no units, P3 and
    P4 fall to the row filter, P5 has a funding date and P6 a cost that do
    not parse, P7 has no jobs value. *)
Definition sample_rows (cols : list string) (tdc_label : string) : list row :=
  let s := site cols tdc_label in
  [ s (Str "P2") (Str "NEW CONSTRUCTION") (Str "FAMILY")
      (Str "03/15/2010") (Str "1,234,500") (Int 10) (num 5);
    s (Str "P1") (Str "REHAB") (Str "SENIORS")
      (Str "12/01/2005") (Str "2,000,000") (Int 0) (num 7);
    s (Str "P1") (Str "REHAB") (Str "SENIORS")
      (Str "12/01/2005") (Str "2,000,000") (Int 0) (num 7);
    s (Str "P3") (Str "REHAB") (Str "AT-RISK")
      (Str "06/30/2012") (Str "900,000") (Int 12) (num 2);
    s (Str "P4") (Str "ACQUISITION ONLY") (Str "FAMILY")
      (Str "06/30/2012") (Str "900,000") (Int 12) (num 2);
    s (Str "P5") (Str "REHAB") (Str "FAMILY")
      (Str "TBD") (Str "900,000") (Int 12) (num 2);
    s (Str "P6") (Str "REHAB") (Str "FAMILY")
      (Str "7/4/2015") (Str "TBD") (Int 4) (num 3);
    s (Str "P7") (Str "REHAB") (Str "FAMILY")
      (Str "7/4/2015") (Str "500,000") (Int 4) nan ].

Definition sample : DataFrame :=
  {| columns := published_columns;
     rows := sample_rows published_columns "TDC" |}.

(** The same rows under a header that already carries the descriptive
    names in place of [TDC] and [SITE #]. *)
Definition descriptive_columns : list string :=
  map (fun c => if bool_decide (c = "TDC") then "TOTAL DEVELOPMENT COST"
                else if bool_decide (c = "SITE #") then "SITE NUMBER" else c)
      published_columns.

Definition sample_descriptive : DataFrame :=
  {| columns := descriptive_columns;
     rows := sample_rows descriptive_columns "TOTAL DEVELOPMENT COST" |}.

(** A header with neither [TDC] nor its descriptive name. *)
Definition sample_without_cost : DataFrame :=
  {| columns := filter (fun c => c ≠ "TDC") published_columns;
     rows := map (delete "TDC") (sample_rows published_columns "TDC") |}.

(** A header with neither [SITE #] nor its descriptive name. *)
Definition sample_without_site : DataFrame :=
  {| columns := filter (fun c => c ≠ "SITE #") published_columns;
     rows := map (delete "SITE #") (sample_rows published_columns "TDC") |}.

#[global] Instance exn_eq_dec : EqDecision exn.
Proof. solve_decision. Defined.

#[global] Instance outcome_eq_dec {A} `{EqDecision A} : EqDecision (outcome A).
Proof. solve_decision. Defined.

#[global] Instance DataFrame_eq_dec : EqDecision DataFrame.
Proof. solve_decision. Defined.

#[global] Instance Output_eq_dec : EqDecision Output.
Proof. solve_decision. Defined.

(** The tables of a run that went through. *)
Definition result_of (m : outcome Output) : Output :=
  match m with
  | Ok o => o
  | _ => mkOutput "" (mkDataFrame [] []) (mkDataFrame [] []) (mkDataFrame [] [])
  end.

Definition sample_out : Output := result_of (pipeline sample).
Definition sample_prepared : Output := result_of (prepare sample).

(** A row of the sample's project table: the second one, project P2. *)
Definition sample_project_row : row :=
  default ∅ (rows (lahd_projects sample_out) !! 1%nat).

(** The first row of the sample's project table: project P1, which has
    no units. *)
Definition sample_zero_row : row :=
  default ∅ (rows (lahd_projects sample_out) !! 0%nat).

(** The frame of a statement that went through. *)
Definition frame_of (m : outcome DataFrame) : DataFrame :=
  match m with
  | Ok df => df
  | _ => mkDataFrame [] []
  end.

(** The sample after lines 17-23, and after lines 28-35. *)
Definition sample_renamed : DataFrame :=
  frame_of (filter_rows sample ≫= rename_columns).
Definition sample_numeric : DataFrame := frame_of (coerce_numeric sample_renamed).

(** ** 9. The vocabulary of the statements *)

(** The order of two elements by their keys. *)
Definition key_le {A} (key : A -> cell) (x y : A) : Prop :=
  cell_leb (key x) (key y) = true.

(** The first element of a list under a given key. *)
Definition first_with {A} (key : A -> cell) (k : cell) (l : list A) : option A :=
  head (filter (fun x => key x = k) l).

(** The statement ends in an exception. *)
Definition raises {A} (m : outcome A) : Prop := ∃ e, m = Raise e.

(** Outside the labels [W], a row either keeps an entry or loses it, and it
    keeps the entries of the labels [cols]. *)
Definition row_step (W cols : list string) (r r' : row) : Prop :=
  ∀ c, c ∉ W ->
       (r' !! c = r !! c ∨ r' !! c = None) ∧ (c ∈ cols -> r' !! c = r !! c).

(** A statement that keeps the rows in place, writes only under the labels
    [W] and adds no other label. *)
Definition frame_step (W : list string) (df df' : DataFrame) : Prop :=
  (∀ c, c ∈ columns df' -> c ∈ columns df ∨ c ∈ W) ∧
  Forall2 (row_step W (columns df')) (rows df) (rows df').

(** The labels written by lines 21-35. *)
Definition numeric_labels : list string :=
  ["TDC"; "TOTAL DEVELOPMENT COST"; "SITE #"; "SITE NUMBER"; "LAHD FUNDED";
   "LEVERAGE"; "TAX EXEMPT CONDUIT BOND"; "JOBS"].

(** The labels written by lines 21-45. *)
Definition cleaned_labels : list string := (numeric_labels ++ ["DATE FUNDED"])%list.

(** The labels written from line 57 on: the derived columns. *)
Definition derived_labels : list string :=
  ["NUMBER OF SITES"; "DATE FUNDED"; "YEAR FUNDED"; "COST PER HOUSING UNIT"].

(** Lines 58 and 61, row by row: the first ten characters of the text of
    a timestamp, which are those of its date in every format. *)
Definition funded_text (c : cell) : cell :=
  slice_cell 10 (timestamp_astype_str date_only c).

(** The first of January of the year of a timestamp, when a timestamp can
    hold it. *)
Definition year_start (c : cell) : cell :=
  match c with
  | Date d | Moment d _ =>
      match checked (mkdate (year d) 1 1) with Some y => Date y | None => NaT end
  | _ => NaT
  end.

(** The frames a successful run goes through. *)
Record trace := mkTrace {
  t_filtered : DataFrame;   (* after line 18 *)
  t_counted : DataFrame;    (* after line 57 *)
  t_funded : DataFrame;     (* after line 64 *)
  t_costed : DataFrame      (* after line 67 *)
}.

(** [t] holds the frames of the run of [prepare] on [raw] that gave [o]. *)
Definition traced (raw : DataFrame) (o : Output) (t : trace) : Prop :=
  filter_rows raw = Ok (t_filtered t)
  ∧ frame_step cleaned_labels (t_filtered t) (lahd o)
  ∧ count_sites (lahd o) = Ok (t_counted t)
  ∧ funded_columns (t_counted t) = Ok (t_funded t)
  ∧ cost_per_unit (object_dtype (series "PROJECT TOTAL UNITS" raw)) (t_funded t)
    = Ok (t_costed t)
  ∧ prune_columns (t_costed t) = Ok (lahd_projects o)
  ∧ drop_labels ["JOBS"] (lahd_projects o) = Ok (lahd_projects_no_jobs_column o).

(** The row has a missing value under one of the labels. *)
Definition has_missing (cols : list string) (r : row) : Prop :=
  ∃ c, c ∈ cols ∧ isna (cell_of r c) = true.

(** [after] is [before] without the rows that have a missing value: the
    labels are the same, the rows kept are rows of [before] as they were,
    and a row is kept exactly when none of its values is missing. *)
Definition null_rows_removed (before after : DataFrame) : Prop :=
  columns after = columns before
  ∧ rows after `sublist_of` rows before
  ∧ (∀ r, r ∈ rows after <-> r ∈ rows before ∧ ¬ has_missing (columns before) r)
  ∧ (∀ r c, r ∈ rows after -> c ∈ columns after -> isna (cell_of r c) = false).

(** Every row of [df'] comes from a row of [df], changed only under the
    labels [W]. *)
Definition frame_sel (W : list string) (df df' : DataFrame) : Prop :=
  (∀ c, c ∈ columns df' -> c ∈ columns df ∨ c ∈ W)
  ∧ ∀ r', r' ∈ rows df' -> ∃ r, r ∈ rows df ∧ row_step W (columns df') r r'.

(** Every label the pipeline writes under. *)
Definition written_labels : list string := (cleaned_labels ++ derived_labels)%list.

(** The rows the filter of lines 17-18 is to remove. *)
Definition excluded (r : row) : Prop :=
  cell_of r "CONSTRUCTION TYPE" = Str "ACQUISITION ONLY"
  ∨ cell_of r "HOUSING TYPE" = Str "AT-RISK".

(** The labels written after line 57. *)
Definition late_labels : list string :=
  ["DATE FUNDED"; "YEAR FUNDED"; "COST PER HOUSING UNIT"].

(** The key of the grouping, of the de-duplication and of the sort. *)
Definition project_key (r : row) : cell := cell_of r "PROJECT NUMBER".

(** The rows of line 54: first occurrences, in key order. *)
Definition project_rows (df : DataFrame) : list row :=
  sort_by project_key (first_by project_key [] (rows df)).

(** A row with the number of keys equal to its own as NUMBER OF SITES. *)
Definition with_count (keys : list cell) (r : row) : row :=
  <["NUMBER OF SITES" := Int (Z.of_nat (count_of (project_key r) keys))]> r.

(** What a timestamp column holds: NaT, the midnight of a valid date, or
    a valid moment later in the day. *)
Definition is_stamp (c : cell) : Prop :=
  c = NaT
  ∨ (∃ d, valid_date d = true ∧ c = Date d)
  ∨ ∃ d ns, valid_moment d ns = true ∧ c = Moment d ns.

(** The date of a timestamp. *)
Definition date_of (c : cell) : option date :=
  match c with Date d | Moment d _ => Some d | _ => None end.

(** The number zero, as an integer or as a float of either sign. *)
Definition is_zero (c : cell) : Prop := c = Int 0 ∨ ∃ s, c = Flt (S754_zero s).

(** A number that is zero as a float: what Python refuses to divide by. *)
Definition zero_float (c : cell) : bool :=
  match as_float c with Some b => F64.is_zero b | None => false end.

(** The cost column as the specification words it: the quotient when both
    operands are present and the units are not zero, a missing value when
    the units are zero or an operand is missing. *)
Definition cost_as_specified (tbl : DataFrame) : Prop :=
  ∀ r, r ∈ rows tbl ->
    let tdc := cell_of r "TOTAL DEVELOPMENT COST" in
    let ptu := cell_of r "PROJECT TOTAL UNITS" in
    let cost := cell_of r "COST PER HOUSING UNIT" in
    (isna tdc = false -> isna ptu = false -> ¬ is_zero ptu ->
     ∃ x y, as_float tdc = Some x ∧ as_float ptu = Some y ∧ cost = Flt (F64.div x y))
    ∧ (is_zero ptu ∨ isna tdc = true ∨ isna ptu = true -> isna cost = true).

(** The cost of a row as line 67 leaves it: the binary64 quotient of the
    cost by the units.  In a units column of objects a row gets through
    with units that are zero or text only when its cost is missing, and
    over text its cost per unit is missing. *)
Definition quotient_cell (units_object : bool) (tdc ptu cost : cell) : Prop :=
  ∃ x, as_float tdc = Some x
       ∧ match as_float ptu with
         | Some y =>
             cost = Flt (F64.div x y)
             ∧ (units_object = true -> F64.is_zero y = true -> x = S754_nan)
         | None => units_object = true ∧ x = S754_nan ∧ cost = nan
         end.

(** The cost of a row of the file reads as a number: lines 30-33 leave a
    float that is not missing. *)
Definition cost_present (c : cell) : Prop :=
  literal_float (seen (replace_commas c)) ≠ S754_nan.

(** Lines 13-64: the project table as it reaches the division. *)
Definition before_division (raw : DataFrame) : outcome DataFrame :=
  _ ← read_date_stamp raw;
  filtered ← filter_rows raw;
  renamed ← rename_columns filtered;
  numeric ← coerce_numeric renamed;
  typed ← coerce_types numeric;
  counted ← count_sites typed;
  funded_columns counted.


(** The renaming contract as the specification words it: a frame without
    the column [TDC] or without the column [SITE #] makes the pipeline
    fail. *)
Definition rename_fails_loudly (raw : DataFrame) : Prop :=
  "TDC" ∉ columns raw ∨ "SITE #" ∉ columns raw -> raises (pipeline raw).

(** The statement runs through. *)
Definition completes {A} (m : outcome A) : Prop := ∃ a, m = Ok a.

(** The columns of the project table in the published layout. *)
Definition project_columns : list string :=
  ["PROJECT NUMBER"; "DEVELOPMENT STAGE"; "CONSTRUCTION TYPE";
   "PROJECT TOTAL UNITS"; "HOUSING TYPE"; "SUPPORTIVE HOUSING"; "DATE FUNDED";
   "LAHD FUNDED"; "LEVERAGE"; "TAX EXEMPT CONDUIT BOND";
   "TOTAL DEVELOPMENT COST"; "JOBS"; "NUMBER OF SITES"; "YEAR FUNDED";
   "COST PER HOUSING UNIT"].

(** ** Further vocabulary and samples *)

#[global] Instance excluded_dec r : Decision (excluded r).
Proof. unfold excluded. apply _. Defined.

(** The rows lines 17-18 keep. *)
Definition kept_rows (raw : DataFrame) : list row :=
  filter (fun r => ¬ excluded r) (rows raw).

(** The cell holds a number (NaN and the infinities included). *)
Definition is_number (c : cell) : Prop := is_Some (as_float c).

#[global] Instance is_number_dec c : Decision (is_number c).
Proof. unfold is_number. apply _. Defined.

(** A column of one dtype: all integers, or all floats. *)
Definition is_flt (c : cell) : bool :=
  match c with Flt _ => true | _ => false end.

Definition one_dtype (col : list cell) : Prop :=
  Forall (fun c => is_int c = true) col ∨ Forall (fun c => is_flt c = true) col.

(** The first row of the file carries a text under DATE STAMP. *)
Definition stamped (raw : DataFrame) : Prop :=
  ∃ r rest s, rows raw = r :: rest ∧ cell_of r "DATE STAMP" = Str s.

(** Every row the filter keeps has a project number. *)
Definition keyed (raw : DataFrame) : Prop :=
  ∀ r, r ∈ kept_rows raw -> isna (project_key r) = false.

(** The first kept row of every project. *)
Definition project_heads (raw : DataFrame) : list row :=
  first_by project_key [] (kept_rows raw).

(** The labels of the project table after line 67, in the published
    layout. *)
Definition costed_columns : list string :=
  (descriptive_columns
     ++ ["NUMBER OF SITES"; "YEAR FUNDED"; "COST PER HOUSING UNIT"])%list.

(** The sample with one more site row at its end. *)
Definition sample_with (r : row) : DataFrame :=
  {| columns := published_columns;
     rows := (sample_rows published_columns "TDC" ++ [r])%list |}.

(** A site row without project number. *)
Definition unkeyed_site : row :=
  site published_columns "TDC" nan (Str "REHAB") (Str "FAMILY")
       (Str "7/4/2015") (Str "500,000") (Int 4) (num 1).

(** A site row of a new project whose units were read as text. *)
Definition text_units_site : row :=
  site published_columns "TDC" (Str "P8") (Str "REHAB") (Str "FAMILY")
       (Str "7/4/2015") (Str "500,000") (Str "1,200") (num 1).


(** The project table of the sample as it reaches the division. *)
Definition sample_funded : DataFrame := frame_of (before_division sample).


(** A file with the published header and no row. *)
Definition header_only : DataFrame := {| columns := published_columns; rows := [] |}.

(** The integer a cell holds; any other cell counts for nothing. *)
Definition int_value (c : cell) : Z :=
  match c with Int z => z | _ => 0 end.

(** The sum of an integer column. *)
Definition total (col : list cell) : Z :=
  foldr (fun c acc => int_value c + acc) 0 col.

(** ** The dashboard (lines 91-316)

    The layout is the tree of components the script builds; a callback is
    the call of plotly express it makes, kept as the chart, the frame and
    the keyword arguments, with the updates applied to the figure
    afterwards. *)

(** A dictionary display [{k1: v1, k2: v2, ...}]: a key given again takes
    the later value and keeps its place. *)
Fixpoint dict_set {V} (k : string) (v : V) (d : list (string * V))
  : list (string * V) :=
  match d with
  | [] => [(k, v)]
  | (k', v') :: d' =>
      if bool_decide (k' = k) then (k, v) :: d' else (k', v') :: dict_set k v d'
  end.

Definition dict_literal {V} (items : list (string * V)) : list (string * V) :=
  foldl (fun d kv => dict_set kv.1 kv.2 d) [] items.

(** [df.to_dict('records')] *)
Definition to_dict_records (df : DataFrame) : list (list (string * cell)) :=
  (fun r => (fun c => (c, cell_of r c)) <$> columns df) <$> rows df.

Definition section1 (o : Output) : list dash.component :=
  [ dash.H1 "LAHD Affordable Housing Projects (2003 to Present)"
      [("color", dash.css_text "darkblue")];
    dash.P ("Data Date Stamp: " ++ date_stamp o)
      [("color", dash.css_text "darkred"); ("font-size", dash.css_number 20)];
    dash.Hr;
    dash.H2 "LAHD Affordable Housing Project Dataset"
      [("color", dash.css_text "darkblue")];
    dash.DataTable (to_dict_records (lahd_projects o)) 8;
    dash.Hr;
    dash.H2 "Total Development Costs by Year" [("color", dash.css_text "darkblue")];
    dash.Label "Housing Categories"
      [("color", dash.css_text "darkred"); ("font-size", dash.css_number 20)];
    dash.RadioItems ["HOUSING TYPE"; "CONSTRUCTION TYPE"; "SUPPORTIVE HOUSING"]
      "HOUSING TYPE" "plot1_input";
    dash.Graph "plot1_output";
    dash.Hr ].

Definition section2 : list dash.component :=
  [ dash.H2 "Funding Source versus Project Metric"
      [("color", dash.css_text "darkblue")];
    dash.Label "Funding Source for Housing"
      [("color", dash.css_text "darkred"); ("font-size", dash.css_number 20)];
    dash.Dropdown ["LAHD FUNDED"; "LEVERAGE"; "TAX EXEMPT CONDUIT BOND";
                   "TOTAL DEVELOPMENT COST"]
      "LAHD FUNDED" "plot2_input";
    dash.Label "Housing Project Metric"
      [("color", dash.css_text "darkred"); ("font-size", dash.css_number 20)];
    dash.Dropdown ["PROJECT TOTAL UNITS"; "JOBS"; "COST PER HOUSING UNIT"]
      "JOBS" "plot2_input2";
    dash.Label "Housing Categories"
      [("color", dash.css_text "darkred"); ("font-size", dash.css_number 20)];
    dash.Dropdown ["HOUSING TYPE"; "CONSTRUCTION TYPE"; "SUPPORTIVE HOUSING"]
      "HOUSING TYPE" "plot2_input3";
    dash.Graph "plot2_output";
    dash.Graph "plot2_output2";
    dash.Graph "plot2_output3";
    dash.Hr ].

Definition section3 : list dash.component :=
  [ dash.H2 "Funding and Project Metrics by Housing Category"
      [("color", dash.css_text "darkblue")];
    dash.Label "Housing Project Metrics"
      [("color", dash.css_text "darkred"); ("font-size", dash.css_number 20)];
    dash.Dropdown ["PROJECT TOTAL UNITS"; "JOBS"; "COST PER HOUSING UNIT";
                   "LAHD FUNDED"; "LEVERAGE"; "TAX EXEMPT CONDUIT BOND";
                   "TOTAL DEVELOPMENT COST"]
      "JOBS" "plot3_input";
    dash.Label "Housing Category 1"
      [("color", dash.css_text "darkred"); ("font-size", dash.css_number 20)];
    dash.Dropdown ["HOUSING TYPE"; "CONSTRUCTION TYPE"; "SUPPORTIVE HOUSING"]
      "HOUSING TYPE" "plot3_input2";
    dash.Label "Housing Category 2"
      [("color", dash.css_text "darkred"); ("font-size", dash.css_number 20)];
    dash.Dropdown ["ALL"; "HOUSING TYPE"; "CONSTRUCTION TYPE"; "SUPPORTIVE HOUSING"]
      "SUPPORTIVE HOUSING" "plot3_input3";
    dash.Graph "plot3_output" ].

Definition section4 : list dash.component :=
  [ dash.H2 "Affordable Housing Map by Housing Category"
      [("color", dash.css_text "darkblue")];
    dash.Label "Housing Category"
      [("color", dash.css_text "darkred"); ("font-size", dash.css_number 20)];
    dash.Dropdown ["HOUSING TYPE"; "CONSTRUCTION TYPE"; "SUPPORTIVE HOUSING"]
      "HOUSING TYPE" "plot4_input1";
    dash.Label "Housing Project Metrics"
      [("color", dash.css_text "darkred"); ("font-size", dash.css_number 20)];
    dash.Dropdown ["PROJECT TOTAL UNITS"; "NONE"; "LAHD FUNDED"; "LEVERAGE";
                   "TAX EXEMPT CONDUIT BOND"; "TOTAL DEVELOPMENT COST"]
      "NONE" "plot4_input2";
    dash.Label "Map Layout"
      [("color", dash.css_text "darkred"); ("font-size", dash.css_number 20)];
    dash.RadioItems ["open-street-map"; "carto-voyager"; "carto-darkmatter";
                     "satellite-streets"]
      "open-street-map" "plot4_input3";
    dash.Graph "plot4_output" ].

(** Line 199: [app.layout] *)
Definition layout (o : Output) : dash.component :=
  dash.Div (section1 o ++ section2 ++ section3 ++ section4)%list
           [("font-family", dash.css_text "system-ui")].

(** The six functions the script registers are all named [update_graph];
    here each carries the id of the graph it draws. *)

(** Lines 207-215 *)
Definition update_graph_plot1_output (o : Output) (column_selected : string)
  : px.figure :=
  px.mk_figure px.bar (lahd_projects o)
    [ ("x", px.str "YEAR FUNDED"); ("y", px.str "TOTAL DEVELOPMENT COST");
      ("color", px.str column_selected); ("barmode", px.str "stack");
      ("hover_data",
       px.flags (dict_literal [ ("TOTAL DEVELOPMENT COST", true);
                                (column_selected, true);
                                ("DATE FUNDED", true); ("YEAR FUNDED", false);
                                ("PROJECT NUMBER", true) ]));
      ("title", px.str ("TOTAL COST and " ++ column_selected ++ " by YEAR FUNDED")) ]
    [].

(** Lines 225-231 *)
Definition update_graph_plot2_output (o : Output)
    (column1_selected column2_selected column3_selected : string) : px.figure :=
  let t := column1_selected ++ " versus " ++ column2_selected ++ " by "
           ++ column3_selected in
  px.mk_figure px.scatter (lahd_projects o)
    [ ("x", px.str column2_selected); ("y", px.str column1_selected);
      ("size", px.str "PROJECT TOTAL UNITS"); ("color", px.str column3_selected);
      ("hover_name", px.str "PROJECT NUMBER"); ("title", px.str t) ]
    [].

(** Lines 239-248 *)
Definition update_graph_plot2_output2 (o : Output)
    (column1_selected column2_selected : string) : px.figure :=
  let t := column1_selected ++ " versus " ++ column2_selected in
  px.mk_figure px.density_heatmap (lahd_projects o)
    [ ("x", px.str column2_selected); ("y", px.str column1_selected);
      ("title", px.str t); ("text_auto", px.flag true);
      ("hover_data",
       px.flags (dict_literal [ (column2_selected, true); (column1_selected, true);
                                ("PROJECT NUMBER", true) ])) ]
    [].

(** Lines 257-265 *)
Definition update_graph_plot2_output3 (o : Output)
    (column1_selected column2_selected : string) : px.figure :=
  let t := column1_selected ++ " and " ++ column2_selected ++ " by YEAR FUNDED" in
  px.mk_figure px.bar (lahd_projects o)
    [ ("x", px.str "YEAR FUNDED"); ("y", px.str column1_selected);
      ("color", px.str column2_selected);
      ("hover_data",
       px.flags (dict_literal [ (column1_selected, true); (column2_selected, true);
                                ("DATE FUNDED", true); ("YEAR FUNDED", false);
                                ("PROJECT NUMBER", true) ]));
      ("title", px.str t) ]
    [].

(** Lines 275-286 *)
Definition update_graph_plot3_output (o : Output)
    (column1_selected column2_selected column3_selected : string) : px.figure :=
  let fig :=
    if bool_decide (column3_selected = "ALL") then
      px.mk_figure px.box (lahd_projects o)
        [ ("y", px.str column2_selected); ("x", px.str column1_selected);
          ("hover_name", px.str "PROJECT NUMBER");
          ("title", px.str (column1_selected ++ " by " ++ column2_selected)) ]
        []
    else
      let t := column1_selected ++ " by " ++ column2_selected ++ " and "
               ++ column3_selected in
      px.mk_figure px.box (lahd_projects o)
        [ ("y", px.str column2_selected); ("x", px.str column1_selected);
          ("color", px.str column3_selected);
          ("hover_name", px.str "PROJECT NUMBER"); ("title", px.str t) ]
        [] in
  px.mk_figure (px.chart_of fig) (px.data_frame fig) (px.arguments fig)
    (px.updates fig ++ [("update_traces", [("orientation", px.str "h")])])%list.

(** Lines 296-316 *)
Definition update_graph_plot4_output (o : Output)
    (column1_selected column2_selected map_layout : string) : px.figure :=
  let center := px.floats [ ("lat", F64.of_decimal false 34088 (-3));
                            ("lon", F64.of_decimal true 118353 (-3)) ] in
  let fig :=
    if bool_decide (column2_selected = "NONE") then
      px.mk_figure px.scatter_map (lahd o)
        [ ("lat", px.str "SITE LATITUDE"); ("lon", px.str "SITE LONGITUDE");
          ("center", center); ("color", px.str column1_selected);
          ("hover_name", px.str "PROJECT NUMBER");
          ("hover_data", px.flags (dict_literal [("SITE UNITS", true)]));
          ("title", px.str ("Affordable Housing by " ++ column1_selected)) ]
        []
    else
      let t := "Affordable Housing by " ++ column1_selected ++ " and "
               ++ column2_selected in
      px.mk_figure px.scatter_map (lahd o)
        [ ("lat", px.str "SITE LATITUDE"); ("lon", px.str "SITE LONGITUDE");
          ("center", center); ("color", px.str column1_selected);
          ("size", px.str column2_selected);
          ("hover_name", px.str "PROJECT NUMBER");
          ("hover_data", px.flags (dict_literal [("SITE UNITS", true)]));
          ("title", px.str t) ]
        [] in
  px.mk_figure (px.chart_of fig) (px.data_frame fig) (px.arguments fig)
    (px.updates fig
       ++ [ ("update_layout", [("map_style", px.str map_layout)]);
            ("update_layout",
             [("margin", px.ints [("r", 0); ("t", 30); ("l", 0); ("b", 0)])]) ])%list.

(** A registration [@callback(Output(...), Input(...), ...)]: the property
    written, the properties read, and the function called with the values
    read. *)
Record callback := mk_callback {
  output : string * string;
  inputs : list (string * string);
  handler : list string -> option px.figure
}.

(** Lines 203-316: the registrations, in the order of the script. *)
Definition callbacks (o : Output) : list callback :=
  [ mk_callback ("plot1_output", "figure") [("plot1_input", "value")]
      (fun args => match args with
                   | [a] => Some (update_graph_plot1_output o a)
                   | _ => None
                   end);
    mk_callback ("plot2_output", "figure")
      [("plot2_input", "value"); ("plot2_input2", "value"); ("plot2_input3", "value")]
      (fun args => match args with
                   | [a; b; c] => Some (update_graph_plot2_output o a b c)
                   | _ => None
                   end);
    mk_callback ("plot2_output2", "figure")
      [("plot2_input", "value"); ("plot2_input2", "value")]
      (fun args => match args with
                   | [a; b] => Some (update_graph_plot2_output2 o a b)
                   | _ => None
                   end);
    mk_callback ("plot2_output3", "figure")
      [("plot2_input", "value"); ("plot2_input2", "value")]
      (fun args => match args with
                   | [a; b] => Some (update_graph_plot2_output3 o a b)
                   | _ => None
                   end);
    mk_callback ("plot3_output", "figure")
      [("plot3_input", "value"); ("plot3_input2", "value"); ("plot3_input3", "value")]
      (fun args => match args with
                   | [a; b; c] => Some (update_graph_plot3_output o a b c)
                   | _ => None
                   end);
    mk_callback ("plot4_output", "figure")
      [("plot4_input1", "value"); ("plot4_input2", "value"); ("plot4_input3", "value")]
      (fun args => match args with
                   | [a; b; c] => Some (update_graph_plot4_output o a b c)
                   | _ => None
                   end) ].

(** The keyword arguments plotly express reads as column names, and the
    columns a figure names: the values of these keywords and the keys of
    [hover_data]. *)
Definition column_keywords : list string :=
  ["x"; "y"; "color"; "size"; "lat"; "lon"; "hover_name"].

Definition named_columns (f : px.figure) : list string :=
  flat_map (fun kv : string * px.value =>
              match kv.2 with
              | px.str c => if bool_decide (kv.1 ∈ column_keywords) then [c] else []
              | px.flags d => if bool_decide (kv.1 = "hover_data") then d.*1 else []
              | _ => []
              end) (px.arguments f).

(** The children of the layout, and what a control with a given id offers
    and shows at the start. *)
Definition children_of (c : dash.component) : list dash.component :=
  match c with dash.Div cs _ => cs | _ => [] end.

Definition control (i : string) (c : dash.component) : option (list string * string) :=
  match c with
  | dash.RadioItems os v i' | dash.Dropdown os v i' =>
      if bool_decide (i' = i) then Some (os, v) else None
  | _ => None
  end.

Definition find_control (i : string) (c : dash.component)
  : option (list string * string) :=
  head (omap (control i) (children_of c)).

Definition options_of (i : string) (c : dash.component) : list string :=
  match find_control i c with Some (os, _) => os | None => [] end.

Definition graphs_of (c : dash.component) : list string :=
  omap (fun c' => match c' with dash.Graph i => Some i | _ => None end)
       (children_of c).

(** The registration of the box plot, the fifth of the script. *)
Definition box_plot_callback (o : Output) : callback :=
  default (mk_callback ("", "") [] (fun _ => None)) (callbacks o !! 4%nat).

(** ** 10. The literals on examples *)

Example floatify_plain :
  floatify "1234500" = Some (integer_literal 1234500 (F64.of_Z 1234500)).
Proof. vm_compute. reflexivity. Qed.

Example floatify_fraction :
  floatify " -12.50 "
  = Some (float_literal (S754_finite true 7036874417766400 (-49))).
Proof. vm_compute. reflexivity. Qed.

Example floatify_exponent : floatify "1e3" = Some (float_literal (F64.of_Z 1000)).
Proof. vm_compute. reflexivity. Qed.

Example floatify_text : floatify "N/A" = None.
Proof. vm_compute. reflexivity. Qed.

Example floatify_commas : floatify "1,234,500" = None.
Proof. vm_compute. reflexivity. Qed.

(** Beyond seventeen digits the float is not the nearest one: the largest
    signed 64-bit integer is read as 2^63 + 2048. *)
Example floatify_long_integer :
  floatify "9223372036854775807"
  = Some (integer_literal 9223372036854775807 (F64.of_Z (2 ^ 63 + 2048)))
  ∧ F64.of_Z 9223372036854775807 = F64.of_Z (2 ^ 63).
Proof. vm_compute. done. Qed.

(** The scaling by a power of ten rounds a second time: [3e23] is read one
    unit in the last place below the nearest float. *)
Example floatify_scaled :
  floatify "3e23" = Some (float_literal (S754_finite false 8940696716308593 25))
  ∧ F64.of_decimal false 3 23 = S754_finite false 8940696716308594 25.
Proof. vm_compute. done. Qed.

Example parse_mdY_example : parse_mdY "03/15/2010" = Some (mkdate 2010 3 15).
Proof. vm_compute. reflexivity. Qed.

Example parse_mdY_short : parse_mdY "3/5/2010" = Some (mkdate 2010 3 5).
Proof. vm_compute. reflexivity. Qed.

Example parse_mdY_bad_day : parse_mdY "02/30/2010" = None.
Proof. vm_compute. reflexivity. Qed.

Example isoformat_example : isoformat (mkdate 2010 3 15) = "2010-03-15".
Proof. vm_compute. reflexivity. Qed.

(** ** 11. The order on cells *)

Ltac cmp_cases :=
  repeat match goal with
    | |- context [Z.compare ?a ?b] => destruct (Z.compare_spec a b)
    | H : context [Z.compare ?a ?b] |- _ => destruct (Z.compare_spec a b)
    | |- context [Pos.compare_cont Eq ?a ?b] =>
        change (Pos.compare_cont Eq a b) with (Pos.compare a b);
        destruct (Pos.compare_spec a b)
    | H : context [Pos.compare_cont Eq ?a ?b] |- _ =>
        change (Pos.compare_cont Eq a b) with (Pos.compare a b) in H;
        destruct (Pos.compare_spec a b)
    end.

(** Boolean comparisons on [Z] to propositions, then [lia]. *)
Ltac bool_lia :=
  repeat match goal with
    | H : _ && _ = true |- _ => apply andb_true_iff in H; destruct H
    | H : _ || _ = true |- _ => apply orb_true_iff in H; destruct H
    | H : negb _ = true |- _ => apply negb_true_iff in H
    | H : (_ <=? _) = true |- _ => apply Z.leb_le in H
    | H : (_ <? _) = true |- _ => apply Z.ltb_lt in H
    | H : (_ =? _) = true |- _ => apply Z.eqb_eq in H
    | H : (_ <=? _) = false |- _ => apply Z.leb_gt in H
    | H : (_ <? _) = false |- _ => apply Z.ltb_ge in H
    | H : (_ =? _) = false |- _ => apply Z.eqb_neq in H
    end;
  repeat match goal with
    | |- context [?a <=? ?b] => destruct (Z.leb_spec a b)
    | |- context [?a <? ?b] => destruct (Z.ltb_spec a b)
    | |- context [?a =? ?b] => destruct (Z.eqb_spec a b)
    end;
  simpl; try reflexivity; try discriminate; try lia.

Lemma SFleb_total x y :
  x ≠ S754_nan -> y ≠ S754_nan -> SFleb x y = false -> SFleb y x = true.
Proof.
  intros Hx Hy.
  destruct x as [sx|sx| |sx mx ex], y as [sy|sy| |sy my ey]; try congruence;
    unfold SFleb, SFcompare;
    repeat match goal with s : bool |- _ => destruct s end;
    simpl; try congruence; cmp_cases; simpl; try congruence; try lia.
Qed.

Lemma SFleb_trans x y z :
  x ≠ S754_nan -> y ≠ S754_nan -> z ≠ S754_nan ->
  SFleb x y = true -> SFleb y z = true -> SFleb x z = true.
Proof.
  intros Hx Hy Hz.
  destruct x as [sx|sx| |sx mx ex], y as [sy|sy| |sy my ey],
           z as [sz|sz| |sz mz ez]; try congruence;
    unfold SFleb, SFcompare;
    repeat match goal with s : bool |- _ => destruct s end;
    simpl; try congruence; cmp_cases; simpl; try congruence; try lia.
Qed.

Lemma string_leb_trans (s t u : string) :
  String.leb s t = true -> String.leb t u = true -> String.leb s u = true.
Proof.
  unfold String.leb. intros Hst Htu.
  destruct (String.compare s t) eqn:E1; try discriminate;
    destruct (String.compare t u) eqn:E2; try discriminate.
  - apply String_as_OT.cmp_eq in E1. subst. apply String_as_OT.cmp_eq in E2. subst.
    pose proof (proj2 (String_as_OT.cmp_eq u u) eq_refl) as H.
    unfold String_as_OT.cmp in H. by rewrite H.
  - apply String_as_OT.cmp_eq in E1. subst. by rewrite E2.
  - apply String_as_OT.cmp_eq in E2. subst. by rewrite E1.
  - apply String_as_OT.cmp_lt in E1. apply String_as_OT.cmp_lt in E2.
    pose proof (String_as_OT.lt_trans _ _ _ E1 E2) as H.
    apply String_as_OT.cmp_lt in H. unfold String_as_OT.cmp in H. by rewrite H.
Qed.

Lemma string_leb_total (s t : string) :
  String.leb s t = false -> String.leb t s = true.
Proof. intros H. destruct (String.leb_total s t); congruence. Qed.

Lemma date_leb_total a b : date_leb a b = false -> date_leb b a = true.
Proof. destruct a, b. unfold date_leb. simpl. intros H. bool_lia. Qed.

Lemma date_leb_trans a b c :
  date_leb a b = true -> date_leb b c = true -> date_leb a c = true.
Proof. destruct a, b, c. unfold date_leb. simpl. intros H1 H2. bool_lia. Qed.

Lemma moment_leb_total x s y t :
  moment_leb x s y t = false -> moment_leb y t x s = true.
Proof.
  unfold moment_leb. intros H.
  destruct (date_leb x y) eqn:Exy, (date_leb y x) eqn:Eyx; simpl in *;
    try done.
  - apply Z.leb_gt in H. apply Z.leb_le. lia.
  - apply date_leb_total in Exy. congruence.
Qed.

Lemma moment_leb_trans x s y t z u :
  moment_leb x s y t = true -> moment_leb y t z u = true ->
  moment_leb x s z u = true.
Proof.
  unfold moment_leb. intros H1 H2.
  apply andb_true_iff in H1 as [Hxy H1], H2 as [Hyz H2].
  rewrite (date_leb_trans _ _ _ Hxy Hyz). simpl.
  destruct (date_leb z x) eqn:Ezx; simpl; [|done].
  rewrite (date_leb_trans _ _ _ Hyz Ezx) in H1.
  rewrite (date_leb_trans _ _ _ Ezx Hxy) in H2.
  simpl in *. apply Z.leb_le. apply Z.leb_le in H1, H2. lia.
Qed.

Lemma moment_leb_midnights x y : moment_leb x 0 y 0 = date_leb x y.
Proof. unfold moment_leb. simpl. by rewrite orb_true_r, andb_true_r. Qed.

Lemma cell_leb_total a b : cell_leb a b = false -> cell_leb b a = true.
Proof.
  unfold cell_leb.
  destruct a as [s|x|f|d|d m|], b as [t|y|g|e|e n|]; simpl;
    try destruct f; try destruct g; simpl; try congruence;
    first [ apply string_leb_total | apply date_leb_total
          | apply moment_leb_total
          | apply SFleb_total; congruence | intros H; bool_lia ].
Qed.

Lemma cell_leb_trans a b c :
  cell_leb a b = true -> cell_leb b c = true -> cell_leb a c = true.
Proof.
  unfold cell_leb.
  destruct a as [s|x|f|d|d m|], b as [t|y|g|e|e n|], c as [u|z|h|k|k o|]; simpl;
    try destruct f; try destruct g; try destruct h; simpl; try congruence;
    rewrite <- ?moment_leb_midnights;
    first [ apply string_leb_trans | apply moment_leb_trans
          | apply SFleb_trans; congruence | intros H1 H2; bool_lia ].
Qed.

Lemma cell_leb_refl a : cell_leb a a = true.
Proof.
  destruct (cell_leb a a) eqn:E; [done|].
  pose proof (cell_leb_total _ _ E). congruence.
Qed.

(** ** 12. Sorting and first occurrences *)

Section ByKeyFacts.
Context {A : Type} (key : A -> cell).

Lemma insert_by_map x l :
  key <$> (insert_by key x l) = insert_by id (key x) (key <$> l).
Proof.
  induction l as [|y l IH]; csimpl; [done|].
  change (cell_leb (id (key x)) (id (key y))) with (cell_leb (key x) (key y)).
  destruct (cell_leb (key x) (key y)); csimpl; [done|].
  by rewrite IH.
Qed.

Lemma sort_by_map l : key <$> (sort_by key l) = sort_by id (key <$> l).
Proof.
  induction l as [|x l IH]; csimpl; [done|].
  by rewrite insert_by_map, IH.
Qed.

Lemma first_by_map seen l :
  key <$> (first_by key seen l) = first_by id seen (key <$> l).
Proof.
  revert seen. induction l as [|x l IH]; intros seen; csimpl; [done|].
  change (id (key x)) with (key x).
  case_bool_decide; csimpl; by rewrite IH.
Qed.

Lemma insert_by_perm x l : insert_by key x l ≡ₚ x :: l.
Proof.
  induction l as [|y l IH]; csimpl; [done|].
  destruct (cell_leb (key x) (key y)); [done|].
  rewrite IH. apply Permutation_swap.
Qed.

Lemma sort_by_perm l : sort_by key l ≡ₚ l.
Proof.
  induction l as [|x l IH]; csimpl; [done|].
  by rewrite insert_by_perm, IH.
Qed.

Lemma insert_by_sorted x l :
  StronglySorted (key_le key) l -> StronglySorted (key_le key) (insert_by key x l).
Proof.
  induction 1 as [|y l Hl IH Hy]; csimpl.
  - repeat constructor.
  - destruct (cell_leb (key x) (key y)) eqn:E.
    + constructor; [by constructor|].
      constructor; [exact E|].
      eapply Forall_impl; [exact Hy|].
      intros z Hz. unfold key_le in *. by eapply cell_leb_trans.
    + constructor; [exact IH|].
      rewrite insert_by_perm. constructor; [|exact Hy].
      by apply cell_leb_total.
Qed.

Lemma sort_by_sorted l : StronglySorted (key_le key) (sort_by key l).
Proof.
  induction l as [|x l IH]; csimpl; [constructor|].
  by apply insert_by_sorted.
Qed.

Lemma first_by_sublist seen l : first_by key seen l `sublist_of` l.
Proof.
  revert seen. induction l as [|x l IH]; intros seen; csimpl; [done|].
  case_bool_decide.
  - by apply sublist_cons.
  - by apply sublist_skip.
Qed.

Lemma first_by_fresh seen l x : x ∈ first_by key seen l -> key x ∉ seen.
Proof.
  revert seen. induction l as [|y l IH]; intros seen; csimpl.
  - by intros ?%elem_of_nil.
  - case_bool_decide as Hy.
    + apply IH.
    + intros [->|Hx]%elem_of_cons; [done|].
      apply IH in Hx. set_solver.
Qed.

Lemma first_by_NoDup seen l : NoDup (key <$> (first_by key seen l)).
Proof.
  revert seen. induction l as [|x l IH]; intros seen; csimpl.
  - constructor.
  - case_bool_decide as Hx; [apply IH|].
    csimpl. constructor; [|apply IH].
    intros (y & Hk & Hy)%list_elem_of_fmap.
    apply first_by_fresh in Hy. set_solver.
Qed.

Lemma first_by_first seen l x :
  x ∈ first_by key seen l -> first_with key (key x) l = Some x.
Proof.
  unfold first_with.
  revert seen. induction l as [|y l IH]; intros seen; csimpl.
  - by intros ?%elem_of_nil.
  - rewrite filter_cons. case_bool_decide as Hy.
    + intros Hx. pose proof (first_by_fresh _ _ _ Hx) as Hf.
      case_decide as Hk; [congruence|]. by eapply IH.
    + intros [->|Hx]%elem_of_cons.
      * by rewrite decide_True.
      * pose proof (first_by_fresh _ _ _ Hx) as Hf.
        rewrite decide_False by set_solver. by eapply IH.
Qed.

Lemma first_by_complete seen l x :
  x ∈ l -> key x ∉ seen -> key x ∈ key <$> (first_by key seen l).
Proof.
  revert seen. induction l as [|y l IH]; intros seen; csimpl.
  - by intros ?%elem_of_nil.
  - intros [->|Hx]%elem_of_cons Hs.
    + rewrite bool_decide_eq_false_2 by done. csimpl. set_solver.
    + case_bool_decide as Hy; [by apply IH|].
      csimpl. destruct (decide (key x = key y)) as [->|Hne]; [set_solver|].
      apply elem_of_cons. right. apply IH; [done|].
      by apply not_elem_of_cons.
Qed.
End ByKeyFacts.

(** De-duplication commutes with a filter on the keys. *)
Lemma first_by_filter (P : cell -> Prop) `{!∀ x, Decision (P x)} l seen1 seen2 :
  (∀ y, P y -> y ∈ seen1 <-> y ∈ seen2) ->
  filter P (first_by id seen1 l) = first_by id seen2 (filter P l).
Proof.
  revert seen1 seen2.
  induction l as [|x l IH]; intros seen1 seen2 Hs; simpl; [done|].
  rewrite (filter_cons P x l). unfold id at 1.
  destruct (decide (P x)) as [Hx|Hx].
  - simpl. unfold id at 2.
    case_bool_decide as H1.
    + rewrite bool_decide_eq_true_2 by (by apply Hs). by apply IH.
    + rewrite bool_decide_eq_false_2 by (by rewrite <- Hs).
      rewrite filter_cons, decide_True by done. f_equal.
      apply IH. intros y Hy. rewrite !elem_of_cons, Hs; done.
  - case_bool_decide as H1.
    + by apply IH.
    + rewrite filter_cons, decide_False by done.
      apply IH. intros y Hy. rewrite elem_of_cons, Hs by done.
      split; [|tauto]. intros [->|?]; done.
Qed.

Lemma unique_filter (P : cell -> Prop) `{!∀ x, Decision (P x)} l :
  unique (filter P l) = filter P (unique l).
Proof. unfold unique. symmetry. by apply first_by_filter. Qed.

Lemma filter_full_length {A} (P : A -> Prop) `{!∀ x, Decision (P x)} (l : list A) :
  length (filter P l) = length l -> Forall P l.
Proof.
  induction l as [|x l IH]; [constructor|].
  rewrite filter_cons. case_decide as Hx; simpl.
  - intros [=]. constructor; auto.
  - pose proof (length_filter P l). lia.
Qed.

Lemma filter_all {A} (P : A -> Prop) `{!∀ x, Decision (P x)} (l : list A) :
  Forall P l -> filter P l = l.
Proof.
  induction 1 as [|x l Hx _ IH]; [done|].
  by rewrite filter_cons, decide_True, IH.
Qed.

Lemma unique_elem_of l x : x ∈ l -> x ∈ unique l.
Proof.
  intros Hx. unfold unique.
  pose proof (first_by_complete id [] l x Hx) as H.
  rewrite list_fmap_id in H. apply H. apply not_elem_of_nil.
Qed.

(** ** 13. Running statements *)

Lemma bind_Ok {A B} (m : outcome A) (f : A -> outcome B) b :
  (m ≫= f) = Ok b -> ∃ a, m = Ok a ∧ f a = Ok b.
Proof. destruct m; unfold mbind, outcome_bind; simpl; [eauto|done|done]. Qed.

Lemma Ok_inj {A} (a b : A) : Ok a = Ok b -> a = b.
Proof. by intros [=]. Qed.

Lemma bind_raises_l {A B} (m : outcome A) (f : A -> outcome B) :
  raises m -> raises (m ≫= f).
Proof. intros [e ->]. by exists e. Qed.

Lemma bind_raises_r {A B} (m : outcome A) (f : A -> outcome B) a :
  m = Ok a -> raises (f a) -> raises (m ≫= f).
Proof. by intros ->. Qed.

Tactic Notation "inv_bind" hyp(H) "as" simple_intropattern(a) simple_intropattern(Ha) :=
  apply bind_Ok in H; destruct H as (a & Ha & H).

Tactic Notation "inv_bind" hyp(H) :=
  let a := fresh "x" in
  let Ha := fresh "Hx" in
  inv_bind H as a Ha.

Lemma require_Ok c df u : require c df = Ok u -> c ∈ columns df.
Proof. unfold require. by case_bool_decide. Qed.

Lemma require_raises c df : c ∉ columns df -> require c df = Raise (KeyError c).
Proof. intros H. unfold require. by rewrite bool_decide_eq_false_2. Qed.

Lemma require_cases c df :
  (c ∈ columns df ∧ require c df = Ok tt)
  ∨ ((c ∉ columns df) ∧ raises (require c df)).
Proof.
  unfold require. case_bool_decide; [left|right]; split; try done. by eexists.
Qed.

Lemma require_all_Ok cs df u :
  require_all cs df = Ok u -> ∀ c, c ∈ cs -> c ∈ columns df.
Proof.
  induction cs as [|c' cs IH]; simpl; intros H c Hc.
  - by apply elem_of_nil in Hc.
  - inv_bind H. apply require_Ok in Hx.
    apply elem_of_cons in Hc as [->|Hc]; [done|]. by apply IH.
Qed.

Lemma require_all_cases cs df :
  require_all cs df = Ok tt ∨ raises (require_all cs df).
Proof.
  induction cs as [|c cs IH]; simpl; [by left|].
  destruct (require_cases c df) as [[_ ->]|[_ H]]; [exact IH|].
  right. by apply bind_raises_l.
Qed.

Lemma require_all_raises cs df c :
  c ∈ cs -> c ∉ columns df -> raises (require_all cs df).
Proof.
  intros Hc Hn. destruct (require_all_cases cs df) as [H|H]; [|done].
  destruct (Hn (require_all_Ok _ _ _ H _ Hc)).
Qed.

(** ** 14. How rows and labels evolve *)

Lemma row_step_refl W cols r : row_step W cols r r.
Proof. intros c _. auto. Qed.

Lemma row_step_cell W cols r r' c :
  row_step W cols r r' -> c ∉ W -> c ∈ cols -> cell_of r' c = cell_of r c.
Proof. intros H Hc Hin. unfold cell_of. by rewrite (proj2 (H c Hc) Hin). Qed.

Lemma row_step_cell_or W cols r r' c :
  row_step W cols r r' -> c ∉ W -> cell_of r' c = cell_of r c ∨ cell_of r' c = nan.
Proof.
  intros H Hc. unfold cell_of. destruct (proj1 (H c Hc)) as [->| ->]; auto.
Qed.

Lemma frame_step_refl W df : frame_step W df df.
Proof.
  split; [auto|]. apply Forall_Forall2_diag, Forall_forall.
  intros r _. apply row_step_refl.
Qed.

Lemma frame_step_trans W a b c :
  frame_step W a b -> frame_step W b c -> frame_step W a c.
Proof.
  intros [Hc1 Hr1] [Hc2 Hr2]. split.
  - intros l Hl. destruct (Hc2 l Hl) as [Hb|?]; [|by right]. by apply Hc1.
  - eapply Forall2_trans; [|exact Hr1|exact Hr2].
    intros r1 r2 r3 H12 H23 l Hl.
    destruct (H12 l Hl) as [Ho1 Hk1], (H23 l Hl) as [Ho2 Hk2]. split.
    + destruct Ho2 as [->|?]; [exact Ho1|by right].
    + intros Hin. rewrite Hk2 by done. apply Hk1.
      destruct (Hc2 l Hin); [done|contradiction].
Qed.

Lemma frame_step_weaken W W' a b :
  (∀ c, c ∈ W -> c ∈ W') -> frame_step W a b -> frame_step W' a b.
Proof.
  intros Hs [Hc Hr]. split.
  - intros l Hl. destruct (Hc l Hl); auto.
  - eapply Forall2_impl; [exact Hr|]. intros r r' H l Hl. apply H. auto.
Qed.

Lemma frame_step_length W a b : frame_step W a b -> length (rows a) = length (rows b).
Proof. intros [_ H]. by eapply Forall2_length. Qed.

Lemma elem_of_add_label c l cols : c ∈ add_label l cols <-> c ∈ cols ∨ c = l.
Proof.
  unfold add_label. case_bool_decide as H.
  - split; [auto|]. intros [?| ->]; done.
  - rewrite elem_of_app, list_elem_of_singleton. done.
Qed.

Lemma step_derive_column W dst src f df :
  dst ∈ W -> frame_step W df (derive_column dst src f df).
Proof.
  intros Hd. split; simpl.
  - intros c [?| ->]%elem_of_add_label; auto.
  - apply Forall2_fmap_r, Forall_Forall2_diag, Forall_forall.
    intros r _ c Hc. rewrite lookup_insert_ne by (intros ->; done). auto.
Qed.

Lemma step_setitem W c vals df :
  c ∈ W -> length vals = length (rows df) -> frame_step W df (setitem c vals df).
Proof.
  intros Hc Hlen. split; simpl.
  - intros l [?| ->]%elem_of_add_label; auto.
  - revert vals Hlen. induction (rows df) as [|r rs IH]; intros [|v vals] Hlen;
      simpl in *; try discriminate; constructor.
    + intros l Hl. rewrite lookup_insert_ne by (intros ->; done). auto.
    + apply IH. lia.
Qed.

Lemma lookup_foldr_delete (r : row) (ls : list string) (c : string) :
  foldr delete r ls !! c = if decide (c ∈ ls) then None else r !! c.
Proof.
  induction ls as [|l ls IH].
  - by rewrite decide_False by apply not_elem_of_nil.
  - change (foldr delete r (l :: ls)) with (delete l (foldr delete r ls)).
    destruct (decide (l = c)) as [->|Hne].
    + rewrite lookup_delete_eq, decide_True; [done|by left].
    + rewrite lookup_delete_ne, IH by done.
      destruct (decide (c ∈ ls)).
      * rewrite decide_True; [done|by right].
      * rewrite decide_False; [done|].
        intros [->|?]%elem_of_cons; done.
Qed.

Lemma step_drop_labels W ls df df' :
  drop_labels ls df = Ok df' -> frame_step W df df'.
Proof.
  unfold drop_labels. intros H. inv_bind H. injection H as <-. split; simpl.
  - intros c Hc%list_elem_of_filter. left. apply Hc.
  - apply Forall2_fmap_r, Forall_Forall2_diag, Forall_forall.
    intros r _ c _. rewrite lookup_foldr_delete. split.
    + case_decide; auto.
    + intros [Hn _]%list_elem_of_filter. by rewrite decide_False.
Qed.

Lemma step_rename_column W old new df df' :
  old ∈ W -> new ∈ W -> rename_column old new df = Ok df' -> frame_step W df df'.
Proof.
  intros Ho Hn. unfold rename_column.
  case_bool_decide; [|intros [= <-]; apply frame_step_refl].
  case_bool_decide; [done|]. intros [= <-]. split; simpl.
  - intros c (c' & -> & Hc')%list_elem_of_fmap. case_bool_decide; auto.
  - apply Forall2_fmap_r, Forall_Forall2_diag, Forall_forall.
    intros r _ c Hc. unfold rename_row.
    rewrite lookup_insert_ne by (intros ->; done).
    rewrite lookup_delete_ne by (intros ->; done). auto.
Qed.

(** ** 15. The statements of the pipeline, one by one *)

(** A closed decidable statement, by evaluation. *)

Lemma loc_ne_Ok c lit df df' :
  loc_ne c lit df = Ok df' ->
  columns df' = columns df
  ∧ rows df' = filter (fun r => cell_of r c ≠ Str lit) (rows df).
Proof. unfold loc_ne. intros H. inv_bind H. by injection H as <-. Qed.

Lemma filter_rows_Ok df df' :
  filter_rows df = Ok df' ->
  columns df' = columns df
  ∧ rows df' =
      filter (fun r => cell_of r "HOUSING TYPE" ≠ Str "AT-RISK")
        (filter (fun r => cell_of r "CONSTRUCTION TYPE" ≠ Str "ACQUISITION ONLY")
           (rows df)).
Proof.
  unfold filter_rows. intros H. inv_bind H.
  apply loc_ne_Ok in Hx as [Hc1 Hr1]. apply loc_ne_Ok in H as [Hc2 Hr2].
  split; congruence.
Qed.

Lemma rename_columns_step df df' :
  rename_columns df = Ok df' -> frame_step numeric_labels df df'.
Proof.
  unfold rename_columns. intros H. inv_bind H.
  eapply frame_step_trans; (eapply step_rename_column; [| |eassumption]); decide_elem.
Qed.

Lemma length_numeric_array l : length (numeric_array l) = length l.
Proof. unfold numeric_array. destruct (seen_float l); by rewrite length_fmap. Qed.

Lemma length_downcast_float col : length (downcast_float col) = length col.
Proof.
  unfold downcast_float.
  repeat match goal with |- context [if ?b then _ else _] => destruct b end;
    by rewrite ?length_fmap.
Qed.

Lemma length_downcast_integer col : length (downcast_integer col) = length col.
Proof.
  unfold downcast_integer. destruct (forallb is_int col); [done|].
  destruct (mapM astype_int col) as [zs|] eqn:E; [|done].
  apply length_mapM in E.
  match goal with |- context [if ?b then _ else _] => destruct b end;
    by rewrite ?length_fmap.
Qed.

Lemma length_to_numeric dc col :
  (∀ l, length (dc l) = length l) -> length (to_numeric dc col) = length col.
Proof. intros H. unfold to_numeric. by rewrite H, length_numeric_array, length_fmap. Qed.

Lemma step_update_series W c f df :
  c ∈ W -> (∀ l, length (f l) = length l) -> frame_step W df (update_series c f df).
Proof.
  intros Hc Hf. apply step_setitem; [done|].
  unfold series. by rewrite Hf, length_fmap.
Qed.

Lemma coerce_numeric_step df df' :
  coerce_numeric df = Ok df' -> frame_step numeric_labels df df'.
Proof.
  unfold coerce_numeric. intros H. inv_bind H. inv_bind H. injection H as <-.
  unfold numeric_columns. simpl.
  repeat (eapply frame_step_trans;
          [|first [ apply step_update_series;
                    [decide_elem
                    |intros l; apply length_to_numeric;
                     first [apply length_downcast_float|apply length_downcast_integer]]
                  | apply step_derive_column; decide_elem ]]).
  apply frame_step_refl.
Qed.

Lemma coerce_types_step df df' :
  coerce_types df = Ok df' -> frame_step cleaned_labels df df'.
Proof.
  unfold coerce_types. intros H. inv_bind H. inv_bind H. injection H as <-.
  apply step_update_series; [decide_elem|]. intros l. apply length_imap.
Qed.

Lemma traverse_Ok {A B} (f : A -> outcome B) l ys :
  traverse f l = Ok ys -> Forall2 (fun x y => f x = Ok y) l ys.
Proof.
  revert ys. induction l as [|x l IH]; simpl; intros ys H.
  - injection H as <-. constructor.
  - inv_bind H. inv_bind H. injection H as <-. constructor; auto.
Qed.

Lemma zip_with_fmap_r {A B C} (f : A -> B -> C) (g : A -> B) (l : list A) :
  zip_with f l (g <$> l) = (fun x => f x (g x)) <$> l.
Proof. induction l as [|x l IH]; csimpl; [done|]. by rewrite IH. Qed.

Lemma sort_by_length {A} (key : A -> cell) l : length (sort_by key l) = length l.
Proof. by rewrite sort_by_perm. Qed.

(** Lines 49-57 attach to every row the count of its own key: when the
    lengths agree no key is missing, and then the groups and the rows come
    in one and the same order. *)
Lemma count_sites_Ok df p :
  count_sites df = Ok p ->
  columns p = add_label "NUMBER OF SITES" (columns df)
  ∧ rows p =
      (fun r => <["NUMBER OF SITES" :=
                   Int (Z.of_nat (count_of (cell_of r "PROJECT NUMBER")
                                           (series "PROJECT NUMBER" df)))]> r)
        <$> sort_by (fun r => cell_of r "PROJECT NUMBER")
              (first_by (fun r => cell_of r "PROJECT NUMBER") [] (rows df)).
Proof.
  unfold count_sites, getitem. intros H. inv_bind H as keys0 Hk0.
  inv_bind Hk0 as u Hu. injection Hk0 as <-. unfold assign_array in H.
  case_bool_decide as Hlen; [|done]. injection H as <-.
  split; [done|]. simpl. simpl in Hlen.
  set (key := fun r : row => cell_of r "PROJECT NUMBER") in *.
  set (keys := series "PROJECT NUMBER" df) in *.
  assert (Hk : key <$> sort_by key (first_by key [] (rows df)) = sort_by id (unique keys)).
  { by rewrite sort_by_map, first_by_map. }
  assert (Hfull : filter (fun k => notna k = true) (unique keys) = unique keys).
  { apply (filter_all (fun k => notna k = true)).
    apply (filter_full_length (fun k => notna k = true)).
    unfold groupby_count in Hlen.
    rewrite !length_fmap, !sort_by_length, unique_filter in Hlen.
    rewrite Hlen. unfold unique, keys, series. fold key.
    by rewrite <- first_by_map, length_fmap. }
  unfold groupby_count. rewrite unique_filter, Hfull, <- Hk.
  rewrite <- !list_fmap_compose. apply zip_with_fmap_r.
Qed.

Lemma cell_of_insert (r : row) c v : cell_of (<[c := v]> r) c = v.
Proof. unfold cell_of. by rewrite lookup_insert_eq. Qed.

Lemma cell_of_insert_ne (r : row) c c' v :
  c ≠ c' -> cell_of (<[c := v]> r) c' = cell_of r c'.
Proof. intros H. unfold cell_of. by rewrite lookup_insert_ne. Qed.

Lemma rows_update_series_fmap c g df :
  rows (update_series c (fmap g) df)
  = (fun r => <[c := g (cell_of r c)]> r) <$> rows df.
Proof.
  unfold update_series, setitem, series. simpl.
  rewrite <- list_fmap_compose. apply zip_with_fmap_r.
Qed.

Lemma rows_astype_str c df :
  rows (update_series c datetime_astype_str df)
  = (fun r => <[c := timestamp_astype_str (column_format (series c df)) (cell_of r c)]> r)
      <$> rows df.
Proof.
  unfold update_series, setitem, datetime_astype_str. simpl. unfold series at 2.
  rewrite <- list_fmap_compose. apply zip_with_fmap_r.
Qed.

Lemma rows_update_series_imap c (g : nat -> cell -> cell) df i r :
  rows df !! i = Some r ->
  rows (update_series c (imap g) df) !! i = Some (<[c := g i (cell_of r c)]> r).
Proof.
  intros H. unfold update_series, setitem, series. simpl.
  rewrite lookup_zip_with, H. simpl.
  by rewrite list_lookup_imap, list_lookup_fmap, H.
Qed.

Lemma length_update_series c f df :
  (∀ l, length (f l) = length l) ->
  length (rows (update_series c f df)) = length (rows df).
Proof.
  intros Hf. unfold update_series, setitem, series. simpl.
  rewrite length_zip_with, Hf, length_fmap. lia.
Qed.

(** Lines 58-64, row by row: the text of the timestamp in the format of
    the column, cut to ten characters, and its first four characters
    parsed as a year. *)
Lemma funded_columns_Ok p p' :
  funded_columns p = Ok p' ->
  frame_step ["DATE FUNDED"; "YEAR FUNDED"] p p'
  ∧ ∃ f, Forall2 (fun r r' =>
            cell_of r' "DATE FUNDED"
            = slice_cell 10 (timestamp_astype_str f (cell_of r "DATE FUNDED"))
            ∧ ∃ i, cell_of r' "YEAR FUNDED"
                   = to_datetime_Y (present i)
                       (slice_cell 4 (timestamp_astype_str f (cell_of r "DATE FUNDED"))))
         (rows p) (rows p').
Proof.
  unfold funded_columns. intros H. inv_bind H. injection H as <-. split.
  - unfold apply_map.
    eapply frame_step_trans;
      [|apply step_update_series; [decide_elem|intros l; apply length_imap]].
    repeat (eapply frame_step_trans; [|apply step_derive_column; decide_elem]).
    eapply frame_step_trans;
      [|apply step_update_series; [decide_elem|intros l; apply length_fmap]].
    apply frame_step_refl.
  - exists (column_format (series "DATE FUNDED" p)).
    set (f := column_format (series "DATE FUNDED" p)).
    set (p1 := update_series "DATE FUNDED" datetime_astype_str p).
    set (p3 := apply_map "DATE FUNDED" (slice_cell 10)
                 (derive_column "YEAR FUNDED" "DATE FUNDED" (slice_cell 4) p1)).
    assert (H3 : rows p3
                 = (fun r => <["DATE FUNDED" :=
                                 slice_cell 10 (timestamp_astype_str f (cell_of r "DATE FUNDED"))]>
                             (<["YEAR FUNDED" :=
                                  slice_cell 4 (timestamp_astype_str f (cell_of r "DATE FUNDED"))]>
                                (<["DATE FUNDED" :=
                                     timestamp_astype_str f (cell_of r "DATE FUNDED")]> r)))
                   <$> rows p).
    { unfold p3, p1, apply_map, derive_column. cbn [rows].
      rewrite rows_astype_str. fold f.
      rewrite <- !list_fmap_compose. apply list_fmap_ext. intros i r _.
      unfold compose.
      by repeat (rewrite cell_of_insert || rewrite cell_of_insert_ne by done). }
    apply Forall2_same_length_lookup_2.
    + rewrite length_update_series by (intros l; apply length_imap).
      by rewrite H3, length_fmap.
    + intros i r r' Hr Hr'.
      assert (Hr3 : rows p3 !! i
                    = Some (<["DATE FUNDED" :=
                                slice_cell 10 (timestamp_astype_str f (cell_of r "DATE FUNDED"))]>
                            (<["YEAR FUNDED" :=
                                 slice_cell 4 (timestamp_astype_str f (cell_of r "DATE FUNDED"))]>
                               (<["DATE FUNDED" :=
                                    timestamp_astype_str f (cell_of r "DATE FUNDED")]> r)))).
      { by rewrite H3, list_lookup_fmap, Hr. }
      rewrite (rows_update_series_imap _ _ _ _ _ Hr3) in Hr'.
      injection Hr' as <-. split.
      * by repeat (rewrite cell_of_insert || rewrite cell_of_insert_ne by done).
      * exists i.
        by repeat (rewrite cell_of_insert || rewrite cell_of_insert_ne by done).
Qed.

Lemma traverse_length {A B} (f : A -> outcome B) l ys :
  traverse f l = Ok ys -> length ys = length l.
Proof. intros H. symmetry. eapply Forall2_length, traverse_Ok, H. Qed.

Lemma py_truediv_Ok x y c :
  py_truediv x y = Ok c ->
  ∃ b, as_float y = Some b ∧ F64.is_zero b = false ∧ c = Flt (F64.div x b).
Proof.
  unfold py_truediv. destruct (as_float y) as [b|]; [|done].
  destruct (F64.is_zero b) eqn:E; [done|]. intros [= <-]. eauto.
Qed.

Lemma div_nan_l y : F64.div S754_nan y = S754_nan.
Proof. by destruct y. Qed.

Lemma div_nan_r x : F64.div x S754_nan = S754_nan.
Proof. by destruct x. Qed.

Lemma notna_Flt x : notna (Flt x) = false -> x = S754_nan.
Proof. unfold notna. by destruct x. Qed.

(** What a division that went through leaves in each row. *)
Lemma truediv_Ok obj tdc ptu cost :
  length tdc = length ptu ->
  truediv obj tdc ptu = Ok cost ->
  length cost = length tdc
  ∧ ∀ i x y c, tdc !! i = Some x -> ptu !! i = Some y -> cost !! i = Some c ->
               quotient_cell obj x y c.
Proof.
  intros Hlen. unfold truediv.
  destruct (mapM as_float tdc) as [xs|] eqn:Exs; [|done].
  apply mapM_Some in Exs.
  pose proof (Forall2_length _ _ _ Exs) as Hlx.
  destruct (existsb is_timestamp ptu) eqn:Ets; [done|].
  assert (Hts : ∀ i y, ptu !! i = Some y -> is_timestamp y = false).
  { intros i y Hy. destruct (is_timestamp y) eqn:E; [|done].
    rewrite <- Ets. symmetry. apply existsb_exists. exists y. split; [|done].
    apply list_elem_of_In. by eapply list_elem_of_lookup_2. }
  destruct obj.
  - unfold object_truediv.
    destruct (traverse (fun xy => py_truediv xy.1 xy.2) (zip xs ptu))
      as [cs|e|] eqn:E1; [| |done].
    + intros [= <-]. pose proof (traverse_length _ _ _ E1) as Hl.
      rewrite length_zip in Hl. split; [lia|].
      intros i x y c Hx Hy Hc.
      destruct (Forall2_lookup_l _ _ _ _ _ Exs Hx) as (a & Ha & Hxa).
      apply traverse_Ok in E1.
      assert (Hz : zip xs ptu !! i = Some (a, y)).
      { rewrite lookup_zip_with, Ha. simpl. by rewrite Hy. }
      destruct (Forall2_lookup_l _ _ _ _ _ E1 Hz) as (c' & Hc' & Hdiv).
      rewrite Hc in Hc'. injection Hc' as <-.
      apply py_truediv_Ok in Hdiv as (b & Hb & Hnz & ->).
      exists a. split; [done|]. simpl in Hb. rewrite Hb. split; [done|].
      intros _ Hzero. simpl in Hnz. congruence.
    + destruct e; try done. intros E2.
      pose proof (traverse_length _ _ _ E2) as Hl.
      rewrite length_zip in Hl. split; [lia|].
      intros i x y c Hx Hy Hc.
      destruct (Forall2_lookup_l _ _ _ _ _ Exs Hx) as (a & Ha & Hxa).
      apply traverse_Ok in E2.
      assert (Hz : zip xs ptu !! i = Some (a, y)).
      { rewrite lookup_zip_with, Ha. simpl. by rewrite Hy. }
      destruct (Forall2_lookup_l _ _ _ _ _ E2 Hz) as (c' & Hc' & Hdiv).
      rewrite Hc in Hc'. injection Hc' as <-. simpl in Hdiv.
      exists a. split; [done|].
      destruct (notna (Flt a)) eqn:Ena; simpl in Hdiv.
      * destruct (notna y) eqn:Eny; simpl in Hdiv.
        -- apply py_truediv_Ok in Hdiv as (b & Hb & Hnz & ->).
           rewrite Hb. split; [done|]. intros _ Hzero. congruence.
        -- injection Hdiv as <-. unfold notna in Eny.
           apply negb_false_iff in Eny. pose proof (Hts _ _ Hy) as Hty.
           destruct y as [s|z|[]|d|d ns|]; try done; simpl.
           split; [by rewrite div_nan_r|done].
      * injection Hdiv as <-. apply notna_Flt in Ena. subst a.
        destruct (as_float y) as [b|]; [|done].
        split; [by rewrite div_nan_l|done].
  - destruct (mapM as_float ptu) as [ys|] eqn:Eys; [|done].
    apply mapM_Some in Eys. intros [= <-].
    unfold np_truediv. rewrite length_zip_with.
    pose proof (Forall2_length _ _ _ Eys) as Hly. split; [lia|].
    intros i x y c Hx Hy Hc.
    destruct (Forall2_lookup_l _ _ _ _ _ Exs Hx) as (a & Ha & Hxa).
    destruct (Forall2_lookup_l _ _ _ _ _ Eys Hy) as (b & Hb & Hyb).
    rewrite lookup_zip_with, Ha in Hc. simpl in Hc. rewrite Hb in Hc.
    injection Hc as <-. exists a. split; [done|]. rewrite Hyb. split; done.
Qed.

Lemma cost_per_unit_Ok obj p p' :
  cost_per_unit obj p = Ok p' ->
  frame_step ["COST PER HOUSING UNIT"] p p'
  ∧ Forall (fun r => quotient_cell obj (cell_of r "TOTAL DEVELOPMENT COST")
                                   (cell_of r "PROJECT TOTAL UNITS")
                                   (cell_of r "COST PER HOUSING UNIT")) (rows p').
Proof.
  unfold cost_per_unit. intros H.
  inv_bind H. inv_bind H. inv_bind H as cost Hcost. injection H as <-.
  apply truediv_Ok in Hcost as [Hlen Hall];
    [|by unfold series; rewrite !length_fmap].
  unfold series in Hlen. rewrite length_fmap in Hlen. split.
  - by apply step_setitem; [decide_elem|].
  - apply Forall_lookup. intros i r' Hr'. simpl in Hr'.
    apply lookup_zip_with_Some in Hr' as (r & c & -> & Hr & Hc).
    rewrite cell_of_insert, !cell_of_insert_ne by done.
    apply (Hall i); [| |done]; unfold series; by rewrite list_lookup_fmap, Hr.
Qed.

Lemma prune_columns_step W p p' : prune_columns p = Ok p' -> frame_step W p p'.
Proof.
  unfold prune_columns. intros H. inv_bind H as p1 H1.
  destruct (columns p1 !! 3%nat) as [c|]; [|done].
  eapply frame_step_trans; eapply step_drop_labels; eassumption.
Qed.

(** Lines 17-45 of a successful run. *)
Lemma prepare_clean raw o :
  prepare raw = Ok o ->
  ∃ filtered renamed numeric,
    filter_rows raw = Ok filtered
    ∧ rename_columns filtered = Ok renamed
    ∧ coerce_numeric renamed = Ok numeric
    ∧ coerce_types numeric = Ok (lahd o)
    ∧ frame_step numeric_labels filtered numeric.
Proof.
  unfold prepare. intros H.
  inv_bind H as stamp Hstamp. inv_bind H as filtered Hf.
  inv_bind H as renamed Hr. inv_bind H as numeric Hn.
  inv_bind H as typed Ht. inv_bind H as projects Hp.
  inv_bind H as no_jobs Hj. apply Ok_inj in H. subst o.
  exists filtered, renamed, numeric. repeat (split; [done|]).
  eapply frame_step_trans; [apply (rename_columns_step _ _ Hr)|].
  apply (coerce_numeric_step _ _ Hn).
Qed.

Lemma prepare_Ok raw o : prepare raw = Ok o -> ∃ t, traced raw o t.
Proof.
  intros H.
  destruct (prepare_clean _ _ H) as (filtered & renamed & numeric & Hf & _ & _ & Ht & Hs).
  assert (Hclean : frame_step cleaned_labels filtered (lahd o)).
  { eapply frame_step_trans.
    - eapply frame_step_weaken; [|exact Hs]. intros c Hc. apply elem_of_app. by left.
    - apply (coerce_types_step _ _ Ht). }
  revert H. unfold prepare, build_projects. intros H.
  inv_bind H as stamp Hstamp. inv_bind H as filtered' Hf'.
  inv_bind H as renamed' Hr. inv_bind H as numeric' Hn.
  inv_bind H as typed Ht'. inv_bind H as projects Hp.
  inv_bind H as no_jobs Hj. apply Ok_inj in H. subst o.
  inv_bind Hp as p0 H0. inv_bind Hp as p1 H1. inv_bind Hp as p2 H2.
  exists (mkTrace filtered p0 p1 p2). unfold traced. simpl in *.
  split; [done|]. split; [exact Hclean|]. by repeat split.
Qed.

Lemma pipeline_Ok raw out :
  pipeline raw = Ok out -> ∃ o, prepare raw = Ok o ∧ out = drop_incomplete o.
Proof. unfold pipeline. intros H. inv_bind H as o Ho. injection H as <-. eauto. Qed.

(** ** 16. Null-row removal *)

Lemma complete_spec cols r :
  complete cols r = true <-> ∀ c, c ∈ cols -> isna (cell_of r c) = false.
Proof.
  unfold complete, notna. rewrite forallb_forall. split; intros H c Hc.
  - apply list_elem_of_In in Hc. apply H in Hc. by apply negb_true_iff.
  - apply list_elem_of_In in Hc. apply negb_true_iff. by apply H.
Qed.

Lemma complete_not_missing cols r : complete cols r = true <-> ¬ has_missing cols r.
Proof.
  rewrite complete_spec. unfold has_missing. split.
  - intros H (c & Hc & Hna). rewrite H in Hna by done. done.
  - intros H c Hc. destruct (isna (cell_of r c)) eqn:E; [|done].
    destruct H. eauto.
Qed.

Lemma dropna_spec df : null_rows_removed df (dropna df).
Proof.
  unfold null_rows_removed, dropna. simpl.
  split; [done|]. split; [apply sublist_filter|]. split.
  - intros r. rewrite list_elem_of_filter, complete_not_missing. tauto.
  - intros r c [H _]%list_elem_of_filter Hc.
    by eapply complete_spec.
Qed.

(** C6. After null-row removal no row of either terminal table (the full
    project table, the variant without the jobs column) has a missing value
    in any column the table retains; the rows that had one are dropped, and
    the rows kept are rows of the table before removal, unchanged. *)
Theorem terminal_tables_have_no_missing_value raw out :
  pipeline raw = Ok out ->
  ∃ o, prepare raw = Ok o
       ∧ null_rows_removed (lahd_projects o) (lahd_projects out)
       ∧ null_rows_removed (lahd_projects_no_jobs_column o)
                           (lahd_projects_no_jobs_column out).
Proof.
  intros (o & Ho & ->)%pipeline_Ok. exists o.
  split; [done|]. split; apply dropna_spec.
Qed.

(** ** 17. The variant without the jobs column *)

Lemma filter_fmap_length {A B} (P : A -> Prop) (Q : B -> Prop) (g : A -> B)
    `{!∀ x, Decision (P x)} `{!∀ y, Decision (Q y)} (l : list A) :
  (∀ x, P x -> Q (g x)) ->
  (length (filter P l) <= length (filter Q (g <$> l)))%nat
  ∧ ((∃ x, x ∈ l ∧ ¬ P x ∧ Q (g x)) ->
     (length (filter P l) < length (filter Q (g <$> l)))%nat).
Proof.
  intros HPQ. induction l as [|x l [IH1 IH2]]; csimpl.
  - split; [done|]. intros (x & Hx & _). by apply elem_of_nil in Hx.
  - rewrite !filter_cons. destruct (decide (P x)) as [HP|HP].
    + rewrite decide_True by auto. simpl. split; [lia|].
      intros (y & [->|Hy]%elem_of_cons & Hn & HQ); [done|].
      specialize (IH2 (ex_intro _ y (conj Hy (conj Hn HQ)))). lia.
    + destruct (decide (Q (g x))) as [HQ|HQ]; simpl.
      * split; lia.
      * split; [done|].
        intros (y & [->|Hy]%elem_of_cons & Hn & HQ'); [done|].
        specialize (IH2 (ex_intro _ y (conj Hy (conj Hn HQ')))). lia.
Qed.

Lemma drop_jobs_Ok p nj :
  drop_labels ["JOBS"] p = Ok nj ->
  columns nj = filter (fun c => c ∉ ["JOBS"]) (columns p)
  ∧ rows nj = delete "JOBS" <$> rows p.
Proof. unfold drop_labels. intros H. inv_bind H. by injection H as <-. Qed.

Lemma cell_of_delete_ne (r : row) c c' :
  c ≠ c' -> cell_of (delete c r) c' = cell_of r c'.
Proof. intros H. unfold cell_of. by rewrite lookup_delete_ne. Qed.

Lemma complete_without_jobs cols r :
  complete (filter (fun c => c ∉ ["JOBS"]) cols) (delete "JOBS" r) = true
  <-> ∀ c, c ∈ cols -> c ≠ "JOBS" -> isna (cell_of r c) = false.
Proof.
  rewrite complete_spec. split.
  - intros H c Hc Hne. rewrite <- (cell_of_delete_ne r "JOBS") by done.
    apply H. apply list_elem_of_filter. split; [|done].
    by rewrite list_elem_of_singleton.
  - intros H c [Hne Hc]%list_elem_of_filter.
    rewrite list_elem_of_singleton in Hne.
    rewrite cell_of_delete_ne by done. by apply H.
Qed.

(** C9. The variant without the jobs column never has fewer rows than the
    full project table, and it has strictly more as soon as one row of
    the project table is complete in every column but misses its jobs
    value. *)
Theorem no_jobs_variant_keeps_more_rows raw out :
  pipeline raw = Ok out ->
  (length (rows (lahd_projects out))
   <= length (rows (lahd_projects_no_jobs_column out)))%nat
  ∧ ∀ o, prepare raw = Ok o ->
         (∃ r, r ∈ rows (lahd_projects o)
               ∧ isna (cell_of r "JOBS") = true
               ∧ ∀ c, c ∈ columns (lahd_projects o) -> c ≠ "JOBS" ->
                      isna (cell_of r c) = false) ->
         (length (rows (lahd_projects out))
          < length (rows (lahd_projects_no_jobs_column out)))%nat.
Proof.
  intros (o & Ho & ->)%pipeline_Ok.
  destruct (prepare_Ok _ _ Ho) as (t & _ & _ & _ & _ & _ & Hprune & Hjobs).
  apply drop_jobs_Ok in Hjobs as [Hc Hr].
  unfold drop_incomplete, dropna. simpl. rewrite Hc, Hr.
  set (P := fun r : row => complete (columns (lahd_projects o)) r = true).
  set (Q := fun r : row =>
              complete (filter (fun c => c ∉ ["JOBS"]) (columns (lahd_projects o))) r
              = true).
  assert (HPQ : ∀ r, P r -> Q (delete "JOBS" r)).
  { intros r HP. unfold P, Q in *. apply complete_without_jobs.
    intros c Hc' _. by eapply complete_spec. }
  destruct (filter_fmap_length P Q (delete "JOBS") (rows (lahd_projects o)) HPQ)
    as [Hle Hlt].
  split; [exact Hle|].
  intros o' Ho' (r & Hr' & Hna & Hrest).
  assert (o' = o) as -> by congruence.
  apply Hlt. exists r. split; [done|]. split.
  - unfold P. intros HP. assert ("JOBS" ∈ columns (lahd_projects o)) as Hin.
    { eapply require_all_Ok with (cs := ["JOBS"]); [|by left].
      unfold drop_labels in *.
      destruct (prepare_Ok _ _ Ho) as (t' & _ & _ & _ & _ & _ & _ & Hj).
      unfold drop_labels in Hj. inv_bind Hj as u Hu. by destruct u. }
    rewrite (proj1 (complete_spec _ _) HP _ Hin) in Hna. done.
  - unfold Q. by apply complete_without_jobs.
Qed.

(** ** 18. Where the rows of the tables come from *)

Lemma frame_step_sel W a b : frame_step W a b -> frame_sel W a b.
Proof.
  intros [Hc Hr]. split; [done|].
  intros r' (i & Hi)%list_elem_of_lookup.
  destruct (Forall2_lookup_r _ _ _ _ _ Hr Hi) as (r & Hr' & Hs).
  exists r. split; [|done]. by eapply list_elem_of_lookup_2.
Qed.

Lemma frame_sel_trans W a b c :
  frame_sel W a b -> frame_sel W b c -> frame_sel W a c.
Proof.
  intros [Hc1 Hr1] [Hc2 Hr2]. split.
  - intros l Hl. destruct (Hc2 l Hl) as [Hb|?]; [|by right]. by apply Hc1.
  - intros r3 H3. destruct (Hr2 r3 H3) as (r2 & H2 & H23).
    destruct (Hr1 r2 H2) as (r1 & H1 & H12). exists r1. split; [done|].
    intros l Hl.
    destruct (H12 l Hl) as [Ho1 Hk1], (H23 l Hl) as [Ho2 Hk2]. split.
    + destruct Ho2 as [->|?]; [exact Ho1|by right].
    + intros Hin. rewrite Hk2 by done. apply Hk1.
      destruct (Hc2 l Hin); [done|contradiction].
Qed.

Lemma frame_sel_weaken W W' a b :
  (∀ c, c ∈ W -> c ∈ W') -> frame_sel W a b -> frame_sel W' a b.
Proof.
  intros Hs [Hc Hr]. split.
  - intros l Hl. destruct (Hc l Hl); auto.
  - intros r' H'. destruct (Hr r' H') as (r & Hin & H). exists r. split; [done|].
    intros l Hl. apply H. auto.
Qed.

Lemma frame_sel_subset W a b :
  columns b = columns a -> (∀ r, r ∈ rows b -> r ∈ rows a) -> frame_sel W a b.
Proof.
  intros Hc Hr. split.
  - intros c Hc'. left. by rewrite <- Hc.
  - intros r Hin. exists r. split; [auto|]. apply row_step_refl.
Qed.

Lemma elem_of_sort_by {A} (key : A -> cell) l x : x ∈ sort_by key l <-> x ∈ l.
Proof. by rewrite sort_by_perm. Qed.

Lemma elem_of_first_by {A} (key : A -> cell) seen l x :
  x ∈ first_by key seen l -> x ∈ l.
Proof. intros H. eapply elem_of_sublist; [exact H|apply first_by_sublist]. Qed.

Lemma count_sites_sel df p :
  count_sites df = Ok p -> frame_sel ["NUMBER OF SITES"] df p.
Proof.
  intros [Hc Hr]%count_sites_Ok. split.
  - rewrite Hc. intros c [?| ->]%elem_of_add_label; [by left|right; by left].
  - rewrite Hr. intros r' (r & -> & Hin)%list_elem_of_fmap.
    apply elem_of_sort_by, elem_of_first_by in Hin.
    exists r. split; [done|]. intros c Hc'.
    rewrite lookup_insert_ne; [auto|].
    intros <-. apply Hc'. by left.
Qed.

(** Every table of the outcome is made of rows that passed the row filter,
    changed only under the written labels. *)
Lemma outcome_sel raw out :
  pipeline raw = Ok out ->
  ∃ filtered,
    filter_rows raw = Ok filtered
    ∧ frame_sel written_labels filtered (lahd out)
    ∧ frame_sel written_labels filtered (lahd_projects out)
    ∧ frame_sel written_labels filtered (lahd_projects_no_jobs_column out).
Proof.
  intros (o & Ho & ->)%pipeline_Ok.
  destruct (prepare_Ok _ _ Ho) as (t & Hf & Hclean & Hcount & Hfund & Hcost & Hprune & Hjobs).
  exists (t_filtered t). split; [done|].
  assert (H1 : frame_sel written_labels (t_filtered t) (lahd o)).
  { eapply frame_sel_weaken; [|apply frame_step_sel, Hclean].
    intros c Hc. apply elem_of_app. by left. }
  assert (H2 : frame_sel written_labels (t_filtered t) (lahd_projects o)).
  { eapply frame_sel_trans; [exact H1|].
    eapply frame_sel_trans;
      [eapply frame_sel_weaken; [|apply (count_sites_sel _ _ Hcount)]|].
    { intros c ->%list_elem_of_singleton. decide_elem. }
    eapply frame_sel_trans;
      [eapply frame_sel_weaken;
       [|apply frame_step_sel, (proj1 (funded_columns_Ok _ _ Hfund))]|].
    { intros c Hc. apply elem_of_app. right.
      apply elem_of_cons in Hc as [->|Hc]; [decide_elem|].
      apply list_elem_of_singleton in Hc as ->. decide_elem. }
    eapply frame_sel_trans;
      [eapply frame_sel_weaken;
       [|apply frame_step_sel, (proj1 (cost_per_unit_Ok _ _ _ Hcost))]|].
    { intros c ->%list_elem_of_singleton. decide_elem. }
    apply frame_step_sel. by apply prune_columns_step. }
  assert (H3 : frame_sel written_labels (t_filtered t) (lahd_projects_no_jobs_column o)).
  { eapply frame_sel_trans; [exact H2|].
    apply frame_step_sel. by eapply step_drop_labels. }
  split; [exact H1|]. split.
  - eapply frame_sel_trans; [exact H2|].
    apply frame_sel_subset; [done|]. simpl.
    intros r [_ ?]%list_elem_of_filter. done.
  - eapply frame_sel_trans; [exact H3|].
    apply frame_sel_subset; [done|]. simpl.
    intros r [_ ?]%list_elem_of_filter. done.
Qed.

(** ** 19. The row filter *)

(** C4. No row whose construction type is "ACQUISITION ONLY" and no row
    whose housing type is "AT-RISK" is in any table of the outcome (the
    filtered raw table, the project table, the variant without the jobs
    column); and the filter keeps every row that matches neither
    exclusion. *)
Theorem excluded_rows_never_appear raw out :
  pipeline raw = Ok out ->
  (∀ t, t ∈ [lahd out; lahd_projects out; lahd_projects_no_jobs_column out] ->
        ∀ r, r ∈ rows t -> ¬ excluded r)
  ∧ ∃ filtered,
      filter_rows raw = Ok filtered
      ∧ columns filtered = columns raw
      ∧ rows filtered `sublist_of` rows raw
      ∧ (∀ r, r ∈ rows filtered <-> r ∈ rows raw ∧ ¬ excluded r)
      ∧ length (rows (lahd out)) = length (rows filtered).
Proof.
  intros Hrun.
  destruct (outcome_sel _ _ Hrun) as (filtered & Hf & H1 & H2 & H3).
  pose proof (filter_rows_Ok _ _ Hf) as [Hcols Hrows].
  assert (Hiff : ∀ r, r ∈ rows filtered <-> r ∈ rows raw ∧ ¬ excluded r).
  { intros r. rewrite Hrows, !list_elem_of_filter. unfold excluded. tauto. }
  split.
  - intros t Ht r Hr.
    assert (Hsel : frame_sel written_labels filtered t).
    { repeat (apply elem_of_cons in Ht as [->|Ht]; [done|]).
      by apply elem_of_nil in Ht. }
    destruct (proj2 Hsel r Hr) as (r0 & Hr0 & Hstep).
    apply Hiff in Hr0 as [_ Hr0].
    assert (Hc : "CONSTRUCTION TYPE" ∉ written_labels) by decide_elem.
    assert (Hh : "HOUSING TYPE" ∉ written_labels) by decide_elem.
    unfold excluded in *.
    destruct (row_step_cell_or _ _ _ _ _ Hstep Hc) as [Ec|Ec],
             (row_step_cell_or _ _ _ _ _ Hstep Hh) as [Eh|Eh];
      unfold nan in *; rewrite Ec, Eh; intuition congruence.
  - exists filtered. split; [done|]. split; [done|]. split.
    + rewrite Hrows. etransitivity; apply sublist_filter.
    + split; [exact Hiff|].
      destruct (pipeline_Ok _ _ Hrun) as (o & Ho & ->).
      destruct (prepare_Ok _ _ Ho) as (t & Hf' & Hclean & _).
      assert (t_filtered t = filtered) as <- by congruence.
      symmetry. apply (frame_step_length _ _ _ Hclean).
Qed.

(** ** 20. One row per project, in key order, with its site count *)

Lemma frame_step_series W a b c :
  frame_step W a b -> c ∉ W -> c ∈ columns b -> series c b = series c a.
Proof.
  intros [_ Hr] Hc Hin. unfold series.
  induction Hr as [|r r' rs rs' Hs _ IH]; csimpl; [done|].
  f_equal; [|exact IH]. by eapply row_step_cell.
Qed.

Lemma late_step raw o t :
  traced raw o t -> frame_step late_labels (t_counted t) (lahd_projects o).
Proof.
  intros (_ & _ & _ & Hfund & Hcost & Hprune & _).
  eapply frame_step_trans;
    [eapply frame_step_weaken; [|apply (proj1 (funded_columns_Ok _ _ Hfund))]|].
  { intros c Hc. apply elem_of_cons in Hc as [->|Hc]; [decide_elem|].
    apply list_elem_of_singleton in Hc as ->. decide_elem. }
  eapply frame_step_trans;
    [eapply frame_step_weaken; [|apply (proj1 (cost_per_unit_Ok _ _ _ Hcost))]|].
  { intros c ->%list_elem_of_singleton. decide_elem. }
  by apply prune_columns_step.
Qed.

Lemma counted_rows raw o t :
  traced raw o t ->
  rows (t_counted t)
  = with_count (series "PROJECT NUMBER" (lahd o)) <$> project_rows (lahd o).
Proof. intros (_ & _ & Hcount & _). by apply count_sites_Ok in Hcount as [_ ->]. Qed.

(** Each row of the project table, and of its variant, is a row of line
    54 with its count, changed later only under the late labels. *)
Lemma project_row_origin raw o t tbl r :
  traced raw o t ->
  tbl ∈ [lahd_projects o; lahd_projects_no_jobs_column o] ->
  r ∈ rows tbl ->
  ∃ r0, r0 ∈ project_rows (lahd o)
        ∧ row_step late_labels (columns tbl)
                   (with_count (series "PROJECT NUMBER" (lahd o)) r0) r.
Proof.
  intros Htr Ht Hr.
  assert (Hsel : frame_sel late_labels (t_counted t) tbl).
  { apply elem_of_cons in Ht as [->|Ht].
    - apply frame_step_sel. by eapply late_step.
    - apply list_elem_of_singleton in Ht as ->.
      eapply frame_sel_trans; [apply frame_step_sel; by eapply late_step|].
      apply frame_step_sel. eapply step_drop_labels. apply Htr. }
  destruct (proj2 Hsel r Hr) as (r1 & Hr1 & Hstep).
  rewrite (counted_rows _ _ _ Htr) in Hr1.
  apply list_elem_of_fmap in Hr1 as (r0 & -> & Hr0). eauto.
Qed.

Lemma project_key_with_count keys r : project_key (with_count keys r) = project_key r.
Proof. unfold project_key, with_count. by rewrite cell_of_insert_ne. Qed.

Lemma filtered_keys raw o t :
  traced raw o t ->
  series "PROJECT NUMBER" (lahd o) = series "PROJECT NUMBER" (t_filtered t).
Proof.
  intros (_ & Hclean & Hcount & _).
  eapply frame_step_series; [exact Hclean|decide_elem|].
  unfold count_sites, getitem in Hcount.
  inv_bind Hcount as k Hk. inv_bind Hk as u Hu. by eapply require_Ok.
Qed.

(** C1. In the project table and in its variant, the NUMBER OF SITES of a
    row is the number of rows of the filtered raw table that carry the
    row's PROJECT NUMBER, although the counts are attached by position. *)
Theorem number_of_sites_counts_filtered_rows raw out tbl :
  pipeline raw = Ok out ->
  tbl ∈ [lahd_projects out; lahd_projects_no_jobs_column out] ->
  "PROJECT NUMBER" ∈ columns tbl ->
  "NUMBER OF SITES" ∈ columns tbl ->
  ∃ filtered,
    filter_rows raw = Ok filtered
    ∧ series "PROJECT NUMBER" (lahd out) = series "PROJECT NUMBER" filtered
    ∧ ∀ r, r ∈ rows tbl ->
           cell_of r "NUMBER OF SITES"
           = Int (Z.of_nat (count_of (cell_of r "PROJECT NUMBER")
                                     (series "PROJECT NUMBER" filtered))).
Proof.
  intros (o & Ho & ->)%pipeline_Ok Ht Hpn Hnos.
  destruct (prepare_Ok _ _ Ho) as (t & Htr).
  exists (t_filtered t). split; [apply Htr|].
  pose proof (filtered_keys _ _ _ Htr) as Hkeys. split; [exact Hkeys|].
  intros r Hr. simpl in Hkeys. rewrite <- Hkeys.
  assert (∃ tbl0, tbl0 ∈ [lahd_projects o; lahd_projects_no_jobs_column o]
                  ∧ columns tbl = columns tbl0 ∧ r ∈ rows tbl0)
    as (tbl0 & Ht0 & Hcols & Hr0).
  { apply elem_of_cons in Ht as [->|Ht];
      [|apply list_elem_of_singleton in Ht as ->];
      simpl in Hr; apply list_elem_of_filter in Hr as [_ Hr].
    - exists (lahd_projects o). split; [by left|done].
    - exists (lahd_projects_no_jobs_column o). split; [right; by left|done]. }
  destruct (project_row_origin _ _ _ _ _ Htr Ht0 Hr0) as (r0 & _ & Hstep).
  rewrite <- Hcols in Hstep.
  rewrite (row_step_cell _ _ _ _ "NUMBER OF SITES" Hstep) by (done || decide_elem).
  rewrite (row_step_cell _ _ _ _ "PROJECT NUMBER" Hstep) by (done || decide_elem).
  unfold with_count at 1. rewrite cell_of_insert.
  by rewrite (project_key_with_count _ r0 : cell_of _ "PROJECT NUMBER" = _).
Qed.

Lemma final_table_rows o tbl r :
  tbl ∈ [lahd_projects (drop_incomplete o);
         lahd_projects_no_jobs_column (drop_incomplete o)] ->
  r ∈ rows tbl ->
  ∃ tbl0, tbl0 ∈ [lahd_projects o; lahd_projects_no_jobs_column o]
          ∧ tbl = dropna tbl0
          ∧ r ∈ rows tbl0
          ∧ complete (columns tbl0) r = true.
Proof.
  intros Ht Hr.
  apply elem_of_cons in Ht as [->|Ht];
    [|apply list_elem_of_singleton in Ht as ->];
    simpl in Hr; apply list_elem_of_filter in Hr as [Hc Hr].
  - exists (lahd_projects o). split; [by left|done].
  - exists (lahd_projects_no_jobs_column o). split; [right; by left|done].
Qed.

Lemma late_step_table raw o t tbl0 :
  traced raw o t ->
  tbl0 ∈ [lahd_projects o; lahd_projects_no_jobs_column o] ->
  frame_step late_labels (t_counted t) tbl0.
Proof.
  intros Htr Ht. apply elem_of_cons in Ht as [->|Ht].
  - by eapply late_step.
  - apply list_elem_of_singleton in Ht as ->.
    eapply frame_step_trans; [by eapply late_step|].
    eapply step_drop_labels. apply Htr.
Qed.

Lemma project_keys raw o t tbl0 :
  traced raw o t ->
  tbl0 ∈ [lahd_projects o; lahd_projects_no_jobs_column o] ->
  "PROJECT NUMBER" ∈ columns tbl0 ->
  series "PROJECT NUMBER" tbl0 = project_key <$> project_rows (lahd o).
Proof.
  intros Htr Ht Hin.
  rewrite (frame_step_series _ _ _ _ (late_step_table _ _ _ _ Htr Ht))
    by (done || decide_elem).
  unfold series. rewrite (counted_rows _ _ _ Htr), <- list_fmap_compose.
  apply list_fmap_ext. intros i r _. apply project_key_with_count.
Qed.

Lemma StronglySorted_fmap_2 {A B} (R : B -> B -> Prop) (f : A -> B) l :
  StronglySorted (fun x y => R (f x) (f y)) l -> StronglySorted R (f <$> l).
Proof.
  induction 1 as [|x l _ IH Hx]; csimpl; constructor; [done|].
  by apply Forall_fmap.
Qed.

Lemma StronglySorted_sublist {A} (R : A -> A -> Prop) l1 l2 :
  l1 `sublist_of` l2 -> StronglySorted R l2 -> StronglySorted R l1.
Proof.
  induction 1 as [|x l1 l2 Hs IH|x l1 l2 Hs IH]; intros H2; [done| |].
  - apply StronglySorted_inv in H2 as [H2 Hx]. constructor; [auto|].
    eapply Forall_forall. intros y Hy. eapply Forall_forall in Hx; [exact Hx|].
    by eapply elem_of_sublist.
  - apply StronglySorted_inv in H2 as [H2 _]. auto.
Qed.

Lemma StronglySorted_strict {A} (R : A -> A -> Prop) l :
  NoDup l -> StronglySorted R l -> StronglySorted (fun a b => R a b ∧ a ≠ b) l.
Proof.
  induction 1 as [|x l Hx _ IH]; intros Hs; [constructor|].
  apply StronglySorted_inv in Hs as [Hs Hall]. constructor; [auto|].
  apply Forall_forall. intros y Hy. split.
  - eapply Forall_forall in Hall; [exact Hall|done].
  - intros ->. done.
Qed.

Lemma project_rows_keys_NoDup df : NoDup (project_key <$> project_rows df).
Proof.
  unfold project_rows. rewrite sort_by_perm. apply first_by_NoDup.
Qed.

Lemma project_rows_keys_sorted df :
  StronglySorted (fun a b => cell_leb a b = true) (project_key <$> project_rows df).
Proof. apply StronglySorted_fmap_2. apply (sort_by_sorted project_key). Qed.

Lemma project_rows_first df r :
  r ∈ project_rows df -> first_with project_key (project_key r) (rows df) = Some r.
Proof.
  unfold project_rows. rewrite elem_of_sort_by. apply first_by_first.
Qed.

(** C5. In the project table (and in its variant) every project number
    stands in exactly one row, that row carries the values of the first
    row of the filtered raw table with this project number in every column
    that is not derived, and the rows ascend by project number. *)
Theorem one_row_per_project_in_key_order raw out tbl :
  pipeline raw = Ok out ->
  tbl ∈ [lahd_projects out; lahd_projects_no_jobs_column out] ->
  "PROJECT NUMBER" ∈ columns tbl ->
  NoDup (series "PROJECT NUMBER" tbl)
  ∧ StronglySorted (fun a b => cell_leb a b = true ∧ a ≠ b)
                   (series "PROJECT NUMBER" tbl)
  ∧ ∀ r, r ∈ rows tbl ->
         ∃ r0, first_with project_key (project_key r) (rows (lahd out)) = Some r0
               ∧ ∀ c, c ∈ columns tbl -> c ∉ derived_labels ->
                      cell_of r c = cell_of r0 c.
Proof.
  intros (o & Ho & ->)%pipeline_Ok Ht Hpn.
  destruct (prepare_Ok _ _ Ho) as (t & Htr).
  assert (∃ tbl0, tbl0 ∈ [lahd_projects o; lahd_projects_no_jobs_column o]
                  ∧ tbl = dropna tbl0) as (tbl0 & Ht0 & ->).
  { apply elem_of_cons in Ht as [->|Ht];
      [|apply list_elem_of_singleton in Ht as ->].
    - exists (lahd_projects o). split; [by left|done].
    - exists (lahd_projects_no_jobs_column o). split; [right; by left|done]. }
  simpl in Hpn.
  assert (Hsub : series "PROJECT NUMBER" (dropna tbl0)
                 `sublist_of` project_key <$> project_rows (lahd o)).
  { rewrite <- (project_keys _ _ _ _ Htr Ht0 Hpn). unfold series.
    apply fmap_sublist. simpl. apply sublist_filter. }
  assert (Hnd : NoDup (series "PROJECT NUMBER" (dropna tbl0))).
  { eapply sublist_NoDup; [apply project_rows_keys_NoDup|exact Hsub]. }
  split; [exact Hnd|]. split.
  - apply StronglySorted_strict; [exact Hnd|].
    eapply StronglySorted_sublist; [exact Hsub|apply project_rows_keys_sorted].
  - intros r Hr. simpl in Hr. apply list_elem_of_filter in Hr as [_ Hr].
    destruct (project_row_origin _ _ _ _ _ Htr Ht0 Hr) as (r0 & Hr0 & Hstep).
    exists r0. simpl. split.
    + unfold project_key at 2.
      rewrite (row_step_cell _ _ _ _ "PROJECT NUMBER" Hstep) by (done || decide_elem).
      rewrite (project_key_with_count _ r0 : cell_of _ "PROJECT NUMBER" = _).
      by apply project_rows_first.
    + intros c Hc Hd.
      rewrite (row_step_cell _ _ _ _ c Hstep); [| |done].
      * unfold with_count. apply cell_of_insert_ne. intros <-. apply Hd. by left.
      * intros Hl. apply Hd. unfold late_labels, derived_labels in *.
        by right.
Qed.

(** ** 21. Funding dates *)

Lemma checked_Some d d' : checked d = Some d' -> d' = d ∧ valid_date d = true.
Proof. unfold checked. destruct (valid_date d); [|done]. by intros [= <-]. Qed.

Lemma parse_mdY_valid s d : parse_mdY s = Some d -> valid_date d = true.
Proof.
  unfold parse_mdY.
  destruct (split_on "/" (chars s)) as [|ms [|ds [|ys [|? ?]]]]; try done.
  destruct (month_field ms), (day_field ds), (year_field ys); try done.
  by intros [-> ?]%checked_Some.
Qed.

Lemma parse_Y_valid s d : parse_Y s = Some d -> valid_date d = true.
Proof.
  unfold parse_Y. destruct (year_field (chars s)); [|done].
  by intros [-> ?]%checked_Some.
Qed.

Lemma chars_text l : chars (text l) = l.
Proof. apply list_ascii_of_string_of_list_ascii. Qed.

Lemma digit_char_spec d :
  is_digit (digit_char d) = true ∧ digit_val (digit_char d) = d mod 10.
Proof.
  unfold digit_char.
  assert (H : 0 <= d mod 10 < 10) by (apply Z.mod_pos_bound; lia).
  assert (Hk : d mod 10 = 0 ∨ d mod 10 = 1 ∨ d mod 10 = 2 ∨ d mod 10 = 3
               ∨ d mod 10 = 4 ∨ d mod 10 = 5 ∨ d mod 10 = 6 ∨ d mod 10 = 7
               ∨ d mod 10 = 8 ∨ d mod 10 = 9) by lia.
  repeat destruct Hk as [->|Hk]; try rewrite Hk; by vm_compute.
Qed.

Lemma four_digits y :
  0 <= y < 10000 ->
  10 * (10 * (10 * (10 * 0 + (y / 1000) mod 10) + (y / 100) mod 10) + (y / 10) mod 10)
  + y mod 10 = y.
Proof. intros H. Z.div_mod_to_equations. lia. Qed.

Lemma two_digits v : 0 <= v < 100 -> 10 * ((v / 10) mod 10) + v mod 10 = v.
Proof. intros H. Z.div_mod_to_equations. lia. Qed.

Lemma days_in_month_le y m : days_in_month y m <= 31.
Proof. unfold days_in_month. repeat case_match; lia. Qed.

Lemma valid_date_bounds d :
  valid_date d = true ->
  1677 <= year d <= 2262 ∧ 1 <= month d <= 12 ∧ 1 <= day d <= 31.
Proof.
  unfold valid_date, date_leb. intros H.
  pose proof (days_in_month_le (year d) (month d)).
  cbn [year month day timestamp_min timestamp_max] in H. bool_lia.
Qed.

Lemma new_year_valid y :
  1677 <= y <= 2262 -> valid_date (mkdate y 1 1) = (1678 <=? y).
Proof.
  intros H. unfold valid_date, date_leb.
  cbn [year month day timestamp_min timestamp_max days_in_month].
  destruct (Z.leb_spec 1678 y), (Z.ltb_spec 1677 y), (Z.ltb_spec y 2262),
    (Z.eqb_spec y 2262); try lia; reflexivity.
Qed.

Lemma valid_moment_parts d ns :
  valid_moment d ns = true ->
  0 < ns < day_ns
  ∧ 1 <= month d <= 12 ∧ 1 <= day d <= days_in_month (year d) (month d)
  ∧ ((date_leb timestamp_min d = true ∧ date_leb d (mkdate 2262 4 10) = true)
     ∨ d = timestamp_max ∨ d = mkdate 1677 9 21).
Proof.
  unfold valid_moment. rewrite !andb_true_iff, !orb_true_iff, !andb_true_iff.
  rewrite !bool_decide_eq_true.
  intros ((((((H1 & H2) & H3) & H4) & H5) & H6) & H7).
  apply Z.ltb_lt in H1, H2. apply Z.leb_le in H3, H4, H5, H6.
  repeat split; try done. tauto.
Qed.

Lemma valid_moment_bounds d ns :
  valid_moment d ns = true ->
  1677 <= year d <= 2262 ∧ 1 <= month d <= 12 ∧ 1 <= day d <= 31
  ∧ 0 < ns < day_ns.
Proof.
  intros (Hns & Hm & Hd & Hr)%valid_moment_parts.
  pose proof (days_in_month_le (year d) (month d)).
  repeat split; try lia.
  - destruct Hr as [[Hr _]|[->| ->]]; [|simpl; lia..].
    unfold date_leb in Hr. cbn [year month day timestamp_min] in Hr. bool_lia.
  - destruct Hr as [[_ Hr]|[->| ->]]; [|simpl; lia..].
    unfold date_leb in Hr. cbn [year month day] in Hr. bool_lia.
Qed.

(** A moment of the year 1678 or later lies on a date whose midnight is a
    timestamp as well. *)
Lemma valid_moment_date d ns :
  valid_moment d ns = true -> 1678 <= year d -> valid_date d = true.
Proof.
  intros (Hns & Hm & Hd & Hr)%valid_moment_parts Hy.
  unfold valid_date. rewrite !andb_true_iff.
  repeat split; try (apply Z.leb_le; lia).
  - unfold date_leb. cbn [year month day timestamp_min]. bool_lia.
  - destruct Hr as [[_ Hr]|[->| ->]]; [|done|simpl in Hy; lia].
    eapply date_leb_trans; [exact Hr|done].
Qed.

Lemma timestamp_stamp d ns : is_stamp (timestamp d ns).
Proof.
  unfold timestamp, is_stamp. destruct (ns =? 0).
  - destruct (valid_date d) eqn:E; [|by left]. right. left. eauto.
  - destruct (valid_moment d ns) eqn:E; [|by left]. right. right. eauto.
Qed.

Lemma present_stamp i : is_stamp (present i).
Proof. apply timestamp_stamp. Qed.

Lemma to_datetime_mdY_stamp pr c : is_stamp pr -> is_stamp (to_datetime_mdY pr c).
Proof.
  intros Hpr. destruct c as [s| | |d|d ns|]; simpl; try (by left).
  - destruct (names_the_present s); [done|].
    destruct (parse_mdY s) as [d|] eqn:E; [|by left].
    right. left. exists d. split; [by eapply parse_mdY_valid|done].
  - destruct (valid_date d) eqn:E; [|by left]. right. left. eauto.
  - destruct (valid_moment d ns) eqn:E; [|by left]. right. right. eauto.
Qed.

Lemma isoformat_length d : String.length (isoformat d) = 10%nat.
Proof. reflexivity. Qed.

(** The text of a timestamp starts with its date in every format. *)
Lemma timestamp_text_date f d ns : prefix_slice 10 (timestamp_text f d ns) = isoformat d.
Proof. by destruct f. Qed.

Lemma timestamp_text_year f d ns :
  prefix_slice 4 (timestamp_text f d ns) = text (pad4 (year d)).
Proof. by destruct f. Qed.

Lemma funded_text_date d : funded_text (Date d) = Str (isoformat d).
Proof. reflexivity. Qed.

Lemma funded_text_moment d ns : funded_text (Moment d ns) = Str (isoformat d).
Proof. reflexivity. Qed.

Lemma funded_text_NaT : funded_text NaT = Str "NaT".
Proof. reflexivity. Qed.

Lemma funded_text_format f c :
  is_timestamp c = true -> slice_cell 10 (timestamp_astype_str f c) = funded_text c.
Proof.
  destruct c as [s| | |d|d ns|]; try done; intros _; simpl;
    by rewrite ?timestamp_text_date.
Qed.

Lemma isoformat_not_NaT d : isoformat d ≠ "NaT".
Proof. intros H. apply (f_equal String.length) in H. by rewrite isoformat_length in H. Qed.

(** [%Y] on the four digits of a year: the first of January; the year
    1677 has no such timestamp. *)
Lemma year_text_parse pr y :
  1677 <= y <= 2262 ->
  to_datetime_Y pr (Str (text (pad4 y)))
  = if 1678 <=? y then Date (mkdate y 1 1) else NaT.
Proof.
  intros Hy. unfold to_datetime_Y.
  assert (Hp : names_the_present (text (pad4 y)) = false).
  { unfold names_the_present. apply bool_decide_eq_false. intros Hin.
    apply (f_equal String.length) in Hin || idtac.
    repeat (apply elem_of_cons in Hin as [Hin|Hin];
            [by apply (f_equal String.length) in Hin|]).
    by apply elem_of_nil in Hin. }
  rewrite Hp. unfold parse_Y. rewrite chars_text.
  unfold pad4. unfold year_field, forallb.
  rewrite !(proj1 (digit_char_spec _)). simpl. unfold digits_value. simpl.
  rewrite !(proj2 (digit_char_spec _)), four_digits by lia.
  unfold checked. rewrite new_year_valid by lia. by destruct (1678 <=? y).
Qed.

Lemma year_start_year d :
  1677 <= year d <= 2262 ->
  match checked (mkdate (year d) 1 1) with Some y => Date y | None => NaT end
  = if 1678 <=? year d then Date (mkdate (year d) 1 1) else NaT.
Proof.
  intros Hy. unfold checked. rewrite new_year_valid by lia.
  by destruct (1678 <=? year d).
Qed.

(** Lines 59 and 63 on a timestamp, whatever the format of the column. *)
Lemma funded_year_format pr f c :
  is_stamp c ->
  to_datetime_Y pr (slice_cell 4 (timestamp_astype_str f c)) = year_start c.
Proof.
  intros [->|[(d & Hv & ->)|(d & ns & Hv & ->)]]; [done| |].
  - destruct (valid_date_bounds d Hv) as (Hy & _).
    cbn [timestamp_astype_str slice_cell year_start].
    by rewrite timestamp_text_year, year_text_parse, year_start_year.
  - destruct (valid_moment_bounds d ns Hv) as (Hy & _).
    cbn [timestamp_astype_str slice_cell year_start].
    by rewrite timestamp_text_year, year_text_parse, year_start_year.
Qed.

Lemma is_stamp_timestamp c : is_stamp c -> is_timestamp c = true.
Proof. by intros [->|[(d & _ & ->)|(d & ns & _ & ->)]]. Qed.

(** The date a timestamp shows, when its year has a first of January. *)
Lemma year_start_date c :
  is_stamp c -> isna (year_start c) = false ->
  ∃ d, date_of c = Some d ∧ valid_date d = true ∧ 1678 <= year d
       ∧ funded_text c = Str (isoformat d)
       ∧ year_start c = Date (mkdate (year d) 1 1).
Proof.
  intros [->|[(d & Hv & ->)|(d & ns & Hv & ->)]]; [done| |]; cbn [year_start].
  - destruct (valid_date_bounds d Hv) as (Hy & _).
    rewrite year_start_year by done.
    destruct (Z.leb_spec 1678 (year d)); [|done]. intros _. by exists d.
  - destruct (valid_moment_bounds d ns Hv) as (Hy & _).
    rewrite year_start_year by done.
    destruct (Z.leb_spec 1678 (year d)); [|done]. intros _. exists d.
    split; [done|]. split; [by eapply valid_moment_date|done].
Qed.

Lemma rows_update_series_imap_inv c (g : nat -> cell -> cell) df i r' :
  rows (update_series c (imap g) df) !! i = Some r' ->
  ∃ r, rows df !! i = Some r ∧ r' = <[c := g i (cell_of r c)]> r.
Proof.
  intros H.
  destruct (rows df !! i) as [r|] eqn:E.
  - rewrite (rows_update_series_imap _ _ _ _ _ E) in H. injection H as <-. eauto.
  - apply lookup_lt_Some in H.
    rewrite length_update_series in H by (intros l; apply length_imap).
    apply lookup_ge_None in E. lia.
Qed.

Lemma coerce_types_rows df df' i r' :
  coerce_types df = Ok df' ->
  rows df' !! i = Some r' ->
  ∃ r, rows df !! i = Some r
       ∧ r' = <["DATE FUNDED" := to_datetime_mdY (present i) (cell_of r "DATE FUNDED")]> r.
Proof.
  unfold coerce_types. intros H. inv_bind H. inv_bind H. injection H as <-.
  apply rows_update_series_imap_inv.
Qed.

Lemma typed_dates raw o :
  prepare raw = Ok o -> Forall (fun r => is_stamp (cell_of r "DATE FUNDED")) (rows (lahd o)).
Proof.
  unfold prepare. intros H.
  inv_bind H as stamp Hstamp. inv_bind H as filtered Hf.
  inv_bind H as renamed Hr. inv_bind H as numeric Hn.
  inv_bind H as typed Ht. inv_bind H as projects Hp.
  inv_bind H as no_jobs Hj. injection H as <-. simpl.
  apply Forall_lookup. intros i r' Hr'.
  destruct (coerce_types_rows _ _ _ _ Ht Hr') as (r & _ & ->).
  rewrite cell_of_insert. apply to_datetime_mdY_stamp, present_stamp.
Qed.

Lemma project_rows_elem df r : r ∈ project_rows df -> r ∈ rows df.
Proof. unfold project_rows. rewrite elem_of_sort_by. apply elem_of_first_by. Qed.

Lemma funded_rows raw o t r1 :
  traced raw o t ->
  prepare raw = Ok o ->
  r1 ∈ rows (t_funded t) ->
  ∃ r0, r0 ∈ project_rows (lahd o)
        ∧ cell_of r1 "DATE FUNDED" = funded_text (cell_of r0 "DATE FUNDED")
        ∧ cell_of r1 "YEAR FUNDED" = year_start (cell_of r0 "DATE FUNDED").
Proof.
  intros Htr Ho (i & Hi)%list_elem_of_lookup.
  pose proof (counted_rows _ _ _ Htr) as Hrows.
  destruct Htr as (_ & _ & _ & Hfund & _).
  apply funded_columns_Ok in Hfund as [_ (f & Hall)].
  destruct (Forall2_lookup_r _ _ _ _ _ Hall Hi) as (rc & Hrc & Hd & (j & Hy)).
  apply list_elem_of_lookup_2 in Hrc. rewrite Hrows in Hrc.
  apply list_elem_of_fmap in Hrc as (r0 & -> & Hr0).
  exists r0. split; [done|].
  unfold with_count in Hd, Hy. rewrite cell_of_insert_ne in Hd, Hy by done.
  pose proof (typed_dates _ _ Ho) as Hall'.
  eapply Forall_forall in Hall'; [|by apply project_rows_elem].
  rewrite Hd, Hy. split.
  - by apply funded_text_format, is_stamp_timestamp.
  - by apply funded_year_format.
Qed.

Lemma cost_step_table raw o t tbl0 :
  traced raw o t ->
  tbl0 ∈ [lahd_projects o; lahd_projects_no_jobs_column o] ->
  frame_step ["COST PER HOUSING UNIT"] (t_funded t) tbl0.
Proof.
  intros Htr Ht.
  assert (H : frame_step ["COST PER HOUSING UNIT"] (t_funded t) (lahd_projects o)).
  { destruct Htr as (_ & _ & _ & _ & Hcost & Hprune & _).
    eapply frame_step_trans; [apply (proj1 (cost_per_unit_Ok _ _ _ Hcost))|].
    by apply prune_columns_step. }
  apply elem_of_cons in Ht as [->|Ht]; [done|].
  apply list_elem_of_singleton in Ht as ->.
  eapply frame_step_trans; [exact H|]. eapply step_drop_labels. apply Htr.
Qed.

(** Before null-row removal a row of the project table shows the first
    ten characters of the timestamp of a site row, and the first of January
    of its year. *)
Lemma funded_cells raw o t tbl0 r :
  traced raw o t ->
  prepare raw = Ok o ->
  tbl0 ∈ [lahd_projects o; lahd_projects_no_jobs_column o] ->
  "DATE FUNDED" ∈ columns tbl0 ->
  "YEAR FUNDED" ∈ columns tbl0 ->
  r ∈ rows tbl0 ->
  ∃ r0, r0 ∈ rows (lahd o)
        ∧ is_stamp (cell_of r0 "DATE FUNDED")
        ∧ cell_of r "DATE FUNDED" = funded_text (cell_of r0 "DATE FUNDED")
        ∧ cell_of r "YEAR FUNDED" = year_start (cell_of r0 "DATE FUNDED").
Proof.
  intros Htr Ho Ht Hdf Hyf Hr.
  destruct (proj2 (frame_step_sel _ _ _ (cost_step_table _ _ _ _ Htr Ht)) r Hr)
    as (r1 & Hr1 & Hstep).
  rewrite (row_step_cell _ _ _ _ "DATE FUNDED" Hstep) by (done || decide_elem).
  rewrite (row_step_cell _ _ _ _ "YEAR FUNDED" Hstep) by (done || decide_elem).
  destruct (funded_rows _ _ _ _ Htr Ho Hr1) as (r0 & Hr0 & Hd & Hy).
  apply project_rows_elem in Hr0.
  pose proof (typed_dates _ _ Ho) as Hall.
  eapply Forall_forall in Hall; [|exact Hr0].
  by exists r0.
Qed.

(** C10. Every row of both terminal tables carries a funding date: as long
    as the table retains the columns DATE FUNDED and YEAR FUNDED, its DATE
    FUNDED is the ten-character text YYYY-MM-DD of a valid date, the date
    of the timestamp of a row of the site table, and never the text "NaT",
    whose rows have a missing YEAR FUNDED and are dropped.  The timestamp
    is a midnight when the date was parsed from the file, and a moment of
    the day of the run when the file reads [now] or [today]. *)
Theorem terminal_rows_carry_a_parsed_date raw out tbl r :
  pipeline raw = Ok out ->
  tbl ∈ [lahd_projects out; lahd_projects_no_jobs_column out] ->
  "DATE FUNDED" ∈ columns tbl ->
  "YEAR FUNDED" ∈ columns tbl ->
  r ∈ rows tbl ->
  ∃ d r0, valid_date d = true
          ∧ r0 ∈ rows (lahd out)
          ∧ is_stamp (cell_of r0 "DATE FUNDED")
          ∧ date_of (cell_of r0 "DATE FUNDED") = Some d
          ∧ cell_of r "DATE FUNDED" = Str (isoformat d)
          ∧ String.length (isoformat d) = 10%nat
          ∧ isoformat d ≠ "NaT".
Proof.
  intros (o & Ho & ->)%pipeline_Ok Ht Hdf Hyf Hr.
  destruct (prepare_Ok _ _ Ho) as (t & Htr).
  destruct (final_table_rows _ _ _ Ht Hr) as (tbl0 & Ht0 & -> & Hr0 & Hc).
  simpl in Hdf, Hyf.
  destruct (funded_cells _ _ _ _ _ Htr Ho Ht0 Hdf Hyf Hr0)
    as (r0 & Hin & Hst & Hd & Hy).
  pose proof (proj1 (complete_spec _ _) Hc _ Hyf) as Hna. rewrite Hy in Hna.
  destruct (year_start_date _ Hst Hna) as (d & Hdate & Hv & _ & Htext & _).
  exists d, r0. repeat (split; [done|]). split; [congruence|].
  split; [apply isoformat_length|apply isoformat_not_NaT].
Qed.

(** ** 23. Absent source columns *)

Lemma require_completes_or_raises c df : completes (require c df) ∨ raises (require c df).
Proof. destruct (require_cases c df) as [[_ H]|[_ H]]; [left; by eexists|by right]. Qed.

Lemma read_date_stamp_cases df :
  completes (read_date_stamp df) ∨ raises (read_date_stamp df).
Proof.
  unfold read_date_stamp, getitem.
  destruct (require_cases "DATE STAMP" df) as [[_ ->]|[_ [e ->]]];
    [|right; by exists e].
  simpl. destruct (series "DATE STAMP" df) as [|[] ?];
    first [left; by eexists | right; by eexists].
Qed.

Lemma filter_rows_cases df : completes (filter_rows df) ∨ raises (filter_rows df).
Proof.
  unfold filter_rows, loc_ne.
  destruct (require_cases "CONSTRUCTION TYPE" df) as [[H ->]|[_ [e ->]]];
    [|right; by exists e].
  simpl. unfold require. simpl. case_bool_decide; [left|right]; by eexists.
Qed.

Lemma add_label_elem c cols : c ∈ cols -> add_label c cols = cols.
Proof. intros H. unfold add_label. by rewrite bool_decide_eq_true_2. Qed.

Lemma columns_foldl (step : string -> DataFrame -> DataFrame) cs df :
  (∀ c d, columns (step c d) = add_label c (columns d)) ->
  (∀ c, c ∈ cs -> c ∈ columns df) ->
  columns (foldl (fun d c => step c d) df cs) = columns df.
Proof.
  intros Hstep. revert df. induction cs as [|c cs IH]; intros df Hall; [done|].
  change (foldl (fun d c => step c d) df (c :: cs))
    with (foldl (fun d c => step c d) (step c df) cs).
  assert (Hc : columns (step c df) = columns df).
  { rewrite Hstep. apply add_label_elem, Hall. by left. }
  rewrite IH; [done|]. intros c' Hc'. rewrite Hc. apply Hall. by right.
Qed.

Lemma coerce_numeric_columns df df' :
  coerce_numeric df = Ok df' -> columns df' = columns df.
Proof.
  unfold coerce_numeric. intros H. inv_bind H as u Hu. inv_bind H as v Hv.
  apply Ok_inj in H. rewrite <- H. clear H. apply require_Ok in Hv.
  pose proof (require_all_Ok _ _ _ Hu) as Hall.
  assert (H1 : columns (foldl (fun d c => apply_map c replace_commas d)
                              df numeric_columns) = columns df).
  { by apply (columns_foldl (fun c d => apply_map c replace_commas d)). }
  assert (H2 : columns
                 (foldl (fun d c => update_series c (to_numeric downcast_float) d)
                    (foldl (fun d c => apply_map c replace_commas d)
                       df numeric_columns) numeric_columns) = columns df).
  { etransitivity; [|exact H1].
    apply (columns_foldl
             (fun c d => update_series c (to_numeric downcast_float) d));
      [done|]. intros c Hc. rewrite H1. by apply Hall. }
  unfold update_series at 1, setitem at 1. cbn [columns].
  rewrite H2 in Hv |- *. by apply add_label_elem.
Qed.

Lemma bind_cases {A B} (m : outcome A) (f : A -> outcome B) :
  completes m ∨ raises m ->
  (∀ a, completes (f a) ∨ raises (f a)) ->
  completes (m ≫= f) ∨ raises (m ≫= f).
Proof.
  intros [[a ->]|[e ->]] Hf; [apply Hf|]. right. by exists e.
Qed.

Lemma coerce_numeric_cases df : completes (coerce_numeric df) ∨ raises (coerce_numeric df).
Proof.
  unfold coerce_numeric. apply bind_cases.
  - destruct (require_all_cases numeric_columns df) as [->|?];
      [left; by eexists|by right].
  - intros _. cbv zeta. apply bind_cases.
    + apply require_completes_or_raises.
    + intros _. left. by eexists.
Qed.

Lemma rename_column_columns old new df df' :
  rename_column old new df = Ok df' ->
  ∀ c, c ∈ columns df' ->
       (c ∈ columns df ∧ c ≠ old) ∨ (c = new ∧ old ∈ columns df).
Proof.
  unfold rename_column. case_bool_decide as Ho.
  - case_bool_decide; [done|]. intros [= <-] c. simpl.
    intros (c' & -> & Hc')%list_elem_of_fmap. case_bool_decide; auto.
  - intros [= <-] c Hc. left. split; [done|]. by intros ->.
Qed.

Lemma rename_column_completes old new df :
  ¬ (old ∈ columns df ∧ new ∈ columns df) -> completes (rename_column old new df).
Proof.
  intros H. unfold rename_column. repeat case_bool_decide; try by eexists.
  tauto.
Qed.

Lemma rename_column_silent old new df : ¬ raises (rename_column old new df).
Proof. unfold rename_column. intros [e H]. by repeat case_bool_decide. Qed.

Lemma rename_columns_silent df : ¬ raises (rename_columns df).
Proof.
  unfold rename_columns. intros [e H].
  destruct (rename_column "TDC" "TOTAL DEVELOPMENT COST" df) as [df1| |] eqn:E1;
    simpl in H; try done.
  - by eapply rename_column_silent; eexists.
  - by eapply (rename_column_silent "TDC"); eexists; exact E1.
Qed.

(** C3, amended.  The renaming itself never raises: a source column that
    is absent is skipped.  The pipeline halts with an error when a source
    column and the descriptive name it is renamed to are both absent: for
    the cost column at the numeric coercion of lines 30-33, for the site
    column at the categorical tagging of line 41. *)
Theorem absent_cost_or_site_column_halts raw :
  (("TDC" ∉ columns raw) ∧ ("TOTAL DEVELOPMENT COST" ∉ columns raw)
   ∧ ¬ ("SITE #" ∈ columns raw ∧ "SITE NUMBER" ∈ columns raw))
  ∨ (("SITE #" ∉ columns raw) ∧ ("SITE NUMBER" ∉ columns raw)
     ∧ ¬ ("TDC" ∈ columns raw ∧ "TOTAL DEVELOPMENT COST" ∈ columns raw)) ->
  (∀ df, ¬ raises (rename_columns df))
  ∧ raises (pipeline raw)
  ∧ ∀ filtered, filter_rows raw = Ok filtered ->
      ∃ renamed, rename_columns filtered = Ok renamed
                 ∧ (raises (coerce_numeric renamed)
                    ∨ ∃ numeric, coerce_numeric renamed = Ok numeric
                                 ∧ raises (coerce_types numeric)).
Proof.
  intros Habs. split; [apply rename_columns_silent|].
  assert (Hmain : ∀ filtered, filter_rows raw = Ok filtered ->
            ∃ renamed, rename_columns filtered = Ok renamed
                       ∧ (raises (coerce_numeric renamed)
                          ∨ ∃ numeric, coerce_numeric renamed = Ok numeric
                                       ∧ raises (coerce_types numeric))).
  { intros filtered Hf. apply filter_rows_Ok in Hf as [Hcols _].
    rewrite <- Hcols in Habs. clear Hcols. unfold rename_columns.
    assert (Hc1 : ¬ ("TDC" ∈ columns filtered
                     ∧ "TOTAL DEVELOPMENT COST" ∈ columns filtered)) by tauto.
    destruct (rename_column_completes _ _ _ Hc1) as [df1 H1]. rewrite H1. simpl.
    pose proof (rename_column_columns _ _ _ _ H1) as Hcols1.
    assert (Hc2 : ¬ ("SITE #" ∈ columns df1 ∧ "SITE NUMBER" ∈ columns df1)).
    { intros [Ha Hb]. apply Hcols1 in Ha as [[Ha _]|[? _]]; [|done].
      apply Hcols1 in Hb as [[Hb _]|[? _]]; [|done]. tauto. }
    destruct (rename_column_completes _ _ _ Hc2) as [df2 H2].
    exists df2. split; [exact H2|].
    pose proof (rename_column_columns _ _ _ _ H2) as Hcols2.
    destruct Habs as [(Ha & Hb & _)|(Ha & Hb & _)].
    - left. unfold coerce_numeric. apply bind_raises_l.
      apply (require_all_raises _ _ "TOTAL DEVELOPMENT COST"); [decide_elem|].
      intros Hin. apply Hcols2 in Hin as [[Hin _]|[? _]]; [|done].
      apply Hcols1 in Hin as [[Hin _]|[_ Hin]]; tauto.
    - destruct (coerce_numeric_cases df2) as [[numeric Hn]|Hr]; [|by left].
      right. exists numeric. split; [done|].
      unfold coerce_types. apply bind_raises_l.
      apply (require_all_raises _ _ "SITE NUMBER"); [decide_elem|].
      rewrite (coerce_numeric_columns _ _ Hn).
      intros Hin. apply Hcols2 in Hin as [[Hin _]|[_ Hin]].
      + apply Hcols1 in Hin as [[Hin _]|[? _]]; [tauto|done].
      + apply Hcols1 in Hin as [[Hin _]|[? _]]; [tauto|done]. }
  split; [|exact Hmain].
  unfold pipeline. apply bind_raises_l. unfold prepare.
  destruct (read_date_stamp_cases raw) as [[stamp ->]|Hr];
    [simpl|by apply bind_raises_l].
  destruct (filter_rows_cases raw) as [[filtered Hf]|Hr];
    [rewrite Hf; simpl|by apply bind_raises_l].
  destruct (Hmain filtered Hf) as (renamed & -> & Hrest). simpl.
  destruct Hrest as [Hr|(numeric & -> & Hr)]; [by apply bind_raises_l|].
  simpl. by apply bind_raises_l.
Qed.

(** ** 27. Statements that go through *)

Lemma bind_Ok_l {A B} (a : A) (f : A -> outcome B) : (Ok a ≫= f) = f a.
Proof. reflexivity. Qed.

Lemma bind_Raise_l {A B} e (f : A -> outcome B) : (Raise e ≫= f) = Raise e.
Proof. reflexivity. Qed.

Lemma require_present c df : c ∈ columns df -> require c df = Ok ().
Proof. intros H. unfold require. by rewrite bool_decide_eq_true_2. Qed.

Lemma require_all_present cs df :
  (∀ c, c ∈ cs -> c ∈ columns df) -> require_all cs df = Ok ().
Proof.
  induction cs as [|c cs IH]; intros H; simpl; [done|].
  rewrite require_present by (apply H; by left). rewrite bind_Ok_l.
  apply IH. intros c' Hc'. apply H. by right.
Qed.

Lemma filter_rows_kept df :
  "CONSTRUCTION TYPE" ∈ columns df -> "HOUSING TYPE" ∈ columns df ->
  filter_rows df = Ok {| columns := columns df; rows := kept_rows df |}.
Proof.
  intros H1 H2. unfold filter_rows, loc_ne.
  rewrite (require_present _ _ H1), bind_Ok_l, bind_Ok_l.
  rewrite (require_present "HOUSING TYPE") by exact H2. rewrite bind_Ok_l.
  cbn [columns rows].
  do 2 f_equal. unfold kept_rows. rewrite list_filter_filter.
  apply list_filter_iff. intros r. unfold excluded. tauto.
Qed.

Lemma rename_column_present old new df :
  old ∈ columns df -> new ∉ columns df ->
  rename_column old new df
  = Ok {| columns := (fun c => if bool_decide (c = old) then new else c)
                       <$> columns df;
          rows := rename_row old new <$> rows df |}.
Proof.
  intros Ho Hn. unfold rename_column.
  by rewrite (bool_decide_eq_true_2 _ Ho), (bool_decide_eq_false_2 _ Hn).
Qed.

Lemma numeric_folds_columns df :
  (∀ c, c ∈ numeric_columns -> c ∈ columns df) ->
  columns (foldl (fun d c => update_series c (to_numeric downcast_float) d)
             (foldl (fun d c => apply_map c replace_commas d) df numeric_columns)
             numeric_columns) = columns df.
Proof.
  intros Hall.
  assert (H1 : columns (foldl (fun d c => apply_map c replace_commas d)
                              df numeric_columns) = columns df).
  { by apply (columns_foldl (fun c d => apply_map c replace_commas d)). }
  etransitivity; [|exact H1].
  apply (columns_foldl (fun c d => update_series c (to_numeric downcast_float) d));
    [done|]. intros c Hc. rewrite H1. by apply Hall.
Qed.

Lemma coerce_numeric_completes df :
  (∀ c, c ∈ numeric_columns -> c ∈ columns df) -> "JOBS" ∈ columns df ->
  completes (coerce_numeric df).
Proof.
  intros Hall Hj. unfold coerce_numeric.
  rewrite (require_all_present _ _ Hall), bind_Ok_l. cbv zeta.
  rewrite (require_present "JOBS") by (by rewrite numeric_folds_columns).
  rewrite bind_Ok_l. by eexists.
Qed.

Lemma coerce_types_completes df :
  (∀ c, c ∈ categorical_columns -> c ∈ columns df) -> "DATE FUNDED" ∈ columns df ->
  coerce_types df
  = Ok (update_series "DATE FUNDED" (imap (fun i => to_datetime_mdY (present i))) df).
Proof.
  intros Hall Hd. unfold coerce_types.
  by rewrite (require_all_present _ _ Hall), bind_Ok_l, (require_present _ _ Hd), bind_Ok_l.
Qed.

(** ** 24. Monetary columns *)

Lemma series_setitem_eq c vals df :
  length vals = length (rows df) -> series c (setitem c vals df) = vals.
Proof.
  unfold series, setitem. simpl. revert vals.
  induction (rows df) as [|r rs IH]; intros [|v vals] Hlen; simpl in *;
    try discriminate; [done|].
  rewrite cell_of_insert. f_equal. apply IH. lia.
Qed.

Lemma series_setitem_ne c c' vals df :
  c ≠ c' -> length vals = length (rows df) -> series c (setitem c' vals df) = series c df.
Proof.
  intros Hne. unfold series, setitem. simpl. revert vals.
  induction (rows df) as [|r rs IH]; intros [|v vals] Hlen; simpl in *;
    try discriminate; [done|].
  rewrite cell_of_insert_ne by done. f_equal. apply IH. lia.
Qed.

Lemma series_update_series_eq c f df :
  (∀ l, length (f l) = length l) -> series c (update_series c f df) = f (series c df).
Proof.
  intros Hf. unfold update_series. apply series_setitem_eq.
  unfold series. by rewrite Hf, length_fmap.
Qed.

Lemma series_update_series_ne c c' f df :
  c ≠ c' -> (∀ l, length (f l) = length l) ->
  series c (update_series c' f df) = series c df.
Proof.
  intros Hne Hf. unfold update_series. apply series_setitem_ne; [done|].
  unfold series. by rewrite Hf, length_fmap.
Qed.

Lemma series_apply_map_eq c f df : series c (apply_map c f df) = f <$> series c df.
Proof.
  unfold series, apply_map, derive_column. simpl.
  rewrite <- !list_fmap_compose. apply list_fmap_ext.
  intros i r _. simpl. apply cell_of_insert.
Qed.

Lemma series_apply_map_ne c c' f df :
  c ≠ c' -> series c (apply_map c' f df) = series c df.
Proof.
  intros Hne. unfold series, apply_map, derive_column. simpl.
  rewrite <- !list_fmap_compose. apply list_fmap_ext.
  intros i r _. simpl. by apply cell_of_insert_ne.
Qed.

Lemma length_numeric_float l : length (to_numeric downcast_float l) = length l.
Proof. apply length_to_numeric, length_downcast_float. Qed.

Lemma length_numeric_integer l : length (to_numeric downcast_integer l) = length l.
Proof. apply length_to_numeric, length_downcast_integer. Qed.

(** Lines 30-33 do to each monetary column what [monetary_coercion] says. *)
Lemma coerce_numeric_series df df' c :
  coerce_numeric df = Ok df' ->
  c ∈ numeric_columns ->
  series c df' = monetary_coercion (series c df).
Proof.
  unfold coerce_numeric. intros H Hc. inv_bind H as u Hu. inv_bind H as v Hv.
  apply Ok_inj in H. subst df'. clear Hu Hv.
  unfold numeric_columns in *. cbn [foldl].
  unfold monetary_coercion.
  repeat (apply elem_of_cons in Hc as [->|Hc]);
    [ .. | by apply elem_of_nil in Hc ];
    repeat first
      [ rewrite series_update_series_eq by apply length_numeric_float
      | rewrite series_update_series_ne
          by first [done | apply length_numeric_float | apply length_numeric_integer]
      | rewrite series_apply_map_eq
      | rewrite series_apply_map_ne by done ];
    reflexivity.
Qed.

Lemma forallb_Forall {A} (p : A -> bool) l :
  forallb p l = true <-> Forall (fun x => p x = true) l.
Proof.
  rewrite forallb_forall, Forall_forall. by setoid_rewrite list_elem_of_In.
Qed.

Lemma existsb_false {A} (p : A -> bool) l x :
  existsb p l = false -> x ∈ l -> p x = false.
Proof.
  intros H Hx. destruct (p x) eqn:E; [|done].
  rewrite <- H. symmetry. apply existsb_exists. exists x. split; [|done].
  by apply list_elem_of_In.
Qed.

Lemma is_number_cases c : is_number c <-> is_int c = true ∨ is_flt c = true.
Proof.
  unfold is_number. destruct c; simpl; split; try (intros [x Hx]; done);
    try (intros [?|?]; done); eauto.
Qed.

Lemma one_dtype_numbers col : one_dtype col -> Forall is_number col.
Proof.
  intros [H|H]; eapply Forall_impl; try exact H; intros c Hc;
    apply is_number_cases; auto.
Qed.

(** The array of [maybe_convert_numeric] has one dtype: floats as soon as
    a float was seen, integers otherwise. *)
Lemma numeric_array_one l : one_dtype (numeric_array l).
Proof.
  unfold numeric_array. destruct (seen_float l) eqn:E.
  - right. apply Forall_fmap. by apply Forall_true.
  - left. apply Forall_fmap, Forall_forall. intros v Hv.
    unfold seen_float in E. apply orb_false_iff in E as [E _].
    apply (existsb_false _ _ _ E) in Hv. by destruct v.
Qed.

Lemma numeric_array_lookup l i v :
  l !! i = Some v ->
  ∃ c, numeric_array l !! i = Some c
       ∧ (c = Flt (literal_float v) ∨ ∃ z f, v = integer_literal z f ∧ c = Int z).
Proof.
  intros H. unfold numeric_array. destruct (seen_float l) eqn:E.
  - exists (Flt (literal_float v)). rewrite list_lookup_fmap, H. auto.
  - unfold seen_float in E. apply orb_false_iff in E as [E _].
    assert (Hv : is_float_literal v || beyond_64_bits v = false).
    { apply (existsb_false _ _ _ E). by eapply list_elem_of_lookup_2. }
    destruct v as [z f|f]; [|done].
    exists (Int z). rewrite list_lookup_fmap, H. split; [done|]. right. eauto.
Qed.

Lemma SFeqb_refl x : x ≠ S754_nan -> SFeqb x x = true.
Proof.
  intros Hx. destruct x as [[]|[]| |[] m e]; try done;
    unfold SFeqb, SFcompare; by rewrite Z.compare_refl, Pos.compare_cont_refl.
Qed.

Lemma isclose_refl tol x : F64.isclose tol x x = true.
Proof.
  unfold F64.isclose. destruct (decide (x = S754_nan)) as [->|Hx].
  - by rewrite orb_true_r.
  - by rewrite (SFeqb_refl x Hx), orb_true_r.
Qed.

(** An integer array is always close to its conversion to float64. *)
Lemma allclose_float64 tol col :
  Forall is_number col -> allclose tol (astype_float64 <$> col) col = true.
Proof.
  intros H. unfold allclose. induction H as [|c col [x Hx] _ IH]; [done|].
  rewrite fmap_cons. cbn [combine forallb fst snd]. rewrite IH, andb_true_r.
  unfold astype_float64. rewrite Hx. cbn [as_float]. rewrite ?Hx.
  apply isclose_refl.
Qed.

Lemma astype_float64_flt c : is_number c -> is_flt (astype_float64 c) = true.
Proof. intros [x Hx]. unfold astype_float64. by rewrite Hx. Qed.

Lemma astype_float32_flt c : is_number c -> is_flt (astype_float32 c) = true.
Proof. intros [x Hx]. unfold astype_float32. by rewrite Hx. Qed.

(** [downcast='float'] leaves floats: the float32 values when they are
    close enough, the float64 values otherwise. *)
Lemma downcast_float_lookup col i c :
  one_dtype col ->
  col !! i = Some c ->
  ∃ x y, as_float c = Some x
         ∧ downcast_float col !! i = Some (Flt y)
         ∧ (y = x ∨ y = F64.round32 x).
Proof.
  intros Hone Hi. pose proof (one_dtype_numbers _ Hone) as Hn.
  assert (Hc : is_number c).
  { apply (proj1 (Forall_forall _ _) Hn). by eapply list_elem_of_lookup_2. }
  destruct Hc as [x Hx]. exists x. unfold downcast_float.
  destruct (allclose F64.tol_float32 (astype_float32 <$> col) col).
  - exists (F64.round32 x). split; [done|]. split; [|by right].
    rewrite list_lookup_fmap, Hi. unfold astype_float32. simpl. by rewrite Hx.
  - exists x. split; [done|]. split; [|by left].
    destruct (forallb is_int col) eqn:E.
    + rewrite (allclose_float64 _ _ Hn), list_lookup_fmap, Hi.
      unfold astype_float64. simpl. by rewrite Hx.
    + rewrite Hi. destruct Hone as [H|H].
      * apply forallb_Forall in H. congruence.
      * pose proof (proj1 (Forall_forall _ _) H c
                      (list_elem_of_lookup_2 _ _ _ Hi)) as Hf.
        destruct c; try done. simpl in Hx. congruence.
Qed.

Lemma downcast_float_flt col :
  one_dtype col -> Forall (fun c => is_flt c = true) (downcast_float col).
Proof.
  intros Hone. apply Forall_lookup. intros i v Hv.
  assert (Hlt : (i < length col)%nat).
  { rewrite <- (length_downcast_float col). by eapply lookup_lt_Some. }
  destruct (lookup_lt_is_Some_2 _ _ Hlt) as [c Hc].
  destruct (downcast_float_lookup _ _ _ Hone Hc) as (x & y & _ & Hy & _).
  rewrite Hv in Hy. by injection Hy as ->.
Qed.

(** What lines 30-33 leave of a text: the float read from it, or the
    float of the integer read from it when the whole column is one of
    integers, each as it is or rounded to float32; NaN when the text is
    not read. *)
Lemma monetary_coercion_lookup col i s :
  col !! i = Some (Str s) ->
  ∃ x, monetary_coercion col !! i = Some (Flt x)
       ∧ match floatify (remove_commas s) with
         | Some l =>
             x = literal_float l ∨ x = F64.round32 (literal_float l)
             ∨ ∃ z f, l = integer_literal z f
                      ∧ (x = F64.of_Z z ∨ x = F64.round32 (F64.of_Z z))
         | None => x = S754_nan
         end.
Proof.
  intros H. unfold monetary_coercion, to_numeric.
  assert (H1 : (seen <$> (replace_commas <$> col)) !! i
               = Some (seen (Str (remove_commas s)))).
  { by rewrite !list_lookup_fmap, H. }
  destruct (numeric_array_lookup _ _ _ H1) as (c & Hc & Hcase).
  destruct (downcast_float_lookup _ _ _ (numeric_array_one _) Hc)
    as (x & y & Hx & Hy & Hxy).
  exists y. split; [exact Hy|].
  simpl in Hcase. destruct (floatify (remove_commas s)) as [l|]; simpl in Hcase.
  - destruct Hcase as [->|(z & f & -> & ->)]; simpl in Hx; injection Hx as <-.
    + destruct Hxy; auto.
    + right. right. exists z, f. split; [done|]. destruct Hxy; auto.
  - destruct Hcase as [->|(z & f & ? & _)]; [|done].
    simpl in Hx. injection Hx as <-. by destruct Hxy as [->| ->].
Qed.

(** C7. The coercion of a monetary column takes the commas out of a text
    value and reads what remains as a floating-point number, and nothing
    is raised on the way: on a frame that has the four monetary columns
    (and JOBS, for line 34) the statements go through, and the coerced
    cell is a float.  It is the float read from the text, or, in a column
    where every value is an integer, the float of the integer read, kept
    as a float32 when the whole column allows it; a text that does not
    read as a number becomes NaN, the missing value.  "1,234,500" becomes
    1234500.0 and "N/A" becomes missing. *)
Theorem monetary_text_parses_or_goes_missing df c i s :
  (∀ c', c' ∈ numeric_columns -> c' ∈ columns df) ->
  "JOBS" ∈ columns df ->
  c ∈ numeric_columns ->
  series c df !! i = Some (Str s) ->
  ∃ df', coerce_numeric df = Ok df'
    ∧ series c df' = monetary_coercion (series c df)
    ∧ length (series c df') = length (series c df)
    ∧ ∃ x, series c df' !! i = Some (Flt x)
           ∧ match floatify (remove_commas s) with
             | Some l =>
                 x = literal_float l ∨ x = F64.round32 (literal_float l)
                 ∨ ∃ z f, l = integer_literal z f
                          ∧ (x = F64.of_Z z ∨ x = F64.round32 (F64.of_Z z))
             | None => x = S754_nan
             end
           ∧ (s = "1,234,500" -> x = F64.of_Z 1234500)
           ∧ (s = "N/A" -> x = S754_nan).
Proof.
  intros Hall Hj Hc Hi.
  destruct (coerce_numeric_completes df Hall Hj) as [df' Hrun].
  exists df'. split; [exact Hrun|].
  pose proof (coerce_numeric_series _ _ _ Hrun Hc) as Hs.
  split; [exact Hs|]. split.
  { rewrite Hs. unfold monetary_coercion.
    by rewrite length_numeric_float, length_fmap. }
  rewrite Hs. destruct (monetary_coercion_lookup _ _ _ Hi) as (x & Hx & Hcase).
  exists x. split; [exact Hx|]. split; [exact Hcase|]. split.
  - intros ->.
    assert (E : floatify (remove_commas "1,234,500")
                = Some (integer_literal 1234500 (F64.of_Z 1234500)))
      by (by vm_compute).
    rewrite E in Hcase. simpl in Hcase.
    assert (E32 : F64.round32 (F64.of_Z 1234500) = F64.of_Z 1234500)
      by (by vm_compute).
    destruct Hcase as [->|[->|(z & f & [= <- <-] & [->| ->])]];
      by rewrite ?E32.
  - intros ->.
    assert (E : floatify (remove_commas "N/A") = None) by (by vm_compute).
    by rewrite E in Hcase.
Qed.

(** ** 25. The funding date, from text to table *)



(** The sample's project P2 was funded on "03/15/2010". *)
Example sample_funding_date :
  cell_of sample_project_row "PROJECT NUMBER" = Str "P2"
  ∧ cell_of sample_project_row "DATE FUNDED" = Str "2010-03-15"
  ∧ cell_of sample_project_row "YEAR FUNDED" = Date (mkdate 2010 1 1)
  ∧ cell_of sample_project_row "NUMBER OF SITES" = Int 1
  ∧ cell_of sample_zero_row "PROJECT NUMBER" = Str "P1"
  ∧ cell_of sample_zero_row "NUMBER OF SITES" = Int 2.
Proof. repeat split; by_compute. Qed.

(** ** 26. The columns of the project tables in the published layout *)

Lemma rename_column_columns_eq old new df df' :
  rename_column old new df = Ok df' ->
  columns df' =
    if bool_decide (old ∈ columns df)
    then (fun c => if bool_decide (c = old) then new else c) <$> columns df
    else columns df.
Proof.
  unfold rename_column. case_bool_decide.
  - case_bool_decide; [done|]. by intros [= <-].
  - by intros [= <-].
Qed.

Lemma coerce_types_columns df df' : coerce_types df = Ok df' -> columns df' = columns df.
Proof.
  unfold coerce_types. intros H. inv_bind H as u Hu. inv_bind H as v Hv.
  apply Ok_inj in H. subst df'. apply require_Ok in Hv.
  by apply add_label_elem.
Qed.

Lemma funded_columns_columns p p' :
  funded_columns p = Ok p' -> columns p' = add_label "YEAR FUNDED" (columns p).
Proof.
  unfold funded_columns. intros H. inv_bind H as u Hu. apply Ok_inj in H. subst p'.
  apply require_Ok in Hu.
  unfold update_series, setitem, apply_map, derive_column. cbn [columns].
  rewrite (add_label_elem "DATE FUNDED" (columns p)) by done.
  assert (Hd : "DATE FUNDED" ∈ add_label "YEAR FUNDED" (columns p)).
  { apply elem_of_add_label. by left. }
  rewrite (add_label_elem "DATE FUNDED" _ Hd).
  apply add_label_elem, elem_of_add_label. by right.
Qed.

Lemma cost_per_unit_columns obj p p' :
  cost_per_unit obj p = Ok p' ->
  columns p' = add_label "COST PER HOUSING UNIT" (columns p).
Proof.
  unfold cost_per_unit. intros H.
  inv_bind H. inv_bind H. inv_bind H as cost Hcost. by apply Ok_inj in H as <-.
Qed.

Lemma drop_labels_columns ls df df' :
  drop_labels ls df = Ok df' -> columns df' = filter (fun c => c ∉ ls) (columns df).
Proof. unfold drop_labels. intros H. inv_bind H. by apply Ok_inj in H as <-. Qed.

Lemma prune_columns_columns p p' :
  prune_columns p = Ok p' ->
  ∃ c, filter (fun c => c ∉ dropped_columns) (columns p) !! 3%nat = Some c
       ∧ columns p'
         = filter (fun c' => c' ∉ [c])
                  (filter (fun c => c ∉ dropped_columns) (columns p)).
Proof.
  unfold prune_columns. intros H. inv_bind H as p1 H1.
  pose proof (drop_labels_columns _ _ _ H1) as Hc1. rewrite Hc1 in H.
  destruct (filter _ (columns p) !! 3%nat) as [c|] eqn:E; [|done].
  exists c. split; [done|]. rewrite <- Hc1. by apply drop_labels_columns.
Qed.

(** In the published layout the column that line 79 drops by position is
    SITE COUNCIL DISTRICT, and the project tables retain the fifteen
    columns of [project_columns] (fourteen without JOBS). *)
Lemma published_layout_columns raw out :
  pipeline raw = Ok out ->
  columns raw = published_columns ->
  columns (lahd_projects out) = project_columns
  ∧ columns (lahd_projects_no_jobs_column out)
    = filter (fun c => c ≠ "JOBS") project_columns.
Proof.
  intros (o & Ho & ->)%pipeline_Ok Hraw.
  destruct (prepare_clean _ _ Ho)
    as (filtered & renamed & numeric & Hf & Hr & Hn & Ht & _).
  destruct (prepare_Ok _ _ Ho) as (t & _ & _ & Hcount & Hfund & Hcost & Hprune & Hjobs).
  apply filter_rows_Ok in Hf as [Hf _]. rewrite Hraw in Hf.
  unfold rename_columns in Hr. inv_bind Hr as df1 H1.
  apply rename_column_columns_eq in H1. rewrite Hf in H1.
  apply rename_column_columns_eq in Hr. rewrite H1 in Hr.
  apply coerce_numeric_columns in Hn. rewrite Hr in Hn.
  apply coerce_types_columns in Ht. rewrite Hn in Ht.
  apply count_sites_Ok in Hcount as [Hcount _]. rewrite Ht in Hcount.
  apply funded_columns_columns in Hfund. rewrite Hcount in Hfund.
  apply cost_per_unit_columns in Hcost. rewrite Hfund in Hcost.
  apply prune_columns_columns in Hprune as (c & Hc & Hprune).
  rewrite Hcost in Hc, Hprune.
  vm_compute in Hc. injection Hc as <-.
  apply drop_labels_columns in Hjobs. simpl.
  rewrite Hjobs, Hprune. split; by vm_compute.
Qed.

(** The sample in numbers: of its seven projects two are in the project
    table, P1 with two sites and P2 with one, and the variant without the
    jobs column has P7 as well. *)
Example sample_tables :
  columns sample = published_columns
  ∧ series "PROJECT NUMBER" (lahd_projects sample_out) = [Str "P1"; Str "P2"]
  ∧ series "NUMBER OF SITES" (lahd_projects sample_out) = [Int 2; Int 1]
  ∧ series "PROJECT NUMBER" (lahd_projects_no_jobs_column sample_out)
    = [Str "P1"; Str "P2"; Str "P7"]
  ∧ series "DATE FUNDED" (lahd_projects sample_prepared)
    = [Str "2005-12-01"; Str "2010-03-15"; Str "NaT"; Str "2015-07-04";
       Str "2015-07-04"]
  ∧ date_stamp sample_out = "01/02/2024".
Proof. repeat split; by_compute. Qed.

(** ** 28. Numbers after the coercion *)

Lemma downcast_float_one col : one_dtype col -> one_dtype (downcast_float col).
Proof. intros H. right. by apply downcast_float_flt. Qed.

Lemma downcast_integer_one col : one_dtype col -> one_dtype (downcast_integer col).
Proof.
  intros H. unfold downcast_integer.
  destruct (forallb is_int col); [done|].
  destruct (mapM astype_int col) as [zs|]; [|done].
  match goal with |- context [if ?b then _ else _] => destruct b end; [|done].
  left. apply Forall_fmap. by apply Forall_true.
Qed.

Lemma to_numeric_one dc col :
  (∀ l, one_dtype l -> one_dtype (dc l)) -> one_dtype (to_numeric dc col).
Proof.
  intros H. unfold to_numeric. apply H, numeric_array_one.
Qed.

(** After lines 30-33 a monetary column is a column of floats. *)
Lemma coerce_numeric_floats df df' c :
  coerce_numeric df = Ok df' -> c ∈ numeric_columns ->
  Forall (fun v => is_flt v = true) (series c df').
Proof.
  intros H Hc. rewrite (coerce_numeric_series _ _ _ H Hc).
  unfold monetary_coercion, to_numeric.
  apply downcast_float_flt, numeric_array_one.
Qed.

Lemma coerce_numeric_jobs df df' :
  coerce_numeric df = Ok df' ->
  series "JOBS" df' = to_numeric downcast_integer (series "JOBS" df).
Proof.
  unfold coerce_numeric. intros H. inv_bind H as u Hu. inv_bind H as v Hv.
  apply Ok_inj in H. subst df'. clear Hu Hv.
  unfold numeric_columns. cbn [foldl].
  rewrite series_update_series_eq by apply length_numeric_integer.
  repeat first
    [ rewrite series_update_series_ne
        by first [done | apply length_numeric_float]
    | rewrite series_apply_map_ne by done ].
  reflexivity.
Qed.

Lemma coerce_numeric_one df df' c :
  coerce_numeric df = Ok df' -> c ∈ "JOBS" :: numeric_columns ->
  one_dtype (series c df').
Proof.
  intros H [->|Hc]%elem_of_cons.
  - rewrite (coerce_numeric_jobs _ _ H). apply to_numeric_one, downcast_integer_one.
  - rewrite (coerce_numeric_series _ _ _ H Hc). unfold monetary_coercion.
    apply to_numeric_one, downcast_float_one.
Qed.

(** ** 29. A run on the published header *)

(** Lines 17-45 on the published header: every statement goes through. *)
Lemma published_front raw :
  columns raw = published_columns ->
  ∃ renamed numeric typed,
    filter_rows raw = Ok (mkDataFrame (columns raw) (kept_rows raw))
    ∧ rename_columns (mkDataFrame (columns raw) (kept_rows raw)) = Ok renamed
    ∧ coerce_numeric renamed = Ok numeric
    ∧ coerce_types numeric = Ok typed
    ∧ columns typed = descriptive_columns
    ∧ frame_step cleaned_labels (mkDataFrame (columns raw) (kept_rows raw)) typed
    ∧ ∀ c, c ∈ "JOBS" :: numeric_columns -> one_dtype (series c typed).
Proof.
  intros Hraw.
  assert (Hf : filter_rows raw = Ok (mkDataFrame (columns raw) (kept_rows raw))).
  { apply filter_rows_kept; rewrite Hraw; by_compute. }
  set (filtered := mkDataFrame (columns raw) (kept_rows raw)) in *.
  assert (Hr : ∃ renamed, rename_columns filtered = Ok renamed
                          ∧ columns renamed = descriptive_columns).
  { unfold rename_columns.
    rewrite (rename_column_present "TDC") by (subst filtered; simpl; rewrite Hraw; by_compute).
    rewrite bind_Ok_l.
    rewrite (rename_column_present "SITE #")
      by (subst filtered; simpl; rewrite Hraw; by_compute).
    eexists. split; [done|]. subst filtered. simpl. rewrite Hraw. by vm_compute. }
  destruct Hr as (renamed & Hr & Hcr).
  destruct (coerce_numeric_completes renamed) as [numeric Hn];
    [intros c Hc; rewrite Hcr; revert c Hc; apply Forall_forall; by_compute
    |rewrite Hcr; by_compute|].
  pose proof (coerce_numeric_columns _ _ Hn) as Hcn. rewrite Hcr in Hcn.
  assert (Ht : coerce_types numeric
               = Ok (update_series "DATE FUNDED"
                       (imap (fun i => to_datetime_mdY (present i))) numeric)).
  { apply coerce_types_completes;
      [intros c Hc; rewrite Hcn; revert c Hc; apply Forall_forall; by_compute
      |rewrite Hcn; by_compute]. }
  exists renamed, numeric,
    (update_series "DATE FUNDED" (imap (fun i => to_datetime_mdY (present i))) numeric).
  repeat (split; [done|]). split; [|split].
  - rewrite (coerce_types_columns _ _ Ht). exact Hcn.
  - eapply frame_step_trans; [|apply (coerce_types_step _ _ Ht)].
    eapply frame_step_weaken;
      [|eapply frame_step_trans;
        [apply (rename_columns_step _ _ Hr)|apply (coerce_numeric_step _ _ Hn)]].
    intros c Hc. apply elem_of_app. by left.
  - intros c Hc. rewrite series_update_series_ne.
    + by apply (coerce_numeric_one _ _ _ Hn).
    + intros ->. revert Hc. by_compute.
    + intros l. apply length_imap.
Qed.

(** Line 57 compares the number of groups with the number of project rows:
    they agree exactly when no key is missing. *)
Lemma count_lengths (keys : list cell) :
  length (filter (fun k => notna k = true) (unique keys)) = length (unique keys)
  <-> Forall (fun k => notna k = true) keys.
Proof.
  split.
  - intros H. apply (filter_full_length (fun k => notna k = true)) in H.
    apply Forall_forall. intros k Hk.
    apply (proj1 (Forall_forall _ _) H), unique_elem_of, Hk.
  - intros H. f_equal. apply (filter_all (fun k => notna k = true)).
    apply Forall_forall. intros k Hk. apply (proj1 (Forall_forall _ _) H).
    by eapply elem_of_first_by.
Qed.

Lemma count_sites_run df :
  "PROJECT NUMBER" ∈ columns df ->
  count_sites df
  = assign_array "NUMBER OF SITES"
      ((fun kc : cell * Z => Int kc.2) <$> groupby_count (series "PROJECT NUMBER" df))
      (sort_values "PROJECT NUMBER" (drop_duplicates "PROJECT NUMBER" df)).
Proof.
  intros H. unfold count_sites, getitem.
  by rewrite (require_present _ _ H), !bind_Ok_l.
Qed.

Lemma count_sites_lengths df :
  length ((fun kc : cell * Z => Int kc.2) <$> groupby_count (series "PROJECT NUMBER" df))
  = length (rows (sort_values "PROJECT NUMBER" (drop_duplicates "PROJECT NUMBER" df)))
  <-> Forall (fun k => notna k = true) (series "PROJECT NUMBER" df).
Proof.
  rewrite <- count_lengths. unfold groupby_count. simpl.
  rewrite !length_fmap, !sort_by_length, unique_filter.
  unfold unique at 3, series.
  by rewrite <- (first_by_map (fun r => cell_of r "PROJECT NUMBER")), length_fmap.
Qed.

Lemma count_sites_completes df :
  "PROJECT NUMBER" ∈ columns df ->
  Forall (fun k => notna k = true) (series "PROJECT NUMBER" df) ->
  completes (count_sites df).
Proof.
  intros Hc Hk. rewrite (count_sites_run _ Hc). unfold assign_array.
  rewrite bool_decide_eq_true_2 by (by apply count_sites_lengths). by eexists.
Qed.

Lemma count_sites_mismatch df :
  "PROJECT NUMBER" ∈ columns df ->
  ¬ Forall (fun k => notna k = true) (series "PROJECT NUMBER" df) ->
  count_sites df = Raise LengthMismatch.
Proof.
  intros Hc Hk. rewrite (count_sites_run _ Hc). unfold assign_array.
  rewrite bool_decide_eq_false_2; [done|]. by rewrite count_sites_lengths.
Qed.

Lemma funded_columns_run p :
  "DATE FUNDED" ∈ columns p -> completes (funded_columns p).
Proof.
  intros H. unfold funded_columns. rewrite (require_present _ _ H), bind_Ok_l.
  by eexists.
Qed.

Lemma traverse_completes {A B} (f : A -> outcome B) l :
  Forall (fun x => completes (f x)) l -> completes (traverse f l).
Proof.
  induction 1 as [|x l [y Hy] _ [ys IH]]; simpl; [by eexists|].
  rewrite Hy, bind_Ok_l, IH, bind_Ok_l. by eexists.
Qed.

(** A traversal ends as its steps can end. *)
Lemma traverse_cases {A B} (f : A -> outcome B) (P : exn -> Prop) l :
  (∀ x, x ∈ l -> completes (f x) ∨ ∃ e, f x = Raise e ∧ P e) ->
  completes (traverse f l) ∨ ∃ e, traverse f l = Raise e ∧ P e.
Proof.
  induction l as [|x l IH]; intros Hall; simpl; [left; by eexists|].
  destruct (Hall x) as [[y Hy]|(e & He & HP)]; [by left| |].
  - rewrite Hy, bind_Ok_l. destruct IH as [[ys Hys]|(e & He & HP)].
    + intros x' Hx'. apply Hall. by right.
    + left. rewrite Hys, bind_Ok_l. by eexists.
    + right. exists e. by rewrite He.
  - right. exists e. by rewrite He.
Qed.

(** *** Floats that are numbers *)

Lemma shr_1_nonneg mrs : 0 <= shr_m mrs -> 0 <= shr_m (shr_1 mrs).
Proof. destruct mrs as [[|[p|p|]|p] r s]; simpl; lia. Qed.

Lemma iter_pos_invariant {A} (P : A -> Prop) (f : A -> A) :
  (∀ x, P x -> P (f x)) -> ∀ n x, P x -> P (SpecFloat.iter_pos f n x).
Proof. intros Hf. induction n as [n IH|n IH|]; simpl; auto. Qed.

Lemma shr_nonneg mrs e n : 0 <= shr_m mrs -> 0 <= shr_m (shr mrs e n).1.
Proof.
  intros H. unfold shr. destruct n as [|p|p]; simpl; try done.
  by apply (iter_pos_invariant (fun x => 0 <= shr_m x)); [apply shr_1_nonneg|].
Qed.

Lemma shr_record_of_loc_m m l : shr_m (shr_record_of_loc m l) = m.
Proof. by destruct l as [|[]]. Qed.

Lemma round_nearest_even_nonneg m l : 0 <= m -> 0 <= round_nearest_even m l.
Proof. intros H. destruct l as [|[]]; simpl; try lia. destruct (Z.even m); lia. Qed.

Lemma binary_round_aux_not_nan prec emax s m e l :
  0 <= m -> binary_round_aux prec emax s m e l ≠ S754_nan.
Proof.
  intros Hm. unfold binary_round_aux, shr_fexp.
  pose proof (shr_nonneg (shr_record_of_loc m l) e
                (fexp prec emax (Zdigits2 m + e) - e)) as H1.
  rewrite shr_record_of_loc_m in H1. specialize (H1 Hm).
  destruct (shr (shr_record_of_loc m l) e _) as [mrs' e'].
  simpl in H1.
  set (m' := round_nearest_even (shr_m mrs') (loc_of_shr_record mrs')).
  assert (Hm' : 0 <= m') by by apply round_nearest_even_nonneg.
  pose proof (shr_nonneg (shr_record_of_loc m' loc_Exact) e'
                (fexp prec emax (Zdigits2 m' + e') - e')) as H2.
  simpl in H2. specialize (H2 Hm').
  destruct (shr _ e' _) as [mrs'' e'']. simpl in H2.
  destruct (shr_m mrs'') as [|p|p]; [done| |lia].
  by destruct (e'' <=? emax - prec).
Qed.

Lemma binary_round_not_nan prec emax s m e : binary_round prec emax s m e ≠ S754_nan.
Proof.
  unfold binary_round. destruct (shl_align m e _) as [mz ez].
  by apply binary_round_aux_not_nan.
Qed.

Lemma of_Z_not_nan z : F64.of_Z z ≠ S754_nan.
Proof.
  unfold F64.of_Z, binary_normalize. destruct z; [done|apply binary_round_not_nan..].
Qed.

Lemma round32_not_nan x : x ≠ S754_nan -> F64.round32 x ≠ S754_nan.
Proof.
  intros Hx. destruct x as [s|s| |s m e]; try done. unfold F64.round32.
  pose proof (binary_round_not_nan 24 128 s m e) as H.
  destruct (binary_round 24 128 s m e) as [| | |s' m' e']; try done.
  apply binary_round_not_nan.
Qed.

(** *** The division of line 67 *)

Lemma py_truediv_cases x y :
  completes (py_truediv x y)
  ∨ ∃ e, py_truediv x y = Raise e ∧ (e = ZeroDivision ∨ e = UnsupportedOperand).
Proof.
  unfold py_truediv. destruct (as_float y) as [b|]; [destruct (F64.is_zero b)|].
  - right. eauto.
  - left. by eexists.
  - right. eauto.
Qed.

Lemma object_truediv_cases xs ys :
  completes (object_truediv xs ys)
  ∨ object_truediv xs ys = Raise ZeroDivision
  ∨ object_truediv xs ys = Raise UnsupportedOperand.
Proof.
  unfold object_truediv.
  destruct (traverse_cases (fun xy : spec_float * cell => py_truediv xy.1 xy.2)
              (fun e => e = ZeroDivision ∨ e = UnsupportedOperand) (zip xs ys))
    as [[cs Hcs]|(e & He & [->| ->])].
  - intros xy _. apply py_truediv_cases.
  - rewrite Hcs. left. by eexists.
  - rewrite He. auto.
  - rewrite He.
    destruct (traverse_cases
                (fun xy : spec_float * cell =>
                   if notna (Flt xy.1) && notna xy.2
                   then py_truediv xy.1 xy.2 else Ok nan)
                (fun e => e = ZeroDivision ∨ e = UnsupportedOperand) (zip xs ys))
      as [Hc|(e & He' & [->| ->])]; [|by left|rewrite He'; auto..].
    intros xy _. destruct (_ && _); [apply py_truediv_cases|left; by eexists].
Qed.

Lemma number_no_timestamp c : is_number c -> is_timestamp c = false.
Proof. intros [x Hx]. by destruct c. Qed.

Lemma no_timestamps col :
  Forall (fun c => is_timestamp c = false) col -> existsb is_timestamp col = false.
Proof. induction 1 as [|c l Hc _ IH]; simpl; [done|]. by rewrite Hc, IH. Qed.

Lemma mapM_as_float col : Forall is_number col -> ∃ xs, mapM as_float col = Some xs.
Proof. intros H. by apply mapM_is_Some. Qed.

Lemma object_dtype_numbers col : object_dtype col = false -> Forall is_number col.
Proof.
  unfold object_dtype. intros H%negb_false_iff.
  apply Forall_forall. intros c Hc.
  assert (Hn : is_numeric c = true).
  { rewrite forallb_forall in H. apply H. by apply list_elem_of_In. }
  destruct c; try done; by eexists.
Qed.

Lemma is_flt_number c : is_flt c = true -> is_number c.
Proof. destruct c; try done. by eexists. Qed.

(** The division goes through on numbers: always in a numeric units
    column, and in a units column of objects when no number is zero. *)
Lemma truediv_completes obj tdc ptu :
  Forall is_number tdc -> Forall is_number ptu ->
  (obj = true -> Forall (fun y => zero_float y = false) ptu) ->
  completes (truediv obj tdc ptu).
Proof.
  intros Hx Hy Hz. unfold truediv.
  destruct (mapM_as_float _ Hx) as [xs ->].
  rewrite no_timestamps
    by (eapply Forall_impl; [exact Hy|]; apply number_no_timestamp).
  destruct obj.
  - unfold object_truediv.
    destruct (traverse_completes
                (fun xy : spec_float * cell => py_truediv xy.1 xy.2) (zip xs ptu))
      as [cs ->]; [|by eexists].
    apply Forall_forall. intros [x y] Hxy. simpl.
    apply elem_of_zip_r in Hxy.
    pose proof (proj1 (Forall_forall _ _) Hy y Hxy) as [b Hb].
    pose proof (proj1 (Forall_forall _ _) (Hz eq_refl) y Hxy) as Hnz.
    unfold zero_float in Hnz. rewrite Hb in Hnz.
    unfold py_truediv. rewrite Hb, Hnz. by eexists.
  - destruct (mapM_as_float _ Hy) as [ys ->]. by eexists.
Qed.

(** In a units column of objects the division stops when a row has a cost
    that is not missing over units that are text or zero. *)
Lemma truediv_stops tdc ptu i x y :
  Forall is_number tdc -> Forall (fun c => is_timestamp c = false) ptu ->
  length tdc = length ptu ->
  tdc !! i = Some (Flt x) -> x ≠ S754_nan -> ptu !! i = Some y ->
  (∀ b, as_float y = Some b -> F64.is_zero b = true) ->
  truediv true tdc ptu = Raise ZeroDivision
  ∨ truediv true tdc ptu = Raise UnsupportedOperand.
Proof.
  intros Hx Hts Hlen Hi Hnan Hy Hbad.
  assert (E : ∃ xs, truediv true tdc ptu = object_truediv xs ptu).
  { unfold truediv. destruct (mapM_as_float _ Hx) as [xs ->].
    rewrite (no_timestamps _ Hts). by exists xs. }
  destruct E as [xs E].
  destruct (object_truediv_cases xs ptu) as [[cost Hc]|H]; [|by rewrite E].
  exfalso. rewrite Hc in E.
  destruct (truediv_Ok _ _ _ _ Hlen E) as [Hl Hall].
  destruct (lookup_lt_is_Some_2 cost i) as [c Hci].
  { rewrite Hl. by eapply lookup_lt_Some. }
  destruct (Hall i _ _ _ Hi Hy Hci) as (x' & Hx' & Hq).
  simpl in Hx'. injection Hx' as <-.
  destruct (as_float y) as [b|].
  - destruct Hq as [_ Hq]. apply Hnan, Hq; [done|]. by apply Hbad.
  - by destruct Hq as (_ & ? & _).
Qed.

Lemma cost_per_unit_run obj p :
  "TOTAL DEVELOPMENT COST" ∈ columns p -> "PROJECT TOTAL UNITS" ∈ columns p ->
  cost_per_unit obj p
  = (cost ← truediv obj (series "TOTAL DEVELOPMENT COST" p)
                    (series "PROJECT TOTAL UNITS" p);
     Ok (setitem "COST PER HOUSING UNIT" cost p)).
Proof.
  intros H1 H2. unfold cost_per_unit.
  by rewrite (require_present _ _ H1), bind_Ok_l, (require_present _ _ H2), bind_Ok_l.
Qed.

Lemma drop_labels_present ls df :
  (∀ c, c ∈ ls -> c ∈ columns df) ->
  drop_labels ls df
  = Ok {| columns := filter (fun c => c ∉ ls) (columns df);
          rows := (fun r => foldr delete r ls) <$> rows df |}.
Proof.
  intros H. unfold drop_labels. by rewrite (require_all_present _ _ H), bind_Ok_l.
Qed.

Lemma Forall2_elem_l {A B} (R : A -> B -> Prop) l k x :
  Forall2 R l k -> x ∈ l -> ∃ y, y ∈ k ∧ R x y.
Proof.
  induction 1 as [|a b l k Hab _ IH]; intros Hx; [by apply elem_of_nil in Hx|].
  apply elem_of_cons in Hx as [->|Hx].
  - exists b. split; [by left|done].
  - destruct (IH Hx) as (y & Hy & Hxy). exists y. split; [by right|done].
Qed.

Lemma Forall2_elem_r {A B} (R : A -> B -> Prop) l k y :
  Forall2 R l k -> y ∈ k -> ∃ x, x ∈ l ∧ R x y.
Proof.
  induction 1 as [|a b l k Hab _ IH]; intros Hy; [by apply elem_of_nil in Hy|].
  apply elem_of_cons in Hy as [->|Hy].
  - exists a. split; [by left|done].
  - destruct (IH Hy) as (x & Hx & Hxy). exists x. split; [by right|done].
Qed.

(** Two lists related row by row, with equal keys, have their first
    occurrences in the same places. *)
Lemma first_by_Forall2 {A B} (R : A -> B -> Prop) (ka : A -> cell) (kb : B -> cell)
    seen l k :
  (∀ x y, R x y -> ka x = kb y) ->
  Forall2 R l k -> Forall2 R (first_by ka seen l) (first_by kb seen k).
Proof.
  intros Hkey H. revert seen.
  induction H as [|a b l k Hab _ IH]; intros seen; simpl; [constructor|].
  rewrite (Hkey _ _ Hab). case_bool_decide; [apply IH|].
  constructor; [done|apply IH].
Qed.

Lemma prune_columns_run p c :
  (∀ l, l ∈ dropped_columns -> l ∈ columns p) ->
  filter (fun l => l ∉ dropped_columns) (columns p) !! 3%nat = Some c ->
  prune_columns p
  = Ok {| columns := filter (fun l => l ∉ [c])
                       (filter (fun l => l ∉ dropped_columns) (columns p));
          rows := (fun r => foldr delete r [c])
                    <$> ((fun r => foldr delete r dropped_columns) <$> rows p) |}.
Proof.
  intros Hall Hc. unfold prune_columns.
  rewrite (drop_labels_present _ _ Hall), bind_Ok_l. cbn [columns].
  rewrite Hc. rewrite drop_labels_present; [done|].
  intros l ->%list_elem_of_singleton. cbn [columns].
  by eapply list_elem_of_lookup_2.
Qed.

(** Lines 49-64 keep the operands of the division as the site table has
    them in the first row of each project. *)
Lemma funded_operands typed p0 p1 :
  columns typed = descriptive_columns ->
  count_sites typed = Ok p0 ->
  funded_columns p0 = Ok p1 ->
  columns p1 = (descriptive_columns ++ ["NUMBER OF SITES"; "YEAR FUNDED"])%list
  ∧ series "TOTAL DEVELOPMENT COST" p1
    = (fun r => cell_of r "TOTAL DEVELOPMENT COST") <$> project_rows typed
  ∧ series "PROJECT TOTAL UNITS" p1
    = (fun r => cell_of r "PROJECT TOTAL UNITS") <$> project_rows typed.
Proof.
  intros Hc H0 H1.
  pose proof (funded_columns_columns _ _ H1) as Hc1.
  apply count_sites_Ok in H0 as [Hc0 Hr0].
  apply funded_columns_Ok in H1 as [[_ H1] _].
  rewrite Hc0, Hc in Hc1.
  assert (Hcols : columns p1
            = (descriptive_columns ++ ["NUMBER OF SITES"; "YEAR FUNDED"])%list).
  { rewrite Hc1. by vm_compute. }
  split; [exact Hcols|].
  rewrite Hr0, Forall2_fmap_l in H1. rewrite Hcols in H1.
  split; unfold series; apply list_eq_Forall2, Forall2_fmap, Forall2_flip;
    (eapply Forall2_impl; [exact H1|]); intros r r1 Hstep; simpl in Hstep.
  - rewrite (row_step_cell _ _ _ _ "TOTAL DEVELOPMENT COST" Hstep) by by_compute.
    by apply cell_of_insert_ne.
  - rewrite (row_step_cell _ _ _ _ "PROJECT TOTAL UNITS" Hstep) by by_compute.
    by apply cell_of_insert_ne.
Qed.

Lemma read_date_stamp_first df r rest s :
  "DATE STAMP" ∈ columns df -> rows df = r :: rest ->
  cell_of r "DATE STAMP" = Str s ->
  read_date_stamp df = Ok (prefix_slice 10 s).
Proof.
  intros Hc Hr Hs. unfold read_date_stamp, getitem.
  rewrite (require_present _ _ Hc), !bind_Ok_l. unfold series.
  rewrite Hr. csimpl. by rewrite Hs.
Qed.

Lemma read_date_stamp_Ok df stamp :
  read_date_stamp df = Ok stamp ->
  ∃ r rest s, rows df = r :: rest ∧ cell_of r "DATE STAMP" = Str s
              ∧ stamp = prefix_slice 10 s.
Proof.
  unfold read_date_stamp, getitem. intros H. inv_bind H as col Hcol.
  inv_bind Hcol as u Hu. apply Ok_inj in Hcol. subst col. unfold series in H.
  destruct (rows df) as [|r rest]; [done|]. csimpl in H.
  destruct (cell_of r "DATE STAMP") as [s| | | | |] eqn:E; try done.
  apply Ok_inj in H. by exists r, rest, s.
Qed.

(** *** The cost column, from the file to the site table *)

Lemma filter_rows_Ok_kept df df' : filter_rows df = Ok df' -> rows df' = kept_rows df.
Proof.
  intros [_ ->]%filter_rows_Ok. unfold kept_rows. rewrite list_filter_filter.
  apply list_filter_iff. intros r. unfold excluded. tauto.
Qed.

Lemma coerce_types_Ok_eq df df' :
  coerce_types df = Ok df' ->
  df' = update_series "DATE FUNDED" (imap (fun i => to_datetime_mdY (present i))) df.
Proof.
  unfold coerce_types. intros H. inv_bind H. inv_bind H. by apply Ok_inj in H.
Qed.

Lemma coerce_types_series df df' c :
  coerce_types df = Ok df' -> c ≠ "DATE FUNDED" -> series c df' = series c df.
Proof.
  intros ->%coerce_types_Ok_eq Hc.
  apply series_update_series_ne; [done|]. intros l. apply length_imap.
Qed.

Lemma cell_of_rename_row_new old new (r : row) :
  cell_of (rename_row old new r) new = cell_of r old.
Proof. unfold rename_row. apply cell_of_insert. Qed.

Lemma cell_of_rename_row_ne old new (r : row) c :
  c ≠ old -> c ≠ new -> cell_of (rename_row old new r) c = cell_of r c.
Proof.
  intros H1 H2. unfold rename_row.
  rewrite cell_of_insert_ne by done. by apply cell_of_delete_ne.
Qed.

(** A renaming moves a column, values and place, under its new label and
    leaves the other columns as they are. *)
Lemma rename_column_series old new df df' :
  rename_column old new df = Ok df' ->
  old ∈ columns df ->
  series new df' = series old df
  ∧ (old ∉ columns df')
  ∧ ∀ c, c ≠ old -> c ≠ new -> series c df' = series c df.
Proof.
  unfold rename_column. intros H Ho. rewrite (bool_decide_eq_true_2 _ Ho) in H.
  case_bool_decide as Hn; [done|]. apply Ok_inj in H. subst df'.
  unfold series. simpl. split; [|split].
  - rewrite <- list_fmap_compose. apply list_fmap_ext. intros i r _. simpl.
    apply cell_of_rename_row_new.
  - intros (c & Hc & Hin)%list_elem_of_fmap. case_bool_decide; congruence.
  - intros c H1 H2. rewrite <- list_fmap_compose. apply list_fmap_ext.
    intros i r _. simpl. by apply cell_of_rename_row_ne.
Qed.

Lemma rename_column_series_other old new df df' c :
  rename_column old new df = Ok df' ->
  c ≠ old -> c ≠ new -> series c df' = series c df.
Proof.
  unfold rename_column. intros H H1 H2. case_bool_decide.
  - case_bool_decide; [done|]. apply Ok_inj in H. subst df'.
    unfold series. simpl. rewrite <- list_fmap_compose. apply list_fmap_ext.
    intros i r _. simpl. by apply cell_of_rename_row_ne.
  - apply Ok_inj in H. by subst df'.
Qed.

(** Lines 17-45 on the column TDC of the file. *)
Lemma cost_column_series raw filtered renamed numeric typed :
  filter_rows raw = Ok filtered ->
  rename_columns filtered = Ok renamed ->
  coerce_numeric renamed = Ok numeric ->
  coerce_types numeric = Ok typed ->
  "TDC" ∈ columns raw ->
  series "TOTAL DEVELOPMENT COST" typed
  = monetary_coercion ((fun r => cell_of r "TDC") <$> kept_rows raw).
Proof.
  intros Hf Hr Hn Ht Htdc.
  pose proof (filter_rows_Ok_kept _ _ Hf) as Hrows.
  apply filter_rows_Ok in Hf as [Hcf _].
  unfold rename_columns in Hr. inv_bind Hr as df1 H1.
  destruct (rename_column_series _ _ _ _ H1) as (Hs1 & _ & _); [by rewrite Hcf|].
  pose proof (rename_column_series_other _ _ _ _ "TOTAL DEVELOPMENT COST" Hr) as Hs2.
  rewrite (coerce_types_series _ _ _ Ht) by done.
  rewrite (coerce_numeric_series _ _ _ Hn) by by_compute.
  rewrite Hs2, Hs1 by done. unfold series. by rewrite Hrows.
Qed.

(** What lines 30-33 leave of a value: the float read from it, or the
    float of the integer read from it, each as it is or rounded to
    float32. *)
Lemma monetary_coercion_cell col i c :
  col !! i = Some c ->
  ∃ x, monetary_coercion col !! i = Some (Flt x)
       ∧ (x = literal_float (seen (replace_commas c))
          ∨ x = F64.round32 (literal_float (seen (replace_commas c)))
          ∨ ∃ z f, seen (replace_commas c) = integer_literal z f
                   ∧ (x = F64.of_Z z ∨ x = F64.round32 (F64.of_Z z))).
Proof.
  intros H. unfold monetary_coercion, to_numeric.
  assert (H1 : (seen <$> (replace_commas <$> col)) !! i
               = Some (seen (replace_commas c))).
  { by rewrite !list_lookup_fmap, H. }
  destruct (numeric_array_lookup _ _ _ H1) as (v & Hv & Hcase).
  destruct (downcast_float_lookup _ _ _ (numeric_array_one _) Hv)
    as (x & y & Hx & Hy & Hxy).
  exists y. split; [exact Hy|].
  destruct Hcase as [->|(z & f & Hl & ->)]; simpl in Hx; injection Hx as <-.
  - destruct Hxy; auto.
  - right. right. exists z, f. split; [done|]. destruct Hxy; auto.
Qed.

Lemma monetary_coercion_present col i c x :
  col !! i = Some c -> cost_present c ->
  monetary_coercion col !! i = Some (Flt x) -> x ≠ S754_nan.
Proof.
  intros Hc Hp Hx. destruct (monetary_coercion_cell _ _ _ Hc) as (x' & Hx' & Hcase).
  rewrite Hx in Hx'. injection Hx' as <-.
  destruct Hcase as [->|[->|(z & f & _ & [->| ->])]].
  - exact Hp.
  - by apply round32_not_nan.
  - apply of_Z_not_nan.
  - apply round32_not_nan, of_Z_not_nan.
Qed.

Lemma published_prepare raw :
  columns raw = published_columns ->
  ∃ typed,
    columns typed = descriptive_columns
    ∧ series "PROJECT NUMBER" typed = project_key <$> kept_rows raw
    ∧ Forall2 (fun r r' =>
                 project_key r' = project_key r
                 ∧ cell_of r' "PROJECT TOTAL UNITS" = cell_of r "PROJECT TOTAL UNITS"
                 ∧ ∃ x, cell_of r' "TOTAL DEVELOPMENT COST" = Flt x
                        ∧ (cost_present (cell_of r "TDC") -> x ≠ S754_nan))
              (kept_rows raw) (rows typed)
    ∧ Forall is_number (series "TOTAL DEVELOPMENT COST" typed)
    ∧ prepare raw
      = (stamp ← read_date_stamp raw;
         projects ← build_projects
                      (object_dtype (series "PROJECT TOTAL UNITS" raw)) typed;
         no_jobs ← drop_labels ["JOBS"] projects;
         Ok (mkOutput stamp typed projects no_jobs)).
Proof.
  intros Hraw.
  destruct (published_front raw Hraw)
    as (renamed & numeric & typed & Hf & Hr & Hn & Ht & Hc & Hstep & Hone).
  assert (Hcost : series "TOTAL DEVELOPMENT COST" typed
                  = monetary_coercion ((fun r => cell_of r "TDC") <$> kept_rows raw)).
  { apply (cost_column_series _ _ _ _ _ Hf Hr Hn Ht). rewrite Hraw. by_compute. }
  exists typed. split; [exact Hc|]. split; [|split; [|split]].
  - apply (frame_step_series _ _ _ _ Hstep); [by_compute|rewrite Hc; by_compute].
  - destruct Hstep as [_ Hstep]. simpl in Hstep. rewrite Hc in Hstep.
    apply Forall2_same_length_lookup_2; [by eapply Forall2_length|].
    intros i r r' Hr1 Hr2.
    pose proof (Forall2_lookup_lr _ _ _ _ _ _ Hstep Hr1 Hr2) as H.
    unfold project_key.
    split; [apply (row_step_cell _ _ _ _ _ H); by_compute|].
    split; [apply (row_step_cell _ _ _ _ _ H); by_compute|].
    destruct (monetary_coercion_cell ((fun r => cell_of r "TDC") <$> kept_rows raw)
                i (cell_of r "TDC")) as (x & Hx & _).
    { by rewrite list_lookup_fmap, Hr1. }
    assert (E : cell_of r' "TOTAL DEVELOPMENT COST" = Flt x).
    { rewrite <- Hcost in Hx. unfold series in Hx.
      rewrite list_lookup_fmap, Hr2 in Hx. by injection Hx. }
    exists x. split; [exact E|]. intros Hp.
    apply (monetary_coercion_present
             ((fun r => cell_of r "TDC") <$> kept_rows raw) i (cell_of r "TDC"));
      [by rewrite list_lookup_fmap, Hr1|exact Hp|].
    rewrite <- Hcost. unfold series. rewrite list_lookup_fmap, Hr2. simpl.
    by rewrite E.
  - apply one_dtype_numbers, Hone. by_compute.
  - unfold prepare. destruct (read_date_stamp raw) as [stamp| |]; [|done|done].
    by rewrite !bind_Ok_l, Hf, bind_Ok_l, Hr, bind_Ok_l, Hn, bind_Ok_l, Ht, bind_Ok_l.
Qed.

Lemma descriptive_elem c typed :
  columns typed = descriptive_columns -> bool_decide (c ∈ descriptive_columns) = true ->
  c ∈ columns typed.
Proof. intros -> H. by apply bool_decide_eq_true in H. Qed.

Lemma build_projects_mismatch obj typed :
  columns typed = descriptive_columns ->
  ¬ Forall (fun k => notna k = true) (series "PROJECT NUMBER" typed) ->
  build_projects obj typed = Raise LengthMismatch.
Proof.
  intros Hc Hk. unfold build_projects.
  rewrite count_sites_mismatch; [done| |done]. by apply descriptive_elem.
Qed.

(** Lines 49-64 on the published layout, when no key is missing. *)
Lemma build_projects_funded obj typed :
  columns typed = descriptive_columns ->
  Forall (fun k => notna k = true) (series "PROJECT NUMBER" typed) ->
  ∃ p1,
    columns p1 = (descriptive_columns ++ ["NUMBER OF SITES"; "YEAR FUNDED"])%list
    ∧ series "TOTAL DEVELOPMENT COST" p1
      = (fun r => cell_of r "TOTAL DEVELOPMENT COST") <$> project_rows typed
    ∧ series "PROJECT TOTAL UNITS" p1
      = (fun r => cell_of r "PROJECT TOTAL UNITS") <$> project_rows typed
    ∧ build_projects obj typed
      = (cost ← truediv obj (series "TOTAL DEVELOPMENT COST" p1)
                        (series "PROJECT TOTAL UNITS" p1);
         prune_columns (setitem "COST PER HOUSING UNIT" cost p1)).
Proof.
  intros Hc Hk.
  destruct (count_sites_completes typed) as [p0 H0]; [by apply descriptive_elem|done|].
  pose proof (count_sites_Ok _ _ H0) as [Hc0 _].
  destruct (funded_columns_run p0) as [p1 H1].
  { rewrite Hc0, Hc. by_compute. }
  destruct (funded_operands _ _ _ Hc H0 H1) as (Hc1 & Hx & Hy).
  exists p1. split; [exact Hc1|]. split; [exact Hx|]. split; [exact Hy|].
  unfold build_projects.
  rewrite H0, bind_Ok_l, H1, bind_Ok_l, cost_per_unit_run
    by (rewrite Hc1; by_compute).
  by destruct (truediv _ _ _).
Qed.

Lemma prune_costed p :
  columns p = costed_columns ->
  ∃ projects, prune_columns p = Ok projects
              ∧ columns projects = project_columns
              ∧ completes (drop_labels ["JOBS"] projects).
Proof.
  intros Hc. eexists. split; [|split].
  - apply (prune_columns_run p "SITE COUNCIL DISTRICT").
    + rewrite Hc. apply Forall_forall. by_compute.
    + rewrite Hc. by vm_compute.
  - cbn [columns]. rewrite Hc. by vm_compute.
  - rewrite drop_labels_present; [by eexists|]. cbn [columns]. rewrite Hc.
    apply Forall_forall. by_compute.
Qed.

Lemma setitem_columns c vals df : columns (setitem c vals df) = add_label c (columns df).
Proof. reflexivity. Qed.

Lemma project_rows_numbers typed :
  Forall is_number (series "TOTAL DEVELOPMENT COST" typed) ->
  Forall is_number ((fun r => cell_of r "TOTAL DEVELOPMENT COST") <$> project_rows typed).
Proof.
  intros H. apply Forall_fmap, Forall_forall. intros r Hr. simpl.
  apply (proj1 (Forall_forall _ _) H). unfold series.
  apply list_elem_of_fmap. exists r. split; [done|]. by eapply project_rows_elem.
Qed.

Lemma build_projects_completes obj typed :
  columns typed = descriptive_columns ->
  Forall (fun k => notna k = true) (series "PROJECT NUMBER" typed) ->
  Forall is_number (series "TOTAL DEVELOPMENT COST" typed) ->
  (∀ r, r ∈ project_rows typed -> is_number (cell_of r "PROJECT TOTAL UNITS")) ->
  (obj = true ->
   ∀ r, r ∈ project_rows typed -> zero_float (cell_of r "PROJECT TOTAL UNITS") = false) ->
  ∃ projects, build_projects obj typed = Ok projects
              ∧ columns projects = project_columns
              ∧ completes (drop_labels ["JOBS"] projects).
Proof.
  intros Hc Hk Htdc Hptu Hzero.
  destruct (build_projects_funded obj typed Hc Hk) as (p1 & Hc1 & Hx & Hy & ->).
  destruct (truediv_completes obj (series "TOTAL DEVELOPMENT COST" p1)
              (series "PROJECT TOTAL UNITS" p1)) as [cost Hcost].
  - rewrite Hx. by apply project_rows_numbers.
  - rewrite Hy. apply Forall_fmap, Forall_forall. intros r Hr. by apply Hptu.
  - intros Hobj. rewrite Hy. apply Forall_fmap, Forall_forall. intros r Hr.
    by apply Hzero.
  - rewrite Hcost, bind_Ok_l. apply prune_costed.
    rewrite setitem_columns, Hc1. by vm_compute.
Qed.

Lemma build_projects_stops typed :
  columns typed = descriptive_columns ->
  Forall (fun k => notna k = true) (series "PROJECT NUMBER" typed) ->
  Forall is_number (series "TOTAL DEVELOPMENT COST" typed) ->
  (∀ r, r ∈ project_rows typed -> is_timestamp (cell_of r "PROJECT TOTAL UNITS") = false) ->
  (∃ r x, r ∈ project_rows typed
          ∧ cell_of r "TOTAL DEVELOPMENT COST" = Flt x ∧ x ≠ S754_nan
          ∧ ¬ is_number (cell_of r "PROJECT TOTAL UNITS")) ->
  build_projects true typed = Raise ZeroDivision
  ∨ build_projects true typed = Raise UnsupportedOperand.
Proof.
  intros Hc Hk Htdc Hts (r & x & Hr & Hx & Hnan & Hn).
  destruct (build_projects_funded true typed Hc Hk) as (p1 & Hc1 & Ex & Ey & ->).
  apply list_elem_of_lookup in Hr as [i Hi].
  destruct (truediv_stops (series "TOTAL DEVELOPMENT COST" p1)
              (series "PROJECT TOTAL UNITS" p1) i x
              (cell_of r "PROJECT TOTAL UNITS")) as [-> | ->]; auto.
  - rewrite Ex. by apply project_rows_numbers.
  - rewrite Ey. apply Forall_fmap, Forall_forall. intros r' Hr'. by apply Hts.
  - unfold series. by rewrite !length_fmap.
  - by rewrite Ex, list_lookup_fmap, Hi, <- Hx.
  - by rewrite Ey, list_lookup_fmap, Hi.
  - intros b Hb. destruct Hn. by exists b.
Qed.

Lemma pipeline_prepare raw : completes (pipeline raw) <-> completes (prepare raw).
Proof.
  unfold pipeline. destruct (prepare raw) as [o| |]; simpl; split;
    intros [? ?]; try done; by eexists.
Qed.

Lemma keyed_series raw typed :
  series "PROJECT NUMBER" typed = project_key <$> kept_rows raw ->
  Forall (fun k => notna k = true) (series "PROJECT NUMBER" typed) <-> keyed raw.
Proof.
  intros ->. rewrite Forall_fmap, Forall_forall. unfold keyed, notna.
  apply forall_proper. intros r. simpl. by rewrite negb_true_iff.
Qed.

(** What the site table keeps of each kept row, it keeps of the first row
    of each project. *)
Lemma project_heads_rel (R : row -> row -> Prop) raw typed :
  Forall2 (fun r r' => project_key r' = project_key r ∧ R r r')
          (kept_rows raw) (rows typed) ->
  Forall2 R (project_heads raw) (first_by project_key [] (rows typed)).
Proof.
  intros H. unfold project_heads.
  eapply Forall2_impl;
    [apply (first_by_Forall2 _ project_key project_key); [|exact H]|].
  - by intros r r' [-> _].
  - by intros r r' [_ ?].
Qed.

(** X1. On the published header the pipeline runs through whenever the
    first row of the file has a text under DATE STAMP, every row the
    filter keeps has a project number, the first kept row of every
    project has a number under PROJECT TOTAL UNITS and, when the units of
    the file were not read as a column of numbers, none of these numbers
    is zero.  The site table then has one row for each kept row. *)
Theorem published_layout_run_completes raw :
  columns raw = published_columns ->
  stamped raw ->
  keyed raw ->
  (∀ r, r ∈ project_heads raw -> is_number (cell_of r "PROJECT TOTAL UNITS")) ->
  (object_dtype (series "PROJECT TOTAL UNITS" raw) = true ->
   ∀ r, r ∈ project_heads raw -> zero_float (cell_of r "PROJECT TOTAL UNITS") = false) ->
  ∃ out, pipeline raw = Ok out
         ∧ length (rows (lahd out)) = length (kept_rows raw).
Proof.
  intros Hraw (r0 & rest & s & H1 & H2) Hk Hu Hz.
  destruct (published_prepare raw Hraw) as (typed & Hc & Hkeys & Hrows & Htdc & Hrun).
  assert (Hheads : Forall2 (fun r r' => cell_of r' "PROJECT TOTAL UNITS"
                                        = cell_of r "PROJECT TOTAL UNITS")
                     (project_heads raw) (first_by project_key [] (rows typed))).
  { apply project_heads_rel. eapply Forall2_impl; [exact Hrows|].
    by intros ?? (? & ? & _). }
  apply (keyed_series _ _ Hkeys) in Hk.
  destruct (build_projects_completes
              (object_dtype (series "PROJECT TOTAL UNITS" raw)) typed Hc Hk Htdc)
    as (projects & Hp & Hcp & [nj Hnj]).
  { intros r' Hr'%elem_of_sort_by.
    destruct (Forall2_elem_r _ _ _ _ Hheads Hr') as (r & Hr & E).
    rewrite E. by apply Hu. }
  { intros Hobj r' Hr'%elem_of_sort_by.
    destruct (Forall2_elem_r _ _ _ _ Hheads Hr') as (r & Hr & E).
    rewrite E. by apply Hz. }
  exists (drop_incomplete (mkOutput (prefix_slice 10 s) typed projects nj)).
  split.
  - unfold pipeline. rewrite Hrun.
    rewrite (read_date_stamp_first raw r0 rest s) by (done || rewrite Hraw; by_compute).
    by rewrite bind_Ok_l, Hp, bind_Ok_l, Hnj, !bind_Ok_l.
  - simpl. symmetry. by eapply Forall2_length.
Qed.

(** X2. On the published header a kept row without project number stops
    the run at line 57: the groups of line 49 leave the missing key out,
    the rows of line 53 keep one row for it, and the assignment of the
    counts raises on the two lengths. *)
Theorem missing_project_number_stops_the_run raw :
  columns raw = published_columns ->
  stamped raw ->
  (∃ r, r ∈ kept_rows raw ∧ isna (project_key r) = true) ->
  pipeline raw = Raise LengthMismatch.
Proof.
  intros Hraw (r0 & rest & s & H1 & H2) (r & Hr & Hna).
  destruct (published_prepare raw Hraw) as (typed & Hc & Hkeys & _ & _ & Hrun).
  unfold pipeline. rewrite Hrun.
  rewrite (read_date_stamp_first raw r0 rest s) by (done || rewrite Hraw; by_compute).
  rewrite bind_Ok_l, build_projects_mismatch; [done|done|].
  rewrite (keyed_series _ _ Hkeys). intros Hk. by rewrite (Hk r Hr) in Hna.
Qed.

(** X3. On the published header a project whose units were read as text
    stops the run at line 67.  The units of the file are text and
    numbers, every kept row has a project number, and the first kept row
    of some project has a cost that reads as a number and is not missing
    over units that are no number: then the division raises, a
    [ZeroDivisionError] when it meets a zero among the units before, a
    [TypeError] otherwise. *)
Theorem text_units_stop_the_run raw :
  columns raw = published_columns ->
  stamped raw ->
  keyed raw ->
  Forall (fun c => is_timestamp c = false) (series "PROJECT TOTAL UNITS" raw) ->
  (∃ r, r ∈ project_heads raw
        ∧ cost_present (cell_of r "TDC")
        ∧ ¬ is_number (cell_of r "PROJECT TOTAL UNITS")) ->
  pipeline raw = Raise ZeroDivision ∨ pipeline raw = Raise UnsupportedOperand.
Proof.
  intros Hraw (r0 & rest & s & H1 & H2) Hk Hts (r & Hr & Hp & Hn).
  destruct (published_prepare raw Hraw) as (typed & Hc & Hkeys & Hrows & Htdc & Hrun).
  pose proof (project_heads_rel _ _ _ Hrows) as Hheads.
  assert (Hobj : object_dtype (series "PROJECT TOTAL UNITS" raw) = true).
  { destruct (object_dtype _) eqn:E; [done|]. destruct Hn.
    apply (proj1 (Forall_forall _ _) (object_dtype_numbers _ E)).
    unfold series. apply list_elem_of_fmap. exists r. split; [done|].
    apply elem_of_first_by in Hr. unfold kept_rows in Hr.
    by apply list_elem_of_filter in Hr as [_ Hr]. }
  rewrite Hobj in Hrun.
  assert (Hstop : build_projects true typed = Raise ZeroDivision
                  ∨ build_projects true typed = Raise UnsupportedOperand).
  { apply build_projects_stops; [done|by apply (keyed_series _ _ Hkeys)|done| |].
    - intros r' Hr'%elem_of_sort_by.
      destruct (Forall2_elem_r _ _ _ _ Hheads Hr') as (r1 & Hr1 & E & _).
      rewrite E. apply (proj1 (Forall_forall _ _) Hts).
      unfold series. apply list_elem_of_fmap. exists r1. split; [done|].
      apply elem_of_first_by in Hr1. unfold kept_rows in Hr1.
      by apply list_elem_of_filter in Hr1 as [_ Hr1].
    - destruct (Forall2_elem_l _ _ _ _ Hheads Hr) as (r' & Hr' & E & x & Ex & Hx).
      exists r', x. split; [by apply elem_of_sort_by|].
      split; [done|]. split; [by apply Hx|]. by rewrite E. }
  unfold pipeline. rewrite Hrun.
  rewrite (read_date_stamp_first raw r0 rest s) by (done || rewrite Hraw; by_compute).
  rewrite bind_Ok_l. destruct Hstop as [-> | ->]; auto.
Qed.

(** ** Cost per housing unit *)

Lemma isna_as_float c x : isna c = true -> as_float c = Some x -> x = S754_nan.
Proof. destruct c as [| |[]| | |]; simpl; congruence. Qed.

Lemma as_float_zero c y : is_zero c -> as_float c = Some y -> ∃ s, y = S754_zero s.
Proof.
  intros [->|[s ->]]; simpl; intros [= <-]; eauto.
Qed.

Lemma costed_rows raw o t tbl0 r :
  traced raw o t ->
  tbl0 ∈ [lahd_projects o; lahd_projects_no_jobs_column o] ->
  "TOTAL DEVELOPMENT COST" ∈ columns tbl0 ->
  "PROJECT TOTAL UNITS" ∈ columns tbl0 ->
  "COST PER HOUSING UNIT" ∈ columns tbl0 ->
  r ∈ rows tbl0 ->
  quotient_cell (object_dtype (series "PROJECT TOTAL UNITS" raw))
    (cell_of r "TOTAL DEVELOPMENT COST") (cell_of r "PROJECT TOTAL UNITS")
    (cell_of r "COST PER HOUSING UNIT").
Proof.
  intros Htr Ht Htdc Hptu Hcost Hr.
  assert (Hstep : frame_step [] (t_costed t) tbl0).
  { assert (H : frame_step [] (t_costed t) (lahd_projects o)).
    { apply prune_columns_step. apply Htr. }
    apply elem_of_cons in Ht as [->|Ht]; [done|].
    apply list_elem_of_singleton in Ht as ->.
    eapply frame_step_trans; [exact H|]. eapply step_drop_labels. apply Htr. }
  destruct (proj2 (frame_step_sel _ _ _ Hstep) r Hr) as (r2 & Hr2 & Hrow).
  rewrite !(row_step_cell _ _ _ _ _ Hrow) by (done || apply not_elem_of_nil).
  destruct Htr as (_ & _ & _ & _ & Hc & _).
  apply cost_per_unit_Ok in Hc as [_ Hall].
  eapply Forall_forall in Hall; [exact Hall|exact Hr2].
Qed.

(** The operands of line 67: the costs are floats, the units are values of
    the units column of the file. *)
Lemma division_operands raw p :
  before_division raw = Ok p ->
  "TOTAL DEVELOPMENT COST" ∈ columns p ->
  "PROJECT TOTAL UNITS" ∈ columns p ->
  Forall (fun c => is_flt c = true) (series "TOTAL DEVELOPMENT COST" p)
  ∧ Forall (fun c => c ∈ series "PROJECT TOTAL UNITS" raw)
           (series "PROJECT TOTAL UNITS" p).
Proof.
  unfold before_division. intros H Htdc Hptu.
  inv_bind H as stamp Hs. inv_bind H as filtered Hf. inv_bind H as renamed Hr.
  inv_bind H as numeric Hn. inv_bind H as typed Ht. inv_bind H as counted Hc.
  assert (Hlate : frame_sel ["NUMBER OF SITES"; "DATE FUNDED"; "YEAR FUNDED"] typed p).
  { eapply frame_sel_trans.
    - eapply frame_sel_weaken; [|apply (count_sites_sel _ _ Hc)].
      intros c ->%list_elem_of_singleton. decide_elem.
    - eapply frame_sel_weaken;
        [|apply frame_step_sel, (proj1 (funded_columns_Ok _ _ H))].
      intros c Hin. by right. }
  assert (Hclean : frame_sel cleaned_labels filtered typed).
  { apply frame_step_sel.
    eapply frame_step_trans; [|apply (coerce_types_step _ _ Ht)].
    eapply frame_step_weaken;
      [|eapply frame_step_trans;
        [apply (rename_columns_step _ _ Hr)|apply (coerce_numeric_step _ _ Hn)]].
    intros c Hin. apply elem_of_app. by left. }
  split; apply Forall_forall; intros c (r & -> & Hin)%list_elem_of_fmap;
    destruct (proj2 Hlate r Hin) as (r0 & H0 & Hstep).
  - rewrite (row_step_cell _ _ _ _ _ Hstep) by (done || by_compute).
    assert (Hin0 : cell_of r0 "TOTAL DEVELOPMENT COST"
                   ∈ series "TOTAL DEVELOPMENT COST" typed).
    { apply list_elem_of_fmap. eauto. }
    rewrite (coerce_types_series _ _ _ Ht) in Hin0 by done.
    assert (Hfl : Forall (fun v => is_flt v = true)
                    (series "TOTAL DEVELOPMENT COST" numeric)).
    { apply (coerce_numeric_floats _ _ _ Hn). by_compute. }
    apply (proj1 (Forall_forall _ _) Hfl _ Hin0).
  - rewrite (row_step_cell _ _ _ _ _ Hstep) by (done || by_compute).
    destruct (proj2 Hclean r0 H0) as (rf & Hrf & Hstep').
    assert (Hcol : "PROJECT TOTAL UNITS" ∈ columns typed).
    { destruct (proj1 Hlate _ Hptu) as [?|Hw]; [done|]. revert Hw. by_compute. }
    rewrite (row_step_cell _ _ _ _ _ Hstep') by (done || by_compute).
    apply list_elem_of_fmap. exists rf. split; [done|].
    rewrite (filter_rows_Ok_kept _ _ Hf) in Hrf. unfold kept_rows in Hrf.
    by apply list_elem_of_filter in Hrf as [_ Hrf].
Qed.

(** A completed run reached the division. *)
Lemma prepare_before_division raw o :
  prepare raw = Ok o -> ∃ t, traced raw o t ∧ before_division raw = Ok (t_funded t).
Proof.
  intros Ho. destruct (prepare_Ok _ _ Ho) as (t & Htr). exists t. split; [done|].
  destruct (prepare_clean _ _ Ho) as (filtered & renamed & numeric & Hf & Hr & Hn & Ht & _).
  destruct Htr as (_ & _ & Hc & Hd & _).
  unfold prepare in Ho. inv_bind Ho as stamp Hs.
  unfold before_division.
  by rewrite Hs, bind_Ok_l, Hf, bind_Ok_l, Hr, bind_Ok_l, Hn, bind_Ok_l, Ht,
    bind_Ok_l, Hc, bind_Ok_l.
Qed.

(** C2, amended.  When lines 13-64 have gone through and the units of
    the file were read as a column of numbers, the division of line 67
    goes through.  When the units were read as a column of objects, it
    goes through on no table with a row whose cost is present and whose
    units are zero or no number.  In the project table and its variant,
    before and after null-row removal, the cost per housing unit of a row
    is the binary64 quotient of its total development cost by its total
    units.  It is missing when an operand is missing and, in a column of
    objects, over units that are text or zero, where the cost itself is
    missing.  In a column of numbers zero units give a missing value when
    the cost is zero or missing, and otherwise an infinity, which is not a
    missing value. *)
Theorem cost_is_the_float_quotient raw p :
  before_division raw = Ok p ->
  "TOTAL DEVELOPMENT COST" ∈ columns p ->
  "PROJECT TOTAL UNITS" ∈ columns p ->
  let units_object := object_dtype (series "PROJECT TOTAL UNITS" raw) in
  (units_object = false -> completes (cost_per_unit units_object p))
  ∧ (units_object = true ->
     (∃ r x, r ∈ rows p
             ∧ cell_of r "TOTAL DEVELOPMENT COST" = Flt x ∧ x ≠ S754_nan
             ∧ (zero_float (cell_of r "PROJECT TOTAL UNITS") = true
                ∨ as_float (cell_of r "PROJECT TOTAL UNITS") = None)) ->
     ¬ completes (cost_per_unit units_object p))
  ∧ ∀ o out tbl r,
      prepare raw = Ok o ->
      pipeline raw = Ok out ->
      tbl ∈ [lahd_projects o; lahd_projects_no_jobs_column o;
             lahd_projects out; lahd_projects_no_jobs_column out] ->
      "TOTAL DEVELOPMENT COST" ∈ columns tbl ->
      "PROJECT TOTAL UNITS" ∈ columns tbl ->
      "COST PER HOUSING UNIT" ∈ columns tbl ->
      r ∈ rows tbl ->
      let tdc := cell_of r "TOTAL DEVELOPMENT COST" in
      let ptu := cell_of r "PROJECT TOTAL UNITS" in
      let cost := cell_of r "COST PER HOUSING UNIT" in
      ∃ x, as_float tdc = Some x
           ∧ match as_float ptu with
             | Some y => cost = Flt (F64.div x y)
             | None => units_object = true ∧ x = S754_nan ∧ cost = nan
             end
           ∧ (isna tdc = true ∨ isna ptu = true -> isna cost = true)
           ∧ (is_zero ptu ->
              if units_object then x = S754_nan ∧ isna cost = true
              else match x with
                   | S754_finite s _ _ | S754_infinity s =>
                       ∃ s', cost = Flt (S754_infinity s') ∧ isna cost = false
                   | _ => isna cost = true
                   end).
Proof.
  intros Hp Htdc Hptu. simpl.
  destruct (division_operands _ _ Hp Htdc Hptu) as [Hx Hy].
  split; [|split].
  - intros Hobj. rewrite Hobj, cost_per_unit_run by done.
    destruct (truediv_completes false (series "TOTAL DEVELOPMENT COST" p)
                (series "PROJECT TOTAL UNITS" p)) as [cost ->]; [| |done|by eexists].
    + eapply Forall_impl; [exact Hx|]. apply is_flt_number.
    + pose proof (object_dtype_numbers _ Hobj) as Hnum.
      eapply Forall_impl; [exact Hy|]. intros c Hc.
      apply (proj1 (Forall_forall _ _) Hnum c Hc).
  - intros Hobj (r & x & Hr & Ex & Hnan & Hbad) [p' Hp'].
    rewrite Hobj, cost_per_unit_run in Hp' by done.
    inv_bind Hp' as cost Hcost. clear Hp'.
    apply truediv_Ok in Hcost as [Hl Hall];
      [|by unfold series; rewrite !length_fmap].
    apply list_elem_of_lookup in Hr as [i Hi].
    destruct (lookup_lt_is_Some_2 cost i) as [c Hc].
    { rewrite Hl. unfold series. rewrite length_fmap. by eapply lookup_lt_Some. }
    destruct (Hall i (Flt x) (cell_of r "PROJECT TOTAL UNITS") c) as (x' & Hx' & Hq);
      [unfold series; by rewrite list_lookup_fmap, Hi, <- ?Ex..|done|].
    simpl in Hx'. injection Hx' as <-. unfold zero_float in Hbad.
    destruct (as_float (cell_of r "PROJECT TOTAL UNITS")) as [y|].
    + destruct Hbad as [Hz|?]; [|done]. destruct Hq as [_ Hq]. by apply Hnan, Hq.
    + by destruct Hq as (_ & ? & _).
  - intros o out tbl r Ho Hout Ht Hc1 Hc2 Hc3 Hr.
    destruct (prepare_Ok _ _ Ho) as (t & Htr).
    assert (∃ tbl0, tbl0 ∈ [lahd_projects o; lahd_projects_no_jobs_column o]
                    ∧ columns tbl = columns tbl0 ∧ r ∈ rows tbl0)
      as (tbl0 & Ht0 & Hcols & Hr0).
    { apply pipeline_Ok in Hout as (o' & Ho' & ->).
      assert (o' = o) as -> by congruence.
      repeat (apply elem_of_cons in Ht as [->|Ht]).
      - exists (lahd_projects o). split; [by left|done].
      - exists (lahd_projects_no_jobs_column o). split; [right; by left|done].
      - exists (lahd_projects o). split; [by left|]. split; [done|].
        simpl in Hr. by apply list_elem_of_filter in Hr as [_ Hr].
      - exists (lahd_projects_no_jobs_column o). split; [right; by left|].
        split; [done|]. simpl in Hr. by apply list_elem_of_filter in Hr as [_ Hr].
      - by apply elem_of_nil in Ht. }
    rewrite Hcols in Hc1, Hc2, Hc3.
    destruct (costed_rows _ _ _ _ _ Htr Ht0 Hc1 Hc2 Hc3 Hr0) as (x & Ex & Hq).
    exists x. split; [exact Ex|].
    destruct (as_float (cell_of r "PROJECT TOTAL UNITS")) as [y|] eqn:Ey.
    + destruct Hq as [-> Hq]. split; [done|]. split.
      * intros [Hna|Hna].
        -- by rewrite (isna_as_float _ _ Hna Ex).
        -- rewrite (isna_as_float _ _ Hna Ey). by rewrite div_nan_r.
      * intros Hz. destruct (as_float_zero _ _ Hz Ey) as [s ->].
        destruct (object_dtype _).
        -- rewrite (Hq eq_refl eq_refl). done.
        -- destruct x; simpl; eauto.
    + destruct Hq as (Hobj & -> & ->). split; [done|]. split; [done|].
      intros [E|[s E]]; rewrite E in Ey; done.
Qed.

(** ** 30. The date stamp *)

Lemma length_prefix_slice n s :
  String.length (prefix_slice n s) = Nat.min n (String.length s).
Proof.
  unfold prefix_slice. revert n. induction s as [|a s IH]; intros [|n]; simpl; try done.
  by rewrite IH.
Qed.

(** X4. The date stamp of a run that went through is read from the first
    row of the file as it was read, before any row is filtered out: it is
    the first ten characters of the text that row has under DATE STAMP,
    all of it when the text is shorter. *)
Theorem date_stamp_is_read_from_the_first_row raw out :
  pipeline raw = Ok out ->
  ∃ r rest s,
    rows raw = r :: rest
    ∧ cell_of r "DATE STAMP" = Str s
    ∧ date_stamp out = prefix_slice 10 s
    ∧ String.length (date_stamp out) = Nat.min 10 (String.length s).
Proof.
  intros (o & Ho & ->)%pipeline_Ok. unfold prepare in Ho.
  inv_bind Ho as stamp Hstamp. inv_bind Ho as filtered Hf.
  inv_bind Ho as renamed Hr. inv_bind Ho as numeric Hn.
  inv_bind Ho as typed Ht. inv_bind Ho as projects Hp.
  inv_bind Ho as no_jobs Hj. apply Ok_inj in Ho. subst o. simpl.
  apply read_date_stamp_Ok in Hstamp as (r & rest & s & H1 & H2 & ->).
  exists r, rest, s. repeat split; try done. apply length_prefix_slice.
Qed.

(** X5. A file that has the column DATE STAMP and no row stops the run at
    line 13, with the key error of position 0. *)
Theorem header_only_input_raises raw :
  "DATE STAMP" ∈ columns raw ->
  rows raw = [] ->
  pipeline raw = Raise (KeyError "0").
Proof.
  intros Hc Hr. unfold pipeline, prepare, read_date_stamp, getitem.
  rewrite (require_present _ _ Hc), !bind_Ok_l. unfold series. by rewrite Hr.
Qed.

(** ** 31. The dtype of the coerced columns *)

(** X6. After lines 28-35 each of the four monetary columns and JOBS
    holds numbers only, all of one dtype: no text survives the coercion,
    and a column with a missing value is a column of floats. *)
Theorem coerced_columns_hold_numbers raw out c :
  pipeline raw = Ok out ->
  c ∈ "JOBS" :: numeric_columns ->
  one_dtype (series c (lahd out))
  ∧ Forall is_number (series c (lahd out))
  ∧ ((∃ v, v ∈ series c (lahd out) ∧ isna v = true) ->
     Forall (fun v => is_flt v = true) (series c (lahd out))).
Proof.
  intros (o & Ho & ->)%pipeline_Ok Hc.
  destruct (prepare_clean _ _ Ho) as (filtered & renamed & numeric & _ & _ & Hn & Ht & _).
  assert (H : one_dtype (series c (lahd (drop_incomplete o)))).
  { simpl. rewrite (coerce_types_series _ _ _ Ht).
    - by apply (coerce_numeric_one _ _ _ Hn).
    - intros ->. revert Hc. by_compute. }
  split; [exact H|]. split; [by apply one_dtype_numbers|].
  intros (v & Hv & Hna). destruct H as [H|H]; [|exact H].
  apply (proj1 (Forall_forall _ _) H) in Hv. by destruct v as [| |[]| | |].
Qed.

(** ** 32. The site counts, added up *)

Lemma count_of_cons k x l :
  count_of k (x :: l) = ((if decide (x = k) then 1 else 0) + count_of k l)%nat.
Proof.
  unfold count_of. rewrite filter_cons. by destruct (decide (x = k)).
Qed.

(** The counts of pairwise distinct keys add up to the number of values
    that are among these keys. *)
Lemma sum_counts ks (l : list cell) :
  NoDup ks ->
  sum_list_with (fun k => count_of k l) ks = length (filter (fun x => x ∈ ks) l).
Proof.
  intros Hnd. induction l as [|x l IH].
  - simpl. induction ks as [|k ks IHk]; simpl; [done|].
    apply NoDup_cons in Hnd as [_ Hnd]. by rewrite IHk.
  - rewrite filter_cons.
    assert (Hx : sum_list_with (fun k => count_of k (x :: l)) ks
                 = ((if decide (x ∈ ks) then 1 else 0)
                    + sum_list_with (fun k => count_of k l) ks)%nat).
    { clear IH. induction ks as [|k ks IHk]; simpl.
      - done.
      - apply NoDup_cons in Hnd as [Hk Hnd]. rewrite (IHk Hnd), count_of_cons.
        destruct (decide (x = k)) as [->|Hne].
        + rewrite (decide_True (P := k ∈ k :: ks)) by (by left).
          rewrite (decide_False (P := k ∈ ks)) by done. lia.
        + destruct (decide (x ∈ ks)) as [Hin|Hin].
          * rewrite (decide_True (P := x ∈ k :: ks)) by (by right). lia.
          * rewrite (decide_False (P := x ∈ k :: ks)); [lia|].
            by intros [->|?]%elem_of_cons. }
    rewrite Hx, IH. by destruct (decide (x ∈ ks)).
Qed.

Lemma sum_unique_counts (l : list cell) :
  sum_list_with (fun k => count_of k l) (unique l) = length l.
Proof.
  rewrite sum_counts.
  - f_equal. apply (filter_all (fun x => x ∈ unique l)).
    apply Forall_forall. intros x. apply unique_elem_of.
  - pose proof (first_by_NoDup id [] l) as H. by rewrite list_fmap_id in H.
Qed.

Lemma sum_list_with_fmap {A B} (f : B -> nat) (g : A -> B) l :
  sum_list_with f (g <$> l) = sum_list_with (fun x => f (g x)) l.
Proof. induction l as [|x l IH]; csimpl; [done|]. by rewrite IH. Qed.

Lemma total_counts {A} (f : A -> nat) (l : list A) :
  total ((fun x => Int (Z.of_nat (f x))) <$> l) = Z.of_nat (sum_list_with f l).
Proof. induction l as [|x l IH]; csimpl; [done|]. rewrite IH. lia. Qed.

Lemma total_sublist l1 l2 :
  l1 `sublist_of` l2 -> Forall (fun c => 0 <= int_value c) l2 -> total l1 <= total l2.
Proof.
  induction 1 as [|x l1 l2 _ IH|x l1 l2 _ IH]; intros Hall; simpl; [lia| |];
    apply Forall_cons in Hall as [Hx Hall]; specialize (IH Hall); lia.
Qed.

Lemma project_keys_perm df :
  project_key <$> project_rows df ≡ₚ unique (series "PROJECT NUMBER" df).
Proof.
  unfold project_rows. rewrite sort_by_perm. unfold unique, series.
  by rewrite (first_by_map project_key).
Qed.

(** The site counts as line 57 writes them. *)
Lemma counted_series raw o t :
  traced raw o t ->
  "NUMBER OF SITES" ∈ columns (lahd_projects o) ->
  series "NUMBER OF SITES" (lahd_projects o)
  = (fun r => Int (Z.of_nat (count_of (project_key r)
                                      (series "PROJECT NUMBER" (lahd o)))))
      <$> project_rows (lahd o).
Proof.
  intros Ht Hc.
  rewrite (frame_step_series _ _ _ _ (late_step _ _ _ Ht)) by (done || by_compute).
  unfold series at 1. rewrite (counted_rows _ _ _ Ht), <- list_fmap_compose.
  apply list_fmap_ext. intros i r _. simpl. unfold with_count. apply cell_of_insert.
Qed.

(** X7. Before null-row removal the site counts of the project table add
    up to the number of rows the filter kept, so that every kept site row
    is counted for exactly one project; after null-row removal they add up
    to at most that. *)
Theorem site_counts_add_up raw o out :
  prepare raw = Ok o ->
  pipeline raw = Ok out ->
  "NUMBER OF SITES" ∈ columns (lahd_projects o) ->
  total (series "NUMBER OF SITES" (lahd_projects o)) = Z.of_nat (length (kept_rows raw))
  ∧ total (series "NUMBER OF SITES" (lahd_projects out))
    <= Z.of_nat (length (kept_rows raw)).
Proof.
  intros Ho (o' & Ho' & ->)%pipeline_Ok Hc.
  assert (o' = o) as -> by congruence. clear Ho'.
  destruct (prepare_Ok _ _ Ho) as [t Ht].
  pose proof (counted_series _ _ _ Ht Hc) as Hs.
  assert (Hlen : length (kept_rows raw) = length (series "PROJECT NUMBER" (lahd o))).
  { destruct Ht as (Hf & Hstep & _). unfold series. rewrite length_fmap.
    rewrite <- (filter_rows_Ok_kept _ _ Hf). apply (frame_step_length _ _ _ Hstep). }
  assert (Htotal : total (series "NUMBER OF SITES" (lahd_projects o))
                   = Z.of_nat (length (kept_rows raw))).
  { rewrite Hs, total_counts, Hlen. f_equal.
    rewrite <- (sum_list_with_fmap (fun k => count_of k _) project_key).
    rewrite project_keys_perm. apply sum_unique_counts. }
  split; [exact Htotal|]. rewrite <- Htotal.
  apply total_sublist.
  - unfold series. simpl. apply fmap_sublist, sublist_filter.
  - rewrite Hs. apply Forall_fmap, Forall_true. intros r. simpl. lia.
Qed.

(** ** 33. The year of the funding date *)

(** X8. In both terminal tables YEAR FUNDED is the first of January of
    the year that DATE FUNDED shows, and that year is 1678 or later: the
    year 1677, whose first of January no timestamp can hold, is read as
    missing and its rows are dropped. *)
Theorem year_funded_is_the_first_of_january raw out tbl r :
  pipeline raw = Ok out ->
  tbl ∈ [lahd_projects out; lahd_projects_no_jobs_column out] ->
  "DATE FUNDED" ∈ columns tbl ->
  "YEAR FUNDED" ∈ columns tbl ->
  r ∈ rows tbl ->
  ∃ d, valid_date d = true
       ∧ 1678 <= year d
       ∧ cell_of r "DATE FUNDED" = Str (isoformat d)
       ∧ cell_of r "YEAR FUNDED" = Date (mkdate (year d) 1 1).
Proof.
  intros (o & Ho & ->)%pipeline_Ok Ht Hdf Hyf Hr.
  destruct (prepare_Ok _ _ Ho) as (t & Htr).
  destruct (final_table_rows _ _ _ Ht Hr) as (tbl0 & Ht0 & -> & Hr0 & Hc).
  simpl in Hdf, Hyf.
  destruct (funded_cells _ _ _ _ _ Htr Ho Ht0 Hdf Hyf Hr0)
    as (r0 & Hin & Hst & Hd & Hy).
  pose proof (proj1 (complete_spec _ _) Hc _ Hyf) as Hna.
  rewrite Hy in Hna.
  destruct (year_start_date _ Hst Hna) as (d & _ & Hv & Hyr & Etext & Eyear).
  exists d. by rewrite Hd, Hy.
Qed.

Lemma digit_char_inj a b : digit_char a = digit_char b -> a mod 10 = b mod 10.
Proof.
  intros H. rewrite <- (proj2 (digit_char_spec a)), <- (proj2 (digit_char_spec b)).
  by rewrite H.
Qed.

(** X9. Lines 58-62 lose nothing of a funding date: two timestamps that
    show as the same ten characters are the same date. *)
Theorem funding_dates_show_as_distinct_texts d1 d2 :
  valid_date d1 = true ->
  valid_date d2 = true ->
  funded_text (Date d1) = funded_text (Date d2) ->
  d1 = d2.
Proof.
  intros H1 H2. rewrite !funded_text_date. intros Heq.
  assert (H : isoformat d1 = isoformat d2) by congruence. clear Heq.
  apply (f_equal chars) in H. unfold isoformat in H. rewrite !chars_text in H.
  unfold pad4, pad2 in H. simpl in H.
  injection H as Ha Hb Hc Hd He Hf Hg Hh.
  apply digit_char_inj in Ha, Hb, Hc, Hd, He, Hf, Hg, Hh.
  destruct (valid_date_bounds _ H1) as (Hy1 & Hm1 & Hd1).
  destruct (valid_date_bounds _ H2) as (Hy2 & Hm2 & Hd2).
  destruct d1 as [y1 m1 x1], d2 as [y2 m2 x2]. simpl in *.
  assert (y1 = y2).
  { rewrite <- (four_digits y1), <- (four_digits y2) by lia. congruence. }
  assert (m1 = m2).
  { rewrite <- (two_digits m1), <- (two_digits m2) by lia. congruence. }
  assert (x1 = x2).
  { rewrite <- (two_digits x1), <- (two_digits x2) by lia. congruence. }
  congruence.
Qed.

(** ** 34. The tables of the published layout *)

(** X10. On the published header the site table has the published
    columns under their descriptive names, the label at position 3 after
    the list drop of lines 70-76 is SITE COUNCIL DISTRICT, as the comment
    of line 78 says, and the project tables have the fifteen columns of
    [project_columns], fourteen without JOBS. *)
Theorem published_layout_tables raw out :
  pipeline raw = Ok out ->
  columns raw = published_columns ->
  columns (lahd out) = descriptive_columns
  ∧ columns (lahd_projects out) = project_columns
  ∧ columns (lahd_projects_no_jobs_column out)
    = filter (fun c => c ≠ "JOBS") project_columns
  ∧ ∃ o t p,
      prepare raw = Ok o
      ∧ traced raw o t
      ∧ columns (t_costed t) = costed_columns
      ∧ drop_labels dropped_columns (t_costed t) = Ok p
      ∧ columns p !! 3%nat = Some "SITE COUNCIL DISTRICT"
      ∧ drop_labels ["SITE COUNCIL DISTRICT"] p = Ok (lahd_projects o).
Proof.
  intros Hrun Hraw.
  destruct (published_layout_columns _ _ Hrun Hraw) as [Hp Hnj].
  apply pipeline_Ok in Hrun as (o & Ho & ->).
  destruct (published_prepare raw Hraw) as (typed & Hc & _ & _ & _ & Hrun).
  assert (Htyped : lahd o = typed).
  { rewrite Hrun in Ho. inv_bind Ho as stamp Hs. inv_bind Ho as projects Hpr.
    inv_bind Ho as nj Hj. apply Ok_inj in Ho. by subst o. }
  split; [simpl; by rewrite Htyped|]. split; [exact Hp|]. split; [exact Hnj|].
  destruct (prepare_Ok _ _ Ho) as (t & Htr).
  pose proof Htr as (_ & _ & Hcount & Hfund & Hcost & Hprune & _).
  assert (Hcc : columns (t_costed t) = costed_columns).
  { apply count_sites_Ok in Hcount as [Hcount _].
    apply funded_columns_columns in Hfund. apply cost_per_unit_columns in Hcost.
    rewrite Hcost, Hfund, Hcount, Htyped, Hc. by vm_compute. }
  unfold prune_columns in Hprune. inv_bind Hprune as p H1.
  pose proof (drop_labels_columns _ _ _ H1) as Hcp. rewrite Hcc in Hcp.
  assert (E : columns p !! 3%nat = Some "SITE COUNCIL DISTRICT").
  { rewrite Hcp. by vm_compute. }
  rewrite E in Hprune. by exists o, t, p.
Qed.

(** ** 35. The rows of the variant without the jobs column *)

Lemma dropna_without_jobs cols (l : list row) :
  (delete "JOBS" <$> filter (fun r => complete cols r = true) l)
  `sublist_of`
  filter (fun r => complete (filter (fun c => c ∉ ["JOBS"]) cols) r = true)
         (delete "JOBS" <$> l).
Proof.
  induction l as [|r l IH]; csimpl; [done|].
  rewrite !filter_cons.
  destruct (decide (complete cols r = true)) as [Hc|Hc].
  - rewrite decide_True.
    + csimpl. by apply sublist_skip.
    + apply complete_without_jobs. intros c Hin _.
      by apply (proj1 (complete_spec _ _) Hc).
  - destruct (decide (complete _ (delete "JOBS" r) = true)); [|done].
    by apply sublist_cons.
Qed.

(** X11. The variant without the jobs column has no JOBS entry, holds
    every terminal row of the project table without its JOBS entry, in the
    same order, and each of its rows comes from a row of the project table
    that is itself a terminal row unless its JOBS value is missing. *)
Theorem no_jobs_variant_has_the_project_rows raw out :
  pipeline raw = Ok out ->
  ("JOBS" ∉ columns (lahd_projects_no_jobs_column out))
  ∧ (delete "JOBS" <$> rows (lahd_projects out))
      `sublist_of` rows (lahd_projects_no_jobs_column out)
  ∧ ∀ r', r' ∈ rows (lahd_projects_no_jobs_column out) ->
          r' !! "JOBS" = None
          ∧ ∃ o r, prepare raw = Ok o
                   ∧ r ∈ rows (lahd_projects o)
                   ∧ r' = delete "JOBS" r
                   ∧ (isna (cell_of r "JOBS") = false -> r ∈ rows (lahd_projects out)).
Proof.
  intros (o & Ho & ->)%pipeline_Ok.
  destruct (prepare_Ok _ _ Ho) as (t & Htr).
  destruct Htr as (_ & _ & _ & _ & _ & _ & Hj).
  apply drop_jobs_Ok in Hj as [Hcj Hrj]. simpl. rewrite Hcj, Hrj.
  split; [|split].
  - intros [H _]%list_elem_of_filter. apply H. by left.
  - apply dropna_without_jobs.
  - intros r' [Hc (r & -> & Hr)%list_elem_of_fmap]%list_elem_of_filter.
    split; [apply lookup_delete_eq|].
    exists o, r. repeat (split; [done|]). intros Hna.
    apply list_elem_of_filter. split; [|done]. apply complete_spec. intros c Hin.
    destruct (decide (c = "JOBS")) as [->|Hne]; [done|].
    by apply (proj1 (complete_without_jobs _ _) Hc).
Qed.

(** ** 37. The dashboard *)

Lemma published_lahd_columns raw out :
  pipeline raw = Ok out -> columns raw = published_columns ->
  columns (lahd out) = descriptive_columns.
Proof.
  intros (o & Ho & ->)%pipeline_Ok Hraw.
  destruct (published_prepare raw Hraw) as (typed & Hc & _ & _ & _ & Hrun).
  rewrite Hrun in Ho. inv_bind Ho as stamp Hs. inv_bind Ho as projects Hpr.
  inv_bind Ho as nj Hj. apply Ok_inj in Ho. by subst o.
Qed.

Lemma Some_inj {A} (a b : A) : Some a = Some b -> a = b.
Proof. by intros [=]. Qed.

(** The callbacks one by one, each with the values its controls offer. *)
Ltac offered_cases Hcb :=
  unfold callbacks in Hcb;
  repeat (apply elem_of_cons in Hcb as [->|Hcb]); [ .. | by apply elem_of_nil in Hcb ];
  cbn [inputs handler] in *;
  repeat match goal with
    | H : Forall2 _ (_ :: _) _ |- _ =>
        apply Forall2_cons_inv_l in H as (? & ? & ? & H & ->)
    | H : Forall2 _ [] _ |- _ => apply Forall2_nil_inv_l in H as ->
    end;
  repeat match goal with
    | H : _ ∈ options_of _ _ |- _ =>
        vm_compute in H;
        repeat (apply elem_of_cons in H as [->|H]); [ .. | by apply elem_of_nil in H ]
    end.

(** X13. On the published header, whatever the controls of the layout
    offer is a choice the callbacks can draw: called with offered values,
    a callback gets as many values as its function takes, and every column
    its figure names (ALL and NONE are never passed as one) is a column of
    the frame it hands to plotly express. *)
Theorem callbacks_name_columns_of_their_frame raw out cb args :
  pipeline raw = Ok out ->
  columns raw = published_columns ->
  cb ∈ callbacks out ->
  Forall2 (fun inp a => a ∈ options_of inp.1 (layout out)) (inputs cb) args ->
  ∃ fig, handler cb args = Some fig
         ∧ ∀ c, c ∈ named_columns fig -> c ∈ columns (px.data_frame fig).
Proof.
  intros Hrun Hraw Hcb Hargs.
  destruct (published_layout_columns _ _ Hrun Hraw) as [Hp _].
  pose proof (published_lahd_columns _ _ Hrun Hraw) as Hl.
  offered_cases Hcb;
    (eexists; split; [reflexivity|]; apply Forall_forall;
     first [ change (px.data_frame _) with (lahd_projects out); rewrite Hp
           | change (px.data_frame _) with (lahd out); rewrite Hl ];
     by_compute).
Qed.

Example box_plot_options o :
  options_of "plot3_input3" (layout o)
  = ["ALL"; "HOUSING TYPE"; "CONSTRUCTION TYPE"; "SUPPORTIVE HOUSING"]
  ∧ named_columns (update_graph_plot3_output o "JOBS" "HOUSING TYPE" "ALL")
    = ["HOUSING TYPE"; "JOBS"; "PROJECT NUMBER"]
  ∧ named_columns (update_graph_plot4_output o "HOUSING TYPE" "LEVERAGE" "carto-voyager")
    = ["SITE LATITUDE"; "SITE LONGITUDE"; "HOUSING TYPE"; "LEVERAGE";
       "PROJECT NUMBER"; "SITE UNITS"].
Proof. repeat split. Qed.

Ltac drawn_by k out Hp Hl :=
  exists (default (mk_callback ("", "") [] (fun _ => None)) (callbacks out !! k));
  eexists _, _;
  split; [apply (list_elem_of_lookup_2 _ k); reflexivity|];
  split; [reflexivity|];
  split;
    [match goal with
     | |- Forall2 _ ?i _ => let i' := eval lazy in i in change i with i'
     end;
     repeat first
       [ apply List.Forall2_nil
       | apply List.Forall2_cons;
         [split; [reflexivity|eexists; split; [reflexivity|by_compute]]|] ]|];
  split; [reflexivity|];
  apply Forall_forall;
  first [ change (px.data_frame _) with (lahd_projects out); rewrite Hp
        | change (px.data_frame _) with (lahd out); rewrite Hl ];
  by_compute.

(** X14. No two callbacks write the same property, and every graph of
    the layout has a callback that draws it at the start: each of its
    inputs is the value of a control of the layout, the value the control
    shows at the start is one it offers, and the figure drawn from these
    values names columns of its frame (published header). *)
Theorem graphs_are_drawn_from_the_default_values raw out :
  pipeline raw = Ok out ->
  columns raw = published_columns ->
  NoDup (output <$> callbacks out)
  ∧ ∀ g, g ∈ graphs_of (layout out) ->
         ∃ cb defaults fig,
           cb ∈ callbacks out
           ∧ output cb = (g, "figure")
           ∧ Forall2 (fun inp v =>
                        inp.2 = "value"
                        ∧ ∃ os, find_control inp.1 (layout out) = Some (os, v)
                                ∧ v ∈ os)
                     (inputs cb) defaults
           ∧ handler cb defaults = Some fig
           ∧ ∀ c, c ∈ named_columns fig -> c ∈ columns (px.data_frame fig).
Proof.
  intros Hrun Hraw.
  destruct (published_layout_columns _ _ Hrun Hraw) as [Hp _].
  pose proof (published_lahd_columns _ _ Hrun Hraw) as Hl.
  split; [by_compute|]. intros g Hg. vm_compute in Hg.
  repeat (apply elem_of_cons in Hg as [->|Hg]); [ .. | by apply elem_of_nil in Hg ].
  - drawn_by 0%nat out Hp Hl.
  - drawn_by 1%nat out Hp Hl.
  - drawn_by 2%nat out Hp Hl.
  - drawn_by 3%nat out Hp Hl.
  - drawn_by 4%nat out Hp Hl.
  - drawn_by 5%nat out Hp Hl.
Qed.

(** X15. The table of line 105 is a child of the layout; it shows one
    record for each terminal row of the project table, with the columns of
    that table in their order and no missing value. *)
Theorem data_table_shows_complete_records raw out :
  pipeline raw = Ok out ->
  dash.DataTable (to_dict_records (lahd_projects out)) 8 ∈ children_of (layout out)
  ∧ length (to_dict_records (lahd_projects out)) = length (rows (lahd_projects out))
  ∧ ∀ rec, rec ∈ to_dict_records (lahd_projects out) ->
           rec.*1 = columns (lahd_projects out)
           ∧ ∀ k v, (k, v) ∈ rec -> isna v = false.
Proof.
  intros (o & Ho & ->)%pipeline_Ok. split; [|split].
  - apply (list_elem_of_lookup_2 _ 4%nat). reflexivity.
  - unfold to_dict_records. by rewrite length_fmap.
  - unfold to_dict_records.
    intros rec (r & -> & Hr)%list_elem_of_fmap. split.
    + rewrite <- list_fmap_compose. apply list_fmap_id.
    + intros k v (c & [= -> ->] & Hc)%list_elem_of_fmap.
      destruct (dropna_spec (lahd_projects o)) as (_ & _ & _ & H).
      by apply H.
Qed.

(** ** 38. The renamed cost column *)

(** X16. When the file has the column TDC, the site table has its values
    under TOTAL DEVELOPMENT COST, row by row for the kept rows, with the
    commas out and read as numbers, and no column TDC any more. *)
Theorem renamed_cost_column_holds_the_source_values raw out :
  pipeline raw = Ok out ->
  "TDC" ∈ columns raw ->
  series "TOTAL DEVELOPMENT COST" (lahd out)
  = monetary_coercion ((fun r => cell_of r "TDC") <$> kept_rows raw)
  ∧ ("TDC" ∉ columns (lahd out))
  ∧ "TOTAL DEVELOPMENT COST" ∈ columns (lahd out).
Proof.
  intros (o & Ho & ->)%pipeline_Ok Htdc.
  destruct (prepare_clean _ _ Ho)
    as (filtered & renamed & numeric & Hf & Hr & Hn & Ht & _).
  pose proof (filter_rows_Ok_kept _ _ Hf) as Hrows.
  apply filter_rows_Ok in Hf as [Hcf _].
  unfold rename_columns in Hr. inv_bind Hr as df1 H1.
  destruct (rename_column_series _ _ _ _ H1) as (Hs1 & Hno1 & _);
    [by rewrite Hcf|].
  pose proof (rename_column_series_other _ _ _ _ "TOTAL DEVELOPMENT COST" Hr) as Hs2.
  assert (Hno : "TDC" ∉ columns renamed).
  { intros Hin. destruct (rename_column_columns _ _ _ _ Hr _ Hin) as [[? _]|[? _]];
      done. }
  pose proof (coerce_numeric_columns _ _ Hn) as Hcn.
  pose proof (coerce_types_columns _ _ Ht) as Hct.
  simpl. split; [|split].
  - rewrite (coerce_types_series _ _ _ Ht) by done.
    rewrite (coerce_numeric_series _ _ _ Hn) by by_compute.
    rewrite Hs2, Hs1 by done. unfold series. by rewrite Hrows.
  - by rewrite Hct, Hcn.
  - rewrite Hct, Hcn. unfold coerce_numeric in Hn. inv_bind Hn as u Hu.
    apply (require_all_Ok _ _ _ Hu). by_compute.
Qed.

(** ** 39. The projects of the project table *)

(** X17. Before null-row removal the project table has exactly one row
    for each project number of the kept rows: its PROJECT NUMBER column is
    the sorted list of the distinct keys. *)
Theorem project_table_lists_every_project raw o :
  prepare raw = Ok o ->
  "PROJECT NUMBER" ∈ columns (lahd_projects o) ->
  series "PROJECT NUMBER" (lahd_projects o)
  = sort_by id (unique (project_key <$> kept_rows raw))
  ∧ length (rows (lahd_projects o))
    = length (unique (project_key <$> kept_rows raw)).
Proof.
  intros Ho Hc. destruct (prepare_Ok _ _ Ho) as (t & Htr).
  assert (Hs : series "PROJECT NUMBER" (lahd_projects o)
               = sort_by id (unique (project_key <$> kept_rows raw))).
  { rewrite (project_keys _ _ _ _ Htr) by (done || by left).
    unfold project_rows. rewrite sort_by_map, first_by_map.
    fold (series "PROJECT NUMBER" (lahd o)). unfold project_key at 1.
    change (first_by id [] ((fun r => cell_of r "PROJECT NUMBER") <$> rows (lahd o)))
      with (unique (series "PROJECT NUMBER" (lahd o))).
    rewrite (filtered_keys _ _ _ Htr). unfold series.
    destruct Htr as (Hf & _). by rewrite (filter_rows_Ok_kept _ _ Hf). }
  split; [exact Hs|].
  apply (f_equal length) in Hs. unfold series in Hs.
  by rewrite length_fmap, sort_by_length in Hs.
Qed.

(** ** 40. The frames of the charts *)

(** X18. On the published header every chart but the map is drawn from
    the terminal project table, and no column it names, whatever the
    controls offer, has a missing value in any row of that table. *)
Theorem project_charts_see_no_missing_value raw out cb args fig :
  pipeline raw = Ok out ->
  columns raw = published_columns ->
  cb ∈ callbacks out ->
  Forall2 (fun inp a => a ∈ options_of inp.1 (layout out)) (inputs cb) args ->
  handler cb args = Some fig ->
  px.chart_of fig ≠ px.scatter_map ->
  px.data_frame fig = lahd_projects out
  ∧ ∀ r c, r ∈ rows (px.data_frame fig) -> c ∈ named_columns fig ->
           isna (cell_of r c) = false.
Proof.
  intros Hrun Hraw Hcb Hargs Hfig Hchart.
  destruct (published_layout_columns _ _ Hrun Hraw) as [Hp _].
  assert (Hclean : ∀ r c, r ∈ rows (lahd_projects out) -> c ∈ project_columns ->
                          isna (cell_of r c) = false).
  { apply pipeline_Ok in Hrun as (o & _ & ->).
    destruct (dropna_spec (lahd_projects o)) as (_ & _ & _ & H).
    intros r c Hr Hc. rewrite <- Hp in Hc. by apply H. }
  offered_cases Hcb; apply Some_inj in Hfig; subst fig;
    first [ by destruct Hchart
          | split; [reflexivity|];
            intros r c Hr Hc; apply Hclean; [exact Hr|];
            revert c Hc; apply Forall_forall; by_compute ].
Qed.

(** The map is drawn from the site table, which null-row removal does not
    touch: in the sample it has a missing cost, and the cost is a column
    the map can be asked to size its marks by. *)
Example map_frame_is_not_cleaned :
  px.data_frame (update_graph_plot4_output sample_out "HOUSING TYPE"
                   "TOTAL DEVELOPMENT COST" "open-street-map") = lahd sample_out
  ∧ "TOTAL DEVELOPMENT COST" ∈ options_of "plot4_input2" (layout sample_out)
  ∧ ∃ r, r ∈ rows (lahd sample_out)
         ∧ isna (cell_of r "TOTAL DEVELOPMENT COST") = true.
Proof.
  split; [reflexivity|]. split; [by_compute|].
  apply Exists_exists. by_compute.
Qed.

(** ** 41. The columns the pipeline leaves alone *)

(** X19. The pipeline writes into the site table only under the labels it
    renames or coerces: any other column of the site table is a column of
    the file and has, row by row, the values of the kept rows as they were
    read. *)
Theorem site_table_keeps_the_other_columns raw out c :
  pipeline raw = Ok out ->
  c ∈ columns (lahd out) ->
  c ∉ cleaned_labels ->
  c ∈ columns raw
  ∧ series c (lahd out) = (fun r => cell_of r c) <$> kept_rows raw.
Proof.
  intros (o & Ho & ->)%pipeline_Ok Hc Hn. simpl in *.
  destruct (prepare_Ok _ _ Ho) as (t & Hf & Hstep & _).
  pose proof (filter_rows_Ok_kept _ _ Hf) as Hrows.
  apply filter_rows_Ok in Hf as [Hcf _]. split.
  - destruct (proj1 Hstep c Hc) as [H|H]; [by rewrite <- Hcf|done].
  - rewrite (frame_step_series _ _ _ _ Hstep) by done.
    unfold series. by rewrite Hrows.
Qed.

(** ** 42. The renamed site column *)

Lemma coerce_numeric_series_other df df' c :
  coerce_numeric df = Ok df' ->
  c ∉ "JOBS" :: numeric_columns ->
  series c df' = series c df.
Proof.
  unfold coerce_numeric. intros H Hc. inv_bind H as u Hu. inv_bind H as v Hv.
  apply Ok_inj in H. subst df'. clear Hu Hv.
  assert (Hne : ∀ l, l ∈ "JOBS" :: numeric_columns -> c ≠ l) by (by intros l Hl ->).
  unfold numeric_columns in *. cbn [foldl].
  repeat first
    [ rewrite series_update_series_ne
        by first [ apply Hne; by_compute
                 | apply length_numeric_float | apply length_numeric_integer ]
    | rewrite series_apply_map_ne by (apply Hne; by_compute) ].
  reflexivity.
Qed.

(** X20. When the file has the column SITE #, the site table has its
    values under SITE NUMBER, unchanged and row by row for the kept rows,
    and no column SITE # any more. *)
Theorem renamed_site_column_holds_the_source_values raw out :
  pipeline raw = Ok out ->
  "SITE #" ∈ columns raw ->
  series "SITE NUMBER" (lahd out) = (fun r => cell_of r "SITE #") <$> kept_rows raw
  ∧ ("SITE #" ∉ columns (lahd out))
  ∧ "SITE NUMBER" ∈ columns (lahd out).
Proof.
  intros (o & Ho & ->)%pipeline_Ok Hsite.
  destruct (prepare_clean _ _ Ho)
    as (filtered & renamed & numeric & Hf & Hr & Hn & Ht & _).
  pose proof (filter_rows_Ok_kept _ _ Hf) as Hrows.
  apply filter_rows_Ok in Hf as [Hcf _].
  unfold rename_columns in Hr. inv_bind Hr as df1 H1.
  pose proof (rename_column_series_other _ _ _ _ "SITE #" H1) as Hs1.
  assert (Hin1 : "SITE #" ∈ columns df1).
  { rewrite (rename_column_columns_eq _ _ _ _ H1). case_bool_decide; [|by rewrite Hcf].
    apply list_elem_of_fmap. exists "SITE #". split; [by_compute|by rewrite Hcf]. }
  destruct (rename_column_series _ _ _ _ Hr Hin1) as (Hs2 & Hno & _).
  pose proof (coerce_numeric_columns _ _ Hn) as Hcn.
  pose proof (coerce_types_columns _ _ Ht) as Hct.
  simpl. split; [|split].
  - rewrite (coerce_types_series _ _ _ Ht) by done.
    rewrite (coerce_numeric_series_other _ _ _ Hn) by by_compute.
    rewrite Hs2, Hs1 by done. unfold series. by rewrite Hrows.
  - by rewrite Hct, Hcn.
  - rewrite Hct, Hcn. unfold coerce_types in Ht. inv_bind Ht as u Hu.
    rewrite <- Hcn. apply (require_all_Ok _ _ _ Hu). by_compute.
Qed.

End Run.

(** ** The statements on the sample *)

(** The sample is read at half past noon on its date stamp. *)
#[global] Existing Instance sample_clock.

Lemma terminal_tables_have_no_missing_value_witness :
  pipeline sample = Ok sample_out
  ∧ ∃ o, prepare sample = Ok o
         ∧ null_rows_removed (lahd_projects o) (lahd_projects sample_out)
         ∧ null_rows_removed (lahd_projects_no_jobs_column o)
                             (lahd_projects_no_jobs_column sample_out).
Proof.
  split; [by_compute|].
  apply (terminal_tables_have_no_missing_value sample). by_compute.
Defined.

Lemma no_jobs_variant_keeps_more_rows_witness :
  pipeline sample = Ok sample_out
  ∧ (length (rows (lahd_projects sample_out))
     <= length (rows (lahd_projects_no_jobs_column sample_out)))%nat
  ∧ ∀ o, prepare sample = Ok o ->
         (∃ r, r ∈ rows (lahd_projects o)
               ∧ isna (cell_of r "JOBS") = true
               ∧ ∀ c, c ∈ columns (lahd_projects o) -> c ≠ "JOBS" ->
                      isna (cell_of r c) = false) ->
         (length (rows (lahd_projects sample_out))
          < length (rows (lahd_projects_no_jobs_column sample_out)))%nat.
Proof.
  split; [by_compute|].
  apply (no_jobs_variant_keeps_more_rows sample). by_compute.
Defined.

Lemma excluded_rows_never_appear_witness :
  pipeline sample = Ok sample_out
  ∧ (∀ t, t ∈ [lahd sample_out; lahd_projects sample_out;
               lahd_projects_no_jobs_column sample_out] ->
          ∀ r, r ∈ rows t -> ¬ excluded r)
  ∧ ∃ filtered,
      filter_rows sample = Ok filtered
      ∧ columns filtered = columns sample
      ∧ rows filtered `sublist_of` rows sample
      ∧ (∀ r, r ∈ rows filtered <-> r ∈ rows sample ∧ ¬ excluded r)
      ∧ length (rows (lahd sample_out)) = length (rows filtered).
Proof.
  split; [by_compute|].
  apply (excluded_rows_never_appear sample). by_compute.
Defined.

Lemma number_of_sites_counts_filtered_rows_witness :
  pipeline sample = Ok sample_out
  ∧ lahd_projects sample_out
    ∈ [lahd_projects sample_out; lahd_projects_no_jobs_column sample_out]
  ∧ "PROJECT NUMBER" ∈ columns (lahd_projects sample_out)
  ∧ "NUMBER OF SITES" ∈ columns (lahd_projects sample_out)
  ∧ ∃ filtered,
      filter_rows sample = Ok filtered
      ∧ series "PROJECT NUMBER" (lahd sample_out) = series "PROJECT NUMBER" filtered
      ∧ ∀ r, r ∈ rows (lahd_projects sample_out) ->
             cell_of r "NUMBER OF SITES"
             = Int (Z.of_nat (count_of (cell_of r "PROJECT NUMBER")
                                       (series "PROJECT NUMBER" filtered))).
Proof.
  repeat (split; [by_compute|]).
  apply (number_of_sites_counts_filtered_rows sample sample_out); by_compute.
Defined.

Lemma one_row_per_project_in_key_order_witness :
  pipeline sample = Ok sample_out
  ∧ lahd_projects sample_out
    ∈ [lahd_projects sample_out; lahd_projects_no_jobs_column sample_out]
  ∧ "PROJECT NUMBER" ∈ columns (lahd_projects sample_out)
  ∧ NoDup (series "PROJECT NUMBER" (lahd_projects sample_out))
  ∧ StronglySorted (fun a b => cell_leb a b = true ∧ a ≠ b)
                   (series "PROJECT NUMBER" (lahd_projects sample_out))
  ∧ ∀ r, r ∈ rows (lahd_projects sample_out) ->
         ∃ r0, first_with project_key (project_key r) (rows (lahd sample_out))
               = Some r0
               ∧ ∀ c, c ∈ columns (lahd_projects sample_out) ->
                      c ∉ derived_labels -> cell_of r c = cell_of r0 c.
Proof.
  repeat (split; [by_compute|]).
  apply (one_row_per_project_in_key_order sample sample_out); by_compute.
Defined.

Lemma terminal_rows_carry_a_parsed_date_witness :
  pipeline sample = Ok sample_out
  ∧ sample_project_row ∈ rows (lahd_projects sample_out)
  ∧ "DATE FUNDED" ∈ columns (lahd_projects sample_out)
  ∧ "YEAR FUNDED" ∈ columns (lahd_projects sample_out)
  ∧ ∃ d r0, valid_date d = true
            ∧ r0 ∈ rows (lahd sample_out)
            ∧ is_stamp (cell_of r0 "DATE FUNDED")
            ∧ date_of (cell_of r0 "DATE FUNDED") = Some d
            ∧ cell_of sample_project_row "DATE FUNDED" = Str (isoformat d)
            ∧ String.length (isoformat d) = 10%nat
            ∧ isoformat d ≠ "NaT".
Proof.
  repeat (split; [by_compute|]).
  apply (terminal_rows_carry_a_parsed_date sample sample_out (lahd_projects sample_out));
    by_compute.
Defined.

(** Against C3 as it is worded: a header that already carries the
    descriptive names has neither [TDC] nor [SITE #]; the renaming skips
    both and the pipeline runs to its end. *)
Lemma absent_source_columns_are_skipped :
  ("TDC" ∉ columns sample_descriptive)
  ∧ ("SITE #" ∉ columns sample_descriptive)
  ∧ pipeline sample_descriptive = Ok (result_of (pipeline sample_descriptive))
  ∧ ¬ rename_fails_loudly sample_descriptive.
Proof.
  repeat (split; [by_compute|]).
  intros H. destruct H as [e He]; [left; by_compute|].
  assert (Hok : pipeline sample_descriptive
                = Ok (result_of (pipeline sample_descriptive))) by by_compute.
  congruence.
Qed.

Lemma absent_cost_or_site_column_halts_witness :
  ((("TDC" ∉ columns sample_without_cost)
    ∧ ("TOTAL DEVELOPMENT COST" ∉ columns sample_without_cost)
    ∧ ¬ ("SITE #" ∈ columns sample_without_cost
         ∧ "SITE NUMBER" ∈ columns sample_without_cost))
   ∨ (("SITE #" ∉ columns sample_without_cost)
      ∧ ("SITE NUMBER" ∉ columns sample_without_cost)
      ∧ ¬ ("TDC" ∈ columns sample_without_cost
           ∧ "TOTAL DEVELOPMENT COST" ∈ columns sample_without_cost)))
  ∧ (∀ df, ¬ raises (rename_columns df))
  ∧ raises (pipeline sample_without_cost)
  ∧ ∀ filtered, filter_rows sample_without_cost = Ok filtered ->
      ∃ renamed, rename_columns filtered = Ok renamed
                 ∧ (raises (coerce_numeric renamed)
                    ∨ ∃ numeric, coerce_numeric renamed = Ok numeric
                                 ∧ raises (coerce_types numeric)).
Proof.
  assert (H : (("TDC" ∉ columns sample_without_cost)
    ∧ ("TOTAL DEVELOPMENT COST" ∉ columns sample_without_cost)
    ∧ ¬ ("SITE #" ∈ columns sample_without_cost
         ∧ "SITE NUMBER" ∈ columns sample_without_cost))
   ∨ (("SITE #" ∉ columns sample_without_cost)
      ∧ ("SITE NUMBER" ∉ columns sample_without_cost)
      ∧ ¬ ("TDC" ∈ columns sample_without_cost
           ∧ "TOTAL DEVELOPMENT COST" ∈ columns sample_without_cost))).
  { left. repeat split; by_compute. }
  split; [exact H|].
  exact (absent_cost_or_site_column_halts sample_without_cost H).
Defined.

Lemma monetary_text_parses_or_goes_missing_witness :
  (∀ c', c' ∈ numeric_columns -> c' ∈ columns sample_renamed)
  ∧ "JOBS" ∈ columns sample_renamed
  ∧ "TOTAL DEVELOPMENT COST" ∈ numeric_columns
  ∧ series "TOTAL DEVELOPMENT COST" sample_renamed !! 0%nat = Some (Str "1,234,500")
  ∧ ∃ df', coerce_numeric sample_renamed = Ok df'
      ∧ series "TOTAL DEVELOPMENT COST" df'
        = monetary_coercion (series "TOTAL DEVELOPMENT COST" sample_renamed)
      ∧ length (series "TOTAL DEVELOPMENT COST" df')
        = length (series "TOTAL DEVELOPMENT COST" sample_renamed)
      ∧ ∃ x, series "TOTAL DEVELOPMENT COST" df' !! 0%nat = Some (Flt x)
             ∧ match floatify (remove_commas "1,234,500") with
               | Some l =>
                   x = literal_float l ∨ x = F64.round32 (literal_float l)
                   ∨ ∃ z f, l = integer_literal z f
                            ∧ (x = F64.of_Z z ∨ x = F64.round32 (F64.of_Z z))
               | None => x = S754_nan
               end
             ∧ ("1,234,500" = "1,234,500" -> x = F64.of_Z 1234500)
             ∧ ("1,234,500" = "N/A" -> x = S754_nan).
Proof.
  assert (H : ∀ c', c' ∈ numeric_columns -> c' ∈ columns sample_renamed).
  { apply Forall_forall. by_compute. }
  split; [exact H|]. split; [by_compute|]. split; [by_compute|].
  split; [by_compute|].
  apply (monetary_text_parses_or_goes_missing sample_renamed); [exact H|by_compute..].
Defined.



Lemma published_layout_run_completes_witness :
  ∃ out, pipeline sample = Ok out
         ∧ length (rows (lahd out)) = length (kept_rows sample).
Proof.
  apply (published_layout_run_completes sample).
  - reflexivity.
  - eexists _, _, "01/02/2024 12:00:00 AM". split; [reflexivity|by_compute].
  - unfold keyed. apply Forall_forall. by_compute.
  - apply Forall_forall. by_compute.
  - intros H. exfalso. revert H. by_compute.
Defined.

Lemma missing_project_number_stops_the_run_witness :
  pipeline (sample_with unkeyed_site) = Raise LengthMismatch.
Proof.
  apply (missing_project_number_stops_the_run (sample_with unkeyed_site)).
  - reflexivity.
  - eexists _, _, "01/02/2024 12:00:00 AM". split; [reflexivity|by_compute].
  - exists unkeyed_site. split; by_compute.
Defined.

Lemma text_units_stop_the_run_witness :
  pipeline (sample_with text_units_site) = Raise ZeroDivision
  ∨ pipeline (sample_with text_units_site) = Raise UnsupportedOperand.
Proof.
  apply (text_units_stop_the_run (sample_with text_units_site)).
  - reflexivity.
  - eexists _, _, "01/02/2024 12:00:00 AM". split; [reflexivity|by_compute].
  - unfold keyed. apply Forall_forall. by_compute.
  - by_compute.
  - exists text_units_site. repeat split; by_compute.
Defined.

Lemma cost_is_the_float_quotient_witness :
  completes (cost_per_unit (object_dtype (series "PROJECT TOTAL UNITS" sample))
                           sample_funded)
  ∧ ∃ x, as_float (cell_of sample_zero_row "TOTAL DEVELOPMENT COST") = Some x
         ∧ match as_float (cell_of sample_zero_row "PROJECT TOTAL UNITS") with
           | Some y => cell_of sample_zero_row "COST PER HOUSING UNIT"
                       = Flt (F64.div x y)
           | None => object_dtype (series "PROJECT TOTAL UNITS" sample) = true
                     ∧ x = S754_nan
                     ∧ cell_of sample_zero_row "COST PER HOUSING UNIT" = nan
           end
         ∧ (isna (cell_of sample_zero_row "TOTAL DEVELOPMENT COST") = true
            ∨ isna (cell_of sample_zero_row "PROJECT TOTAL UNITS") = true ->
            isna (cell_of sample_zero_row "COST PER HOUSING UNIT") = true)
         ∧ (is_zero (cell_of sample_zero_row "PROJECT TOTAL UNITS") ->
            if object_dtype (series "PROJECT TOTAL UNITS" sample)
            then x = S754_nan
                 ∧ isna (cell_of sample_zero_row "COST PER HOUSING UNIT") = true
            else match x with
                 | S754_finite s _ _ | S754_infinity s =>
                     ∃ s', cell_of sample_zero_row "COST PER HOUSING UNIT"
                           = Flt (S754_infinity s')
                           ∧ isna (cell_of sample_zero_row "COST PER HOUSING UNIT")
                             = false
                 | _ => isna (cell_of sample_zero_row "COST PER HOUSING UNIT") = true
                 end).
Proof.
  destruct (cost_is_the_float_quotient sample sample_funded) as (HA & _ & HB);
    [by_compute..|].
  split; [apply HA; by_compute|].
  apply (HB sample_prepared sample_out (lahd_projects sample_out) sample_zero_row);
    by_compute.
Defined.

(** Against C2 as it is worded: the sample's project P1 has a cost of two
    million and no units; its cost per unit is +infinity, which is not a
    missing value, and the row is in the terminal table. *)
Lemma zero_units_give_infinity :
  pipeline sample = Ok sample_out
  ∧ sample_zero_row ∈ rows (lahd_projects sample_out)
  ∧ cell_of sample_zero_row "PROJECT TOTAL UNITS" = Int 0
  ∧ cell_of sample_zero_row "COST PER HOUSING UNIT" = Flt (S754_infinity false)
  ∧ ¬ cost_as_specified (lahd_projects sample_out).
Proof.
  repeat (split; [by_compute|]).
  intros H.
  assert (Hin : sample_zero_row ∈ rows (lahd_projects sample_out)) by by_compute.
  destruct (H sample_zero_row Hin) as [_ Hmiss].
  assert (Hna : isna (cell_of sample_zero_row "COST PER HOUSING UNIT") = false)
    by by_compute.
  rewrite Hmiss in Hna; [done|]. left. left. by_compute.
Qed.

Lemma date_stamp_is_read_from_the_first_row_witness :
  ∃ r rest s,
    rows sample = r :: rest
    ∧ cell_of r "DATE STAMP" = Str s
    ∧ date_stamp sample_out = prefix_slice 10 s
    ∧ String.length (date_stamp sample_out) = Nat.min 10 (String.length s).
Proof.
  apply (date_stamp_is_read_from_the_first_row sample). by_compute.
Defined.

Lemma header_only_input_raises_witness :
  pipeline header_only = Raise (KeyError "0").
Proof. apply (header_only_input_raises header_only); [by_compute|reflexivity]. Defined.

Lemma coerced_columns_hold_numbers_witness :
  one_dtype (series "JOBS" (lahd sample_out))
  ∧ Forall is_number (series "JOBS" (lahd sample_out))
  ∧ ((∃ v, v ∈ series "JOBS" (lahd sample_out) ∧ isna v = true) ->
     Forall (fun v => is_flt v = true) (series "JOBS" (lahd sample_out))).
Proof.
  apply (coerced_columns_hold_numbers sample); by_compute.
Defined.

Lemma site_counts_add_up_witness :
  total (series "NUMBER OF SITES" (lahd_projects sample_prepared))
  = Z.of_nat (length (kept_rows sample))
  ∧ total (series "NUMBER OF SITES" (lahd_projects sample_out))
    <= Z.of_nat (length (kept_rows sample)).
Proof.
  apply (site_counts_add_up sample sample_prepared sample_out); by_compute.
Defined.

Lemma year_funded_is_the_first_of_january_witness :
  ∃ d, valid_date d = true
       ∧ 1678 <= year d
       ∧ cell_of sample_project_row "DATE FUNDED" = Str (isoformat d)
       ∧ cell_of sample_project_row "YEAR FUNDED" = Date (mkdate (year d) 1 1).
Proof.
  apply (year_funded_is_the_first_of_january sample sample_out
           (lahd_projects sample_out)); by_compute.
Defined.

Lemma funding_dates_show_as_distinct_texts_witness :
  mkdate 2010 3 15 = mkdate 2010 3 15.
Proof.
  apply (funding_dates_show_as_distinct_texts (mkdate 2010 3 15) (mkdate 2010 3 15));
    reflexivity.
Defined.

Lemma published_layout_tables_witness :
  columns (lahd sample_out) = descriptive_columns
  ∧ columns (lahd_projects sample_out) = project_columns
  ∧ columns (lahd_projects_no_jobs_column sample_out)
    = filter (fun c => c ≠ "JOBS") project_columns
  ∧ ∃ o t p,
      prepare sample = Ok o
      ∧ traced sample o t
      ∧ columns (t_costed t) = costed_columns
      ∧ drop_labels dropped_columns (t_costed t) = Ok p
      ∧ columns p !! 3%nat = Some "SITE COUNCIL DISTRICT"
      ∧ drop_labels ["SITE COUNCIL DISTRICT"] p = Ok (lahd_projects o).
Proof.
  apply (published_layout_tables sample sample_out); [by_compute|reflexivity].
Defined.

Lemma no_jobs_variant_has_the_project_rows_witness :
  ("JOBS" ∉ columns (lahd_projects_no_jobs_column sample_out))
  ∧ (delete "JOBS" <$> rows (lahd_projects sample_out))
      `sublist_of` rows (lahd_projects_no_jobs_column sample_out)
  ∧ ∀ r', r' ∈ rows (lahd_projects_no_jobs_column sample_out) ->
          r' !! "JOBS" = None
          ∧ ∃ o r, prepare sample = Ok o
                   ∧ r ∈ rows (lahd_projects o)
                   ∧ r' = delete "JOBS" r
                   ∧ (isna (cell_of r "JOBS") = false
                      -> r ∈ rows (lahd_projects sample_out)).
Proof.
  apply (no_jobs_variant_has_the_project_rows sample sample_out). by_compute.
Defined.

Lemma callbacks_name_columns_of_their_frame_witness :
  ∃ fig, handler (box_plot_callback sample_out) ["JOBS"; "HOUSING TYPE"; "ALL"]
         = Some fig
         ∧ ∀ c, c ∈ named_columns fig -> c ∈ columns (px.data_frame fig).
Proof.
  apply (callbacks_name_columns_of_their_frame sample sample_out).
  - by_compute.
  - reflexivity.
  - apply (list_elem_of_lookup_2 _ 4%nat). reflexivity.
  - by_compute.
Defined.

Lemma graphs_are_drawn_from_the_default_values_witness :
  NoDup (output <$> callbacks sample_out)
  ∧ ∀ g, g ∈ graphs_of (layout sample_out) ->
         ∃ cb defaults fig,
           cb ∈ callbacks sample_out
           ∧ output cb = (g, "figure")
           ∧ Forall2 (fun inp v =>
                        inp.2 = "value"
                        ∧ ∃ os, find_control inp.1 (layout sample_out) = Some (os, v)
                                ∧ v ∈ os)
                     (inputs cb) defaults
           ∧ handler cb defaults = Some fig
           ∧ ∀ c, c ∈ named_columns fig -> c ∈ columns (px.data_frame fig).
Proof.
  apply (graphs_are_drawn_from_the_default_values sample sample_out);
    [by_compute|reflexivity].
Defined.

Lemma data_table_shows_complete_records_witness :
  dash.DataTable (to_dict_records (lahd_projects sample_out)) 8
    ∈ children_of (layout sample_out)
  ∧ length (to_dict_records (lahd_projects sample_out))
    = length (rows (lahd_projects sample_out))
  ∧ ∀ rec, rec ∈ to_dict_records (lahd_projects sample_out) ->
           rec.*1 = columns (lahd_projects sample_out)
           ∧ ∀ k v, (k, v) ∈ rec -> isna v = false.
Proof.
  apply (data_table_shows_complete_records sample sample_out). by_compute.
Defined.

Lemma renamed_cost_column_holds_the_source_values_witness :
  series "TOTAL DEVELOPMENT COST" (lahd sample_out)
  = monetary_coercion ((fun r => cell_of r "TDC") <$> kept_rows sample)
  ∧ ("TDC" ∉ columns (lahd sample_out))
  ∧ "TOTAL DEVELOPMENT COST" ∈ columns (lahd sample_out).
Proof.
  apply (renamed_cost_column_holds_the_source_values sample sample_out); by_compute.
Defined.

Lemma project_table_lists_every_project_witness :
  series "PROJECT NUMBER" (lahd_projects sample_prepared)
  = sort_by id (unique (project_key <$> kept_rows sample))
  ∧ length (rows (lahd_projects sample_prepared))
    = length (unique (project_key <$> kept_rows sample)).
Proof.
  apply (project_table_lists_every_project sample sample_prepared); by_compute.
Defined.

Lemma project_charts_see_no_missing_value_witness :
  px.data_frame (update_graph_plot3_output sample_out "JOBS" "HOUSING TYPE" "ALL")
  = lahd_projects sample_out
  ∧ ∀ r c,
      r ∈ rows (px.data_frame
                  (update_graph_plot3_output sample_out "JOBS" "HOUSING TYPE" "ALL")) ->
      c ∈ named_columns (update_graph_plot3_output sample_out "JOBS" "HOUSING TYPE" "ALL") ->
      isna (cell_of r c) = false.
Proof.
  apply (project_charts_see_no_missing_value sample sample_out
           (box_plot_callback sample_out) ["JOBS"; "HOUSING TYPE"; "ALL"]).
  - by_compute.
  - reflexivity.
  - apply (list_elem_of_lookup_2 _ 4%nat). reflexivity.
  - by_compute.
  - reflexivity.
  - discriminate.
Defined.

Lemma site_table_keeps_the_other_columns_witness :
  "SITE LATITUDE" ∈ columns sample
  ∧ series "SITE LATITUDE" (lahd sample_out)
    = (fun r => cell_of r "SITE LATITUDE") <$> kept_rows sample.
Proof.
  apply (site_table_keeps_the_other_columns sample sample_out); by_compute.
Defined.

Lemma renamed_site_column_holds_the_source_values_witness :
  series "SITE NUMBER" (lahd sample_out) = (fun r => cell_of r "SITE #") <$> kept_rows sample
  ∧ ("SITE #" ∉ columns (lahd sample_out))
  ∧ "SITE NUMBER" ∈ columns (lahd sample_out).
Proof.
  apply (renamed_site_column_holds_the_source_values sample sample_out); by_compute.
Defined.
